(** * HotelAudit: the audit session model and its exporters

    A shallow embedding of [audit_form_structure.py]: the data model
    ([ChecklistItem], [AuditResponse], [AuditSession]), the response
    management of a session, the tabular and the document exporter, the
    catalog loader and the best-effort persistence, followed by the
    properties of the specification that concern them. *)

From Stdlib Require Import NArith ZArith Ascii Lia.
From stdpp Require Import base option list strings gmap.

Local Open Scope N_scope.
#[local] Arguments String.append !_ _ / : simpl nomatch.

(** * Python strings *)

Module PyStr.

(** [s.startswith(pre)] *)
Fixpoint startswith (s pre : string) {struct pre} : bool :=
  match pre, s with
  | EmptyString, _ => true
  | String _ _, EmptyString => false
  | String a pre', String b s' =>
      if decide (a = b) then startswith s' pre' else false
  end.

(** [sep in s]: some suffix of [s] starts with [sep]. *)
Fixpoint contains (sep s : string) : bool :=
  match s with
  | EmptyString => startswith EmptyString sep
  | String _ s' => startswith s sep || contains sep s'
  end.

(** [s[n:]] *)
Fixpoint drop (n : nat) (s : string) : string :=
  match n, s with
  | O, _ => s
  | S _, EmptyString => EmptyString
  | S n', String _ s' => drop n' s'
  end.

(** What precedes the first occurrence of [sep] in [s]; all of [s] when
    there is none. *)
Fixpoint before (sep s : string) : string :=
  match s with
  | EmptyString => EmptyString
  | String c s' => if startswith s sep then EmptyString else String c (before sep s')
  end.

(** What follows the first occurrence of [sep] in [s]; nothing when there
    is none. *)
Fixpoint after (sep s : string) : string :=
  match s with
  | EmptyString => EmptyString
  | String c s' => if startswith s sep then drop (String.length sep) s else after sep s'
  end.

(** Whether one more cut is allowed: [maxsplit] is [None] for
    [s.split(sep)] and [Some k] for [s.split(sep, k)]. *)
Definition may_cut (maxsplit : option nat) : bool :=
  match maxsplit with
  | None => true
  | Some 0%nat => false
  | Some (S _) => true
  end.

Definition after_cut (maxsplit : option nat) : option nat :=
  match maxsplit with
  | None => None
  | Some k => Some (Nat.pred k)
  end.

(** The scan of [str.split] for a non-empty separator: left to right, cutting
    at each occurrence of [sep] that does not overlap the previous one.
    [skip] counts the characters of a matched separator still to be passed
    over, [cur] is the piece read so far. *)
Fixpoint split_scan (sep : string) (maxsplit : option nat) (skip : nat)
    (cur : string) (s : string) : list string :=
  match s with
  | EmptyString => [cur]
  | String c s' =>
      match skip with
      | S k => split_scan sep maxsplit k cur s'
      | O =>
          if may_cut maxsplit && startswith s sep
          then cur :: split_scan sep (after_cut maxsplit)
                        (Nat.pred (String.length sep)) EmptyString s'
          else split_scan sep maxsplit 0 (cur +:+ String c EmptyString) s'
      end
  end.

(** [s.split(sep)] and [s.split(sep, k)], for a non-empty [sep]. *)
Definition split (sep s : string) : list string :=
  split_scan sep None 0 EmptyString s.

Definition split_max (sep : string) (k : nat) (s : string) : list string :=
  split_scan sep (Some k) 0 EmptyString s.

(** [s.replace(old, new)] for one-character [old] and [new]. *)
Fixpoint replace_char (old new : ascii) (s : string) : string :=
  match s with
  | EmptyString => EmptyString
  | String c s' =>
      String (if decide (c = old) then new else c) (replace_char old new s')
  end.

(** Whether the character [c] occurs in [s]. *)
Fixpoint has_char (c : ascii) (s : string) : bool :=
  match s with
  | EmptyString => false
  | String d s' => bool_decide (d = c) || has_char c s'
  end.

(** Truthiness of a string: the empty string is falsy. *)
Definition truthy (s : string) : bool :=
  match s with
  | EmptyString => false
  | String _ _ => true
  end.

(** Truthiness of an [Optional[str]]: [None] and [""] are falsy. *)
Definition truthy_opt (o : option string) : bool :=
  match o with
  | None => false
  | Some s => truthy s
  end.

End PyStr.

(** * Decimal formatting *)

Module Fmt.

Definition digit_char (d : N) : ascii := ascii_of_N (48 + d).

(** The [w] low-order decimal digits of [n], most significant first. *)
Fixpoint fixed_digits (w : nat) (n : N) : string :=
  match w with
  | O => EmptyString
  | S w' => String (digit_char ((n / 10 ^ N.of_nat w') mod 10)) (fixed_digits w' n)
  end.

Fixpoint num_digits_fuel (fuel : nat) (n : N) : nat :=
  match fuel with
  | O => 1
  | S f => if n <? 10 then 1%nat else S (num_digits_fuel f (n / 10))
  end.

(** Number of decimal digits of [n] (1 for 0). *)
Definition num_digits (n : N) : nat := num_digits_fuel (N.to_nat n) n.

(** C's [%0wd] for a non-negative [n]: the decimal digits of [n], filled
    with zeros on the left up to width [w]. *)
Definition zero_padded (w : nat) (n : N) : string :=
  fixed_digits (Nat.max w (num_digits n)) n.

Definition digit_val (c : ascii) : option N :=
  let k := N_of_ascii c in
  if (48 <=? k) && (k <=? 57) then Some (k - 48) else None.

(** Reads exactly [w] decimal digits from the front of [s]. *)
Fixpoint take_digits (w : nat) (acc : N) (s : string) : option (N * string) :=
  match w with
  | O => Some (acc, s)
  | S w' =>
      match s with
      | EmptyString => None
      | String c s' =>
          match digit_val c with
          | Some d => take_digits w' (acc * 10 + d) s'
          | None => None
          end
      end
  end.

(** Reads the character [c] from the front of [s]. *)
Definition expect (c : ascii) (s : string) : option string :=
  match s with
  | String d s' => if decide (d = c) then Some s' else None
  | EmptyString => None
  end.

End Fmt.

(** * [datetime] *)

(** A naive [datetime], as [datetime.utcnow()] returns it. *)
Record datetime := mk_datetime {
  year : N; month : N; day : N;
  hour : N; minute : N; second : N; microsecond : N
}.

(** The ranges the [datetime] type enforces on its fields. *)
Definition valid_datetime (t : datetime) : Prop :=
  1 <= year t <= 9999 /\ 1 <= month t <= 12 /\ 1 <= day t <= 31 /\
  hour t <= 23 /\ minute t <= 59 /\ second t <= 59 /\ microsecond t <= 999999.

Module Datetime.
Import Fmt.

(** One directive of [strftime]; the source uses %Y %m %d %H %M %S only,
    any other directive is left as it is written. *)
Definition directive (d : ascii) (t : datetime) : string :=
  if decide (d = "Y"%char) then zero_padded 4 (year t)
  else if decide (d = "m"%char) then zero_padded 2 (month t)
  else if decide (d = "d"%char) then zero_padded 2 (day t)
  else if decide (d = "H"%char) then zero_padded 2 (hour t)
  else if decide (d = "M"%char) then zero_padded 2 (minute t)
  else if decide (d = "S"%char) then zero_padded 2 (second t)
  else String "%"%char (String d EmptyString).

(** [t.strftime(fmt)] *)
Fixpoint strftime (fmt : string) (t : datetime) : string :=
  match fmt with
  | EmptyString => EmptyString
  | String c rest =>
      if decide (c = "%"%char) then
        match rest with
        | String d rest' => directive d t +:+ strftime rest' t
        | EmptyString => String c EmptyString
        end
      else String c (strftime rest t)
  end.

(** [t.isoformat()] of a naive [datetime]: [YYYY-MM-DDTHH:MM:SS], followed
    by [.ffffff] when the microsecond is not 0. *)
Definition isoformat (t : datetime) : string :=
  zero_padded 4 (year t) +:+ "-" +:+ zero_padded 2 (month t) +:+ "-" +:+
  zero_padded 2 (day t) +:+ "T" +:+ zero_padded 2 (hour t) +:+ ":" +:+
  zero_padded 2 (minute t) +:+ ":" +:+ zero_padded 2 (second t) +:+
  (if decide (microsecond t = 0) then "" else "." +:+ zero_padded 6 (microsecond t)).

End Datetime.


(** * Python values, exceptions, effects *)

(** A value of type [Any], as far as JSON data goes. *)
#[local] Unset Elimination Schemes.
Inductive pyval :=
| VNone
| VInt (n : Z)
| VStr (s : string)
| VList (l : list pyval)
| VDict (d : gmap string pyval).
#[local] Set Elimination Schemes.

(** [None] or a string. *)
Definition opt_str (o : option string) : pyval :=
  match o with
  | None => VNone
  | Some s => VStr s
  end.

(** A dict display [{k1: v1, ..., kn: vn}]: the entries are stored from left
    to right. *)
Definition dict_literal (kvs : list (string * pyval)) : gmap string pyval :=
  foldl (fun d kv => <[kv.1 := kv.2]> d) ∅ kvs.

(** Instances of [Exception], by class. *)
Inductive exception :=
| FileNotFoundError
| PermissionError
| IsADirectoryError
| JSONDecodeError
| UnicodeDecodeError
| TypeError
| ValueError
| AttributeError
| IndexError
| KeyError.

(** The outcome of running Python code: a value, or a raised exception. *)
Inductive result (A : Type) :=
| Ok (a : A)
| Raise (e : exception).
Arguments Ok {A} a.
Arguments Raise {A} e.

Definition result_bind {A B} (m : result A) (k : A -> result B) : result B :=
  match m with
  | Ok a => k a
  | Raise e => Raise e
  end.

Notation "x <~ m ;; k" := (result_bind m (fun x => k))
  (at level 100, m at next level, right associativity).

(** [l[i]] *)
Definition index {A} (l : list A) (i : nat) : result A :=
  match l !! i with
  | Some a => Ok a
  | None => Raise IndexError
  end.

(** What a run leaves behind besides its value: records of the [logging]
    module and messages shown to the user by Streamlit. *)
Inductive event :=
| logging_info (fmt arg : string)
| logging_error (fmt : string) (e : exception)
| st_error (msg : string).

(** * Constants *)

Definition GENERAL_CATEGORIES : list string :=
  [ "Facade & Structure"; "Main Lobby"; "Corridors & Hallways"; "Public Toilets";
    "Spa & Wellness"; "Fitness Center"; "Swimming Pools";
    "Landscaping & Outdoor"; "Parking & Entry" ].

Definition RATING_OPTIONS : list string :=
  [ "1 - Needs to be changed due to age-related factors";
    "2 - Needs to be changed to match competing hotels";
    "3 - Not applicable";
    "4 - No action required" ].

(** * Data models *)

Module ChecklistItem.

Record t := mk { section : string; item : string; note : string }.

(** [ChecklistItem(section, item)], with the default note. *)
Definition new (section item : string) : t :=
  mk section item "Provide observation or reason".

End ChecklistItem.

Module AuditResponse.

Record t := mk {
  checklist_item : ChecklistItem.t;
  rating : string;
  comment : string;
  photo_file : option string;
  context : option string;
  timestamp : datetime
}.

(** [AuditResponse(checklist_item, rating, comment, photo_file, context)],
    built at the instant [now] read from the clock. *)
Definition new (checklist_item : ChecklistItem.t) (rating comment : string)
    (photo_file context : option string) (now : datetime) : t :=
  mk checklist_item rating comment photo_file context now.

Definition to_dict (self : t) : gmap string pyval :=
  dict_literal
    [ ("context", opt_str (context self));
      ("section", VStr (ChecklistItem.section (checklist_item self)));
      ("item", VStr (ChecklistItem.item (checklist_item self)));
      ("note", VStr (ChecklistItem.note (checklist_item self)));
      ("rating", VStr (rating self));
      ("comment", VStr (comment self));
      ("photo_file", opt_str (photo_file self));
      ("timestamp", VStr (Datetime.isoformat (timestamp self))) ].

(** The property [rating_description]. *)
Definition rating_description (self : t) : result string :=
  if PyStr.contains " - " (rating self)
  then index (PyStr.split_max " - " 1 (rating self)) 1
  else Ok (rating self).

(** The identifying key of a response. *)
Definition key (self : t) : string * string * option string :=
  (ChecklistItem.section (checklist_item self),
   ChecklistItem.item (checklist_item self),
   context self).

End AuditResponse.

(** ** Objects and references

    A session holds references to its [AuditResponse] objects, and
    [list.remove] compares them by identity, the class defining no [__eq__].
    No attribute of an [AuditResponse] is assigned after its construction, so
    the store is a fixed map [obj] from references to objects. *)

Definition ref := nat.

(** A dict whose order of insertion is observed: the entries in that order,
    each key once. *)
Definition odict (V : Type) := list (string * V).

Module OrderedDict.

Fixpoint get {V} (k : string) (d : odict V) : option V :=
  match d with
  | [] => None
  | (k', v) :: d' => if decide (k' = k) then Some v else get k d'
  end.

(** [k in d] *)
Definition mem {V} (k : string) (d : odict V) : bool :=
  bool_decide (k ∈ d.*1).

(** [d[k] = v]: a present key keeps its place, a new one goes last. *)
Fixpoint set {V} (k : string) (v : V) (d : odict V) : odict V :=
  match d with
  | [] => [(k, v)]
  | (k', v') :: d' =>
      if decide (k' = k) then (k', v) :: d' else (k', v') :: set k v d'
  end.

(** [d[k]] *)
Definition getitem {V} (k : string) (d : odict V) : result V :=
  match get k d with
  | Some v => Ok v
  | None => Raise KeyError
  end.

End OrderedDict.

(** The keys of a sequence in the order of their first appearance. *)
Definition first_seen (ks : list string) : list string :=
  foldl (fun acc k => if decide (k ∈ acc) then acc else acc ++ [k]) [] ks.

(** [list.remove(x)]: removes the first element equal to [x]; [ValueError]
    when there is none. *)
Fixpoint list_remove_first (x : ref) (l : list ref) : result (list ref) :=
  match l with
  | [] => Raise ValueError
  | y :: l' =>
      if decide (y = x) then Ok l'
      else (l'' <~ list_remove_first x l' ;; Ok (y :: l''))
  end.

Module AuditSession.

Record t := mk {
  session_id : string;
  hotel_info : gmap string pyval;
  auditor_name : string;
  timestamp : datetime;
  responses : list ref
}.

(** [AuditSession(hotel_info, auditor_name)]. The clock is read twice: [now_id]
    for the identifier, [now_ts] for the timestamp. Only a [str] has the
    [replace] that is called on the name. *)
Definition new (hotel_info : gmap string pyval) (auditor_name : string)
    (now_id now_ts : datetime) : result t :=
  match default (VStr "Hotel") (hotel_info !! "name") with
  | VStr name =>
      let safe_hotel_name := PyStr.replace_char " " "_" name in
      Ok (mk (safe_hotel_name +:+ "_" +:+ Datetime.strftime "%Y%m%d_%H%M%S" now_id)
            hotel_info auditor_name now_ts [])
  | _ => Raise AttributeError
  end.

Definition with_responses (self : t) (rs : list ref) : t :=
  mk (session_id self) (hotel_info self) (auditor_name self) (timestamp self) rs.

Definition add_response (self : t) (response : ref) : t :=
  with_responses self (responses self ++ [response]).

(** [self.responses.remove(r)] *)
Definition remove (self : t) (r : ref) : result t :=
  rs <~ list_remove_first r (responses self) ;; Ok (with_responses self rs).

Definition summary (self : t) : gmap string pyval :=
  dict_literal
    [ ("session_id", VStr (session_id self));
      ("hotel", VDict (hotel_info self));
      ("auditor", VStr (auditor_name self));
      ("responses_count", VInt (Z.of_nat (length (responses self))));
      ("timestamp", VStr (Datetime.isoformat (timestamp self))) ].

Section WithStore.
Variable obj : ref -> AuditResponse.t.

Definition section_of (r : ref) : string :=
  ChecklistItem.section (AuditResponse.checklist_item (obj r)).

Definition item_of (r : ref) : string :=
  ChecklistItem.item (AuditResponse.checklist_item (obj r)).

Definition to_dict (self : t) : gmap string pyval :=
  dict_literal
    [ ("session_id", VStr (session_id self));
      ("hotel_info", VDict (hotel_info self));
      ("auditor_name", VStr (auditor_name self));
      ("timestamp", VStr (Datetime.isoformat (timestamp self)));
      ("responses",
        VList ((fun r => VDict (AuditResponse.to_dict (obj r))) <$> responses self)) ].

(** One turn of the loop of [get_responses_by_section]. *)
Definition group_step (sections : odict (list ref)) (response : ref)
    : result (odict (list ref)) :=
  let section := section_of response in
  let sections :=
    if negb (OrderedDict.mem section sections)
    then OrderedDict.set section [] sections
    else sections in
  l <~ OrderedDict.getitem section sections ;;
  Ok (OrderedDict.set section (l ++ [response]) sections).

Fixpoint group_loop (sections : odict (list ref)) (rs : list ref)
    : result (odict (list ref)) :=
  match rs with
  | [] => Ok sections
  | response :: rest =>
      sections' <~ group_step sections response ;; group_loop sections' rest
  end.

Definition get_responses_by_section (self : t) : result (odict (list ref)) :=
  group_loop [] (responses self).

(** [save_to_file], where [write] is what opening the file and dumping
    [self.to_dict()] into it raises, if anything. It returns the session as
    the call leaves it, the path, what reached the disk and the events. *)
Definition save_to_file (self : t) (write : option exception)
    : t * string * option pyval * list event :=
  let file_path := "audits/" +:+ session_id self +:+ ".json" in
  match write with
  | None =>
      (self, file_path, Some (VDict (to_dict self)),
       [logging_info "Session saved successfully to %s" file_path])
  | Some e =>
      (self, file_path, None,
       [logging_error "Error saving session file: %s" e;
        st_error "Error saving session data."])
  end.

End WithStore.

End AuditSession.

(** * The tabular exporter *)

(** [pandas.DataFrame], as far as the exporter uses it: a table built from a
    list of dicts takes its columns from their keys, in the order of first
    appearance, and has one row per dict; a cell whose key is missing is
    empty. *)
Module pd.

Record DataFrame := mk {
  columns : list string;
  rows : list (list (option string))
}.

Definition DataFrame_of (data : list (odict string)) : DataFrame :=
  let columns := first_seen (data ≫= fun d => d.*1) in
  mk columns ((fun d => (fun c => OrderedDict.get c d) <$> columns) <$> data).

(** [df.empty]: some axis has length 0. *)
Definition empty (df : DataFrame) : bool :=
  bool_decide (columns df = []) || bool_decide (rows df = []).

Fixpoint position (c : string) (cs : list string) : option nat :=
  match cs with
  | [] => None
  | c' :: cs' => if decide (c' = c) then Some 0%nat else S <$> position c cs'
  end.

(** The cell of row [i] in column [c]. *)
Definition cell (df : DataFrame) (i : nat) (c : string) : option string :=
  row ← rows df !! i; j ← position c (columns df); mjoin (row !! j).

End pd.

(** [x or d] for an [Optional[str]] [x]. *)
Definition py_or (x : option string) (d : string) : string :=
  match x with
  | Some s => if PyStr.truthy s then s else d
  | None => d
  end.

(** The rating shown in the table: the first option that starts with what
    precedes the first [" - "] of the stored rating, the stored rating when
    there is none. *)
Definition rating_desc (rating : string) : result string :=
  rating_num <~ index (PyStr.split " - " rating) 0 ;;
  Ok (default rating
        (head (filter (fun opt => PyStr.startswith opt rating_num) RATING_OPTIONS))).

Definition excel_row (response : AuditResponse.t) : result (odict string) :=
  desc <~ rating_desc (AuditResponse.rating response) ;;
  Ok [ ("Section", ChecklistItem.section (AuditResponse.checklist_item response));
       ("Item", ChecklistItem.item (AuditResponse.checklist_item response));
       ("Rating", desc);
       ("Comment", AuditResponse.comment response);
       ("Context", py_or (AuditResponse.context response) "General");
       ("Photo", if PyStr.truthy_opt (AuditResponse.photo_file response)
                 then "Yes" else "No");
       ("Timestamp",
         Datetime.strftime "%Y-%m-%d %H:%M" (AuditResponse.timestamp response)) ].

(** What the Export button of [main] arrives at. *)
Inductive export_outcome :=
| download_button (df : pd.DataFrame)
| sidebar_warning (msg : string).

Section Exporters.
Variable obj : ref -> AuditResponse.t.

Fixpoint excel_loop (data : list (odict string)) (rs : list ref)
    : result (list (odict string)) :=
  match rs with
  | [] => Ok data
  | response :: rest =>
      row <~ excel_row (obj response) ;; excel_loop (data ++ [row]) rest
  end.

Definition generate_excel_data (session : AuditSession.t) : result pd.DataFrame :=
  data <~ excel_loop [] (AuditSession.responses session) ;;
  Ok (pd.DataFrame_of data).

Definition export_to_excel (session : AuditSession.t) : result export_outcome :=
  df <~ generate_excel_data session ;;
  Ok (if negb (pd.empty df) then download_button df
      else sidebar_warning "No audit data available to export").

End Exporters.

(** * The document exporter *)

(** The calls made on an [FPDF] object, in order. *)
Module FPDF.

Inductive op :=
| add_page
| set_font (family style : string) (size : N)
| cell (w h : N) (txt : string) (ln : bool) (align : string)
| ln (h : N)
| multi_cell (w h : N) (txt : string).

End FPDF.

(** [str(n)] for a natural number. *)
Definition str_of_nat (n : nat) : string := Fmt.zero_padded 1 (N.of_nat n).

(** The three paragraphs of one finding, numbered [idx]. *)
Definition finding (idx : nat) (r : AuditResponse.t) : result (list FPDF.op) :=
  let context_info :=
    match AuditResponse.context r with
    | Some c => if PyStr.truthy c then " (" +:+ c +:+ ")" else ""
    | None => ""
    end in
  desc <~ AuditResponse.rating_description r ;;
  Ok [ FPDF.multi_cell 0 6
         (str_of_nat idx +:+ ". Item: " +:+
          ChecklistItem.item (AuditResponse.checklist_item r) +:+ context_info);
       FPDF.multi_cell 0 6 ("Rating: " +:+ desc);
       FPDF.multi_cell 0 6 ("Comment: " +:+ AuditResponse.comment r);
       FPDF.ln 2 ].

Section Document.
Variable obj : ref -> AuditResponse.t.
(** [str(v)], which an f-string applies to the value it shows. *)
Variable py_str : pyval -> string.

(** [for idx, r in enumerate(responses, idx): ...] *)
Fixpoint findings_loop (idx : nat) (responses : list ref) : result (list FPDF.op) :=
  match responses with
  | [] => Ok []
  | r :: rest =>
      ops <~ finding idx (obj r) ;;
      ops' <~ findings_loop (S idx) rest ;;
      Ok (ops ++ ops')
  end.

(** [for section, responses in sections.items(): ...] *)
Fixpoint sections_loop (sections : odict (list ref)) : result (list FPDF.op) :=
  match sections with
  | [] => Ok []
  | (section, responses) :: rest =>
      ops <~ findings_loop 1 responses ;;
      ops' <~ sections_loop rest ;;
      Ok ([ FPDF.ln 5; FPDF.set_font "Arial" "B" 11;
            FPDF.cell 0 8 ("Section: " +:+ section) true "";
            FPDF.set_font "Arial" "" 10 ] ++ ops ++ ops')
  end.

Definition info (hotel_info : gmap string pyval) (k : string) : string :=
  py_str (default (VStr "N/A") (hotel_info !! k)).

Definition report_head (session : AuditSession.t) : list FPDF.op :=
  let hotel_info := AuditSession.hotel_info session in
  [ FPDF.add_page;
    FPDF.set_font "Arial" "" 12;
    FPDF.cell 200 10 "Hotel Audit Report" true "C";
    FPDF.ln 10;
    FPDF.set_font "Arial" "B" 12;
    FPDF.cell 200 10 "Hotel Information" true "";
    FPDF.set_font "Arial" "" 11;
    FPDF.cell 0 8 ("Hotel Name: " +:+ info hotel_info "name") true "";
    FPDF.cell 0 8 ("Location: " +:+ info hotel_info "city" +:+ ", " +:+
                   info hotel_info "country") true "";
    FPDF.cell 0 8 ("Year Opened: " +:+ info hotel_info "year_opened") true "";
    FPDF.cell 0 8 ("Floors: " +:+ info hotel_info "floors") true "";
    FPDF.cell 0 8 ("Total Rooms: " +:+ info hotel_info "total_rooms") true "";
    FPDF.ln 5;
    FPDF.cell 0 8 ("Auditor: " +:+ AuditSession.auditor_name session) true "";
    FPDF.cell 0 8 ("Date: " +:+ Datetime.strftime "%Y-%m-%d %H:%M"
                                  (AuditSession.timestamp session)) true "";
    FPDF.ln 10;
    FPDF.set_font "Arial" "B" 12;
    FPDF.cell 200 10 "Audit Findings" true "";
    FPDF.set_font "Arial" "" 11 ].

(** [generate_pdf_report], where [output] is what [pdf.output(file_path)]
    raises, if anything. It returns the session as the call leaves it, the
    path, the document that reached the disk and the events. *)
Definition generate_pdf_report (session : AuditSession.t) (output : option exception)
    : result (AuditSession.t * string * option (list FPDF.op) * list event) :=
  sections <~ AuditSession.get_responses_by_section obj session ;;
  findings <~ sections_loop sections ;;
  let pdf := report_head session ++ findings in
  let file_path := "audits/" +:+ AuditSession.session_id session +:+ ".pdf" in
  match output with
  | None =>
      Ok (session, file_path, Some pdf,
          [logging_info "PDF report generated at %s" file_path])
  | Some e =>
      Ok (session, file_path, None,
          [logging_error "Error generating PDF report: %s" e;
           st_error "Failed to generate PDF report."])
  end.

End Document.

(** * The checklist catalog *)

Definition catalog := gmap string (list string).

(** [{category: [] for category in categories}] *)
Definition empty_lists (categories : list string) : gmap string (list string) :=
  foldl (fun d category => <[category := []]> d) ∅ categories.

(** [load_master_checklist], where [read] is the outcome of opening and
    parsing the template file. The handler of [FileNotFoundError] comes first,
    the handler of [Exception] takes every other failure. *)
Definition load_master_checklist (read : result (gmap string (list string)))
    : result (gmap string (list string) * list event) :=
  match read with
  | Ok checklist => Ok (checklist, [])
  | Raise FileNotFoundError =>
      Ok (empty_lists (GENERAL_CATEGORIES ++
                       ["F&B Outlets"; "Ballrooms & Meeting Rooms"; "Guestroom"]),
          [st_error "Master checklist file not found. Using default categories."])
  | Raise e =>
      Ok (∅, [logging_error "Error loading master checklist: %s" e;
              st_error "Unexpected error loading checklist."])
  end.

(** * Clearing the responses of an item *)

Section Clear.
Variable obj : ref -> AuditResponse.t.

(** [for r in existing_responses: session.responses.remove(r)] *)
Fixpoint remove_each (existing_responses : list ref) (session : AuditSession.t)
    : result AuditSession.t :=
  match existing_responses with
  | [] => Ok session
  | r :: rest =>
      session' <~ AuditSession.remove session r ;; remove_each rest session'
  end.

(** The responses that [general_section_audit] finds for the card of [item]
    in [selected_section]. *)
Definition general_existing_responses (session : AuditSession.t)
    (selected_section item : string) : list ref :=
  let section_responses :=
    filter (fun r => AuditSession.section_of obj r = selected_section)
           (AuditSession.responses session) in
  filter (fun r => AuditSession.item_of obj r = item) section_responses.

(** A press of Clear on that card. *)
Definition general_clear (session : AuditSession.t) (selected_section item : string)
    : result AuditSession.t :=
  let existing_responses := general_existing_responses session selected_section item in
  if bool_decide (existing_responses <> [])
  then remove_each existing_responses session
  else Ok session.

Definition checklist_key (section_type : string) : string :=
  if decide (section_type = "F&B") then "F&B Outlets"
  else if decide (section_type = "Meeting Room") then "Ballrooms & Meeting Rooms"
  else if decide (section_type = "Guestroom") then "Guestroom"
  else "".

(** The responses that [specific_section_audit] finds for the card of [item]
    of the outlet, room or room type [section_name]. *)
Definition specific_existing_responses (session : AuditSession.t)
    (section_type section_name item : string) : list ref :=
  let section_responses :=
    filter (fun r => AuditResponse.context (obj r) = Some section_name /\
                     AuditSession.section_of obj r = checklist_key section_type)
           (AuditSession.responses session) in
  filter (fun r => AuditSession.item_of obj r = item) section_responses.

Definition specific_clear (session : AuditSession.t)
    (section_type section_name item : string) : result AuditSession.t :=
  let existing_responses :=
    specific_existing_responses session section_type section_name item in
  if bool_decide (existing_responses <> [])
  then remove_each existing_responses session
  else Ok session.

End Clear.

(** * Reading a snapshot back

    The source writes snapshots and never reads one. The reader below is the
    inverse the specification speaks of when it asks that a session be
    reconstructed from its dict; it is the yardstick of the round trip, not
    code of the application. *)
Module Snapshot.
Import Fmt.

(** [datetime.fromisoformat], for the two shapes [isoformat] produces. *)
Definition fromisoformat (s : string) : option datetime :=
  '(y, s) ← take_digits 4 0 s; s ← expect "-" s;
  '(mo, s) ← take_digits 2 0 s; s ← expect "-" s;
  '(d, s) ← take_digits 2 0 s; s ← expect "T" s;
  '(h, s) ← take_digits 2 0 s; s ← expect ":" s;
  '(mi, s) ← take_digits 2 0 s; s ← expect ":" s;
  '(sec, s) ← take_digits 2 0 s;
  match s with
  | EmptyString => Some (mk_datetime y mo d h mi sec 0)
  | _ =>
      s ← expect "." s;
      '(u, s) ← take_digits 6 0 s;
      match s with
      | EmptyString => Some (mk_datetime y mo d h mi sec u)
      | _ => None
      end
  end.

Definition str_field (d : gmap string pyval) (k : string) : option string :=
  match d !! k with
  | Some (VStr s) => Some s
  | _ => None
  end.

Definition opt_str_field (d : gmap string pyval) (k : string)
    : option (option string) :=
  match d !! k with
  | Some VNone => Some None
  | Some (VStr s) => Some (Some s)
  | _ => None
  end.

Definition response_of_dict (d : gmap string pyval) : option AuditResponse.t :=
  section ← str_field d "section";
  item ← str_field d "item";
  note ← str_field d "note";
  rating ← str_field d "rating";
  comment ← str_field d "comment";
  photo_file ← opt_str_field d "photo_file";
  context ← opt_str_field d "context";
  stamp ← str_field d "timestamp";
  timestamp ← fromisoformat stamp;
  Some (AuditResponse.mk (ChecklistItem.mk section item note)
          rating comment photo_file context timestamp).

Definition response_of_value (v : pyval) : option AuditResponse.t :=
  match v with
  | VDict d => response_of_dict d
  | _ => None
  end.

Definition responses_of_dict (d : gmap string pyval) : option (list AuditResponse.t) :=
  match d !! "responses" with
  | Some (VList l) => mapM response_of_value l
  | _ => None
  end.

End Snapshot.

(** * Sample data *)

Module Sample.

Definition instant : datetime := mk_datetime 2025 3 7 9 5 0 123456.

Definition flooring : ChecklistItem.t :=
  ChecklistItem.new "Main Lobby" "Flooring condition".

(** The response of the example of the specification. *)
Definition worn_carpet : AuditResponse.t :=
  AuditResponse.new flooring "2 - Needs to be changed to match competing hotels"
    "Worn carpet" None None instant.

(** The same item, answered for an outlet. *)
Definition bar_carpet : AuditResponse.t :=
  AuditResponse.new flooring "4 - No action required" "" (Some "photos/7_bar.png")
    (Some "Pool Bar") instant.

(** A rating outside the four options. *)
Definition custom : AuditResponse.t :=
  AuditResponse.new (ChecklistItem.new "Spa & Wellness" "Lighting")
    "5 - Custom" "Dim" None None instant.

(** No rating. *)
Definition unrated : AuditResponse.t :=
  AuditResponse.new (ChecklistItem.new "Spa & Wellness" "Lighting")
    "" "" None None instant.

(** The flooring of an outlet, in the section of the outlets. *)
Definition outlet_floor : AuditResponse.t :=
  AuditResponse.new (ChecklistItem.new "F&B Outlets" "Flooring condition")
    "1 - Needs to be changed due to age-related factors" "Cracked tiles" None
    (Some "Pool Bar") instant.

(** A store of five objects. *)
Definition store (r : ref) : AuditResponse.t :=
  match r with
  | 0%nat => worn_carpet
  | 1%nat => bar_carpet
  | 2%nat => custom
  | 3%nat => outlet_floor
  | _ => unrated
  end.

Definition grand_hotel : gmap string pyval :=
  dict_literal [("name", VStr "Grand Hotel"); ("city", VStr "Porto"); ("floors", VInt 7)].

Definition session (responses : list ref) : AuditSession.t :=
  AuditSession.mk "Grand_Hotel_20250307_090500" grand_hotel "Ann" instant responses.

End Sample.

(** * Four sentences of the specification, as they are written

    Each is set against the code further down. *)

(** The grouping the specification describes: the sections of the responses
    in the order they are first seen, each with the responses of that
    section in their order. *)
Definition partition_by_section (obj : ref -> AuditResponse.t) (rs : list ref)
    : odict (list ref) :=
  (fun k => (k, filter (fun r => AuditSession.section_of obj r = k) rs)) <$>
  first_seen (AuditSession.section_of obj <$> rs).

(** The headers of the table. *)
Definition HEADERS : list string :=
  ["Section"; "Item"; "Rating"; "Comment"; "Context"; "Photo"; "Timestamp"].

Section Stated.
Variable obj : ref -> AuditResponse.t.

(** Clearing the card of [item] in a general section removes the responses
    whose key is [(selected_section, item, None)], and only those. *)
Definition clear_by_key_stated (session : AuditSession.t)
    (selected_section item : string) : Prop :=
  general_clear obj session selected_section item =
  Ok (AuditSession.with_responses session
        (filter (fun r => AuditResponse.key (obj r) <> (selected_section, item, None))
                (AuditSession.responses session))).

(** An option is the one of a rating when they have the same numeric
    prefix. *)
Definition same_prefix (opt rating : string) : Prop :=
  PyStr.before " - " opt = PyStr.before " - " rating.

(** The table shows the option of the rating and the document its suffix;
    a rating that has no option goes through both as it is. *)
Definition rating_resolution_stated (r : AuditResponse.t) : Prop :=
  (forall opt, opt ∈ RATING_OPTIONS -> same_prefix opt (AuditResponse.rating r) ->
     rating_desc (AuditResponse.rating r) = Ok opt /\
     AuditResponse.rating_description r = Ok (PyStr.after " - " opt)) /\
  ((forall opt, opt ∈ RATING_OPTIONS -> ~ same_prefix opt (AuditResponse.rating r)) ->
     rating_desc (AuditResponse.rating r) = Ok (AuditResponse.rating r) /\
     AuditResponse.rating_description r = Ok (AuditResponse.rating r)).

(** One row per response, in order; the context or "General" when it is
    absent; "Yes" exactly when a photo reference is present; a canonical
    option as the rating. *)
Definition row_contract_stated (session : AuditSession.t) : Prop :=
  exists df,
    generate_excel_data obj session = Ok df /\
    length (pd.rows df) = length (AuditSession.responses session) /\
    forall i r, AuditSession.responses session !! i = Some r ->
      pd.cell df i "Context" =
        Some (default "General" (AuditResponse.context (obj r))) /\
      pd.cell df i "Photo" =
        Some (match AuditResponse.photo_file (obj r) with
              | Some _ => "Yes"
              | None => "No"
              end) /\
      exists opt, opt ∈ RATING_OPTIONS /\ pd.cell df i "Rating" = Some opt.

(** A session without responses gives a table of seven headers and no
    rows. *)
Definition zero_response_export_stated (session : AuditSession.t) : Prop :=
  AuditSession.responses session = [] ->
  generate_excel_data obj session =
  Ok (pd.mk HEADERS []).

End Stated.

(** * The cards of the form *)

(** [existing_responses[-1] if existing_responses else None] *)
Definition latest_response (existing_responses : list ref) : option ref :=
  last existing_responses.

(** [l.index(x)]: the place of the first element equal to [x]; [ValueError]
    when there is none. *)
Fixpoint list_index (x : string) (l : list string) : result nat :=
  match l with
  | [] => Raise ValueError
  | y :: l' =>
      if decide (y = x) then Ok 0%nat
      else (i <~ list_index x l' ;; Ok (S i))
  end.

(** The rating a card starts from: that of the response it shows, the first
    option when it shows none. *)
Definition default_rating (existing_response : option AuditResponse.t)
    : result string :=
  match existing_response with
  | Some r => Ok (AuditResponse.rating r)
  | None => index RATING_OPTIONS 0
  end.

(** The [index] argument of the select box of a card. *)
Definition default_index (existing_response : option AuditResponse.t)
    : result nat :=
  d <~ default_rating existing_response ;;
  if bool_decide (d ∈ RATING_OPTIONS) then list_index d RATING_OPTIONS else Ok 0%nat.

(** The key that tells the widgets of one card from those of another. *)
Definition unique_key (section item : string) (context : option string) : string :=
  section +:+ "_" +:+ item +:+ "_" +:+ py_or context "general".

(** [s.endswith(suffix)] *)
Definition endswith (s suffix : string) : bool :=
  bool_decide (String.length suffix <= String.length s)%nat &&
  bool_decide (PyStr.drop (String.length s - String.length suffix) s = suffix).

(** [os.path.join(a, b)] under POSIX. *)
Definition path_join (a b : string) : string :=
  if PyStr.startswith b "/" then b
  else if negb (PyStr.truthy a) || endswith a "/" then a +:+ b
  else a +:+ "/" +:+ b.

(** [save_uploaded_photo], where [uploaded_file] is the name of the uploaded
    file, if there is one, [photo_id] the text of the fresh UUID and [write]
    what writing the photo raises, if anything. *)
Definition save_uploaded_photo (uploaded_file : option string) (photo_id : string)
    (write : option exception) : option string * list event :=
  match uploaded_file with
  | Some name =>
      let photo_filename := photo_id +:+ "_" +:+ name in
      let photo_path := path_join "photos" photo_filename in
      match write with
      | None => (Some photo_path, [logging_info "Saved photo to %s" photo_path])
      | Some e =>
          (None, [logging_error "Error saving uploaded photo: %s" e;
                  st_error "Error saving the uploaded photo."])
      end
  | None => (None, [])
  end.

(** * The application *)

(** The state of a run: the objects, the reference the next object gets, and
    the session. *)
Module App.

Record state := mk {
  obj : ref -> AuditResponse.t;
  next : ref;
  session : AuditSession.t
}.

Definition with_session (st : state) (session : AuditSession.t) : state :=
  mk (obj st) (next st) session.

(** A new object: it gets a reference no object has. *)
Definition alloc (st : state) (x : AuditResponse.t) : state * ref :=
  (mk (fun r => if decide (r = next st) then x else obj st r) (S (next st)) (session st),
   next st).

(** The photo of a saved response: that of the response the card shows,
    unless a file is uploaded; then what [save_uploaded_photo] returns. *)
Definition saved_photo (st : state) (latest : option ref) (photo : option string)
    (photo_id : string) (write : option exception) : option string * list event :=
  let photo_path :=
    match latest with
    | Some l => AuditResponse.photo_file (obj st l)
    | None => None
    end in
  match photo with
  | Some name => save_uploaded_photo (Some name) photo_id write
  | None => (photo_path, [])
  end.

(** A press of Save on the card of [item] in a general section, with the
    rating and the comment of the card. *)
Definition general_save (st : state) (selected_section item rating comment : string)
    (photo : option string) (photo_id : string) (write : option exception)
    (now : datetime) : state * list event :=
  let existing_responses :=
    general_existing_responses (obj st) (session st) selected_section item in
  let '(photo_path, events) :=
    saved_photo st (latest_response existing_responses) photo photo_id write in
  let '(st', r) :=
    alloc st (AuditResponse.new (ChecklistItem.new selected_section item)
                rating comment photo_path None now) in
  (with_session st' (AuditSession.add_response (session st') r), events).

(** A press of Save on the card of [item] of the outlet, room or room type
    [section_name]. *)
Definition specific_save (st : state) (section_type section_name item
    rating comment : string) (photo : option string) (photo_id : string)
    (write : option exception) (now : datetime) : state * list event :=
  let existing_responses :=
    specific_existing_responses (obj st) (session st) section_type section_name item in
  let '(photo_path, events) :=
    saved_photo st (latest_response existing_responses) photo photo_id write in
  let '(st', r) :=
    alloc st (AuditResponse.new (ChecklistItem.new (checklist_key section_type) item)
                rating comment photo_path (Some section_name) now) in
  (with_session st' (AuditSession.add_response (session st') r), events).

(** What the Start Audit button arrives at. *)
Inductive start_outcome :=
| started (session : AuditSession.t)
| refused (msg : string).

(** A press of Start Audit in [main], with the values of the form. *)
Definition start_audit (hotel_name city country : string)
    (year_opened num_floors total_rooms : Z) (fnb_outlets meeting_rooms : list string)
    (guestroom_types : list (string * string * string)) (auditor_name : string)
    (now_id now_ts : datetime) : result start_outcome :=
  if negb (PyStr.truthy hotel_name) || negb (PyStr.truthy auditor_name)
  then Ok (refused "Hotel Name and Auditor Name are required fields")
  else
    let hotel_info :=
      dict_literal
        [ ("name", VStr hotel_name);
          ("city", VStr city);
          ("country", VStr country);
          ("year_opened", VInt year_opened);
          ("floors", VInt num_floors);
          ("total_rooms", VInt total_rooms);
          ("fnb_outlets", VList (VStr <$> fnb_outlets));
          ("meeting_rooms", VList (VStr <$> meeting_rooms));
          ("guestroom_types",
            VList ((fun g : string * string * string =>
                      VDict (dict_literal [ ("name", VStr g.1.1);
                                            ("size", VStr g.1.2);
                                            ("keys", VStr g.2) ]))
                   <$> guestroom_types)) ] in
    session <~ AuditSession.new hotel_info auditor_name now_id now_ts ;;
    Ok (started session).

(** Where [main] sends the selected entry of the sidebar. *)
Inductive routed :=
| to_general
| to_specific (section_type section_name : string)
| nowhere.

Definition route (selected_section : string) : result routed :=
  if decide (selected_section = "General Sections") then Ok to_general
  else if PyStr.startswith selected_section "F&B" then
    name <~ index (PyStr.split_max ": " 1 selected_section) 1 ;;
    Ok (to_specific "F&B" name)
  else if PyStr.startswith selected_section "Meeting Room" then
    name <~ index (PyStr.split_max ": " 1 selected_section) 1 ;;
    Ok (to_specific "Meeting Room" name)
  else if PyStr.startswith selected_section "Guestroom" then
    name <~ index (PyStr.split_max ": " 1 selected_section) 1 ;;
    Ok (to_specific "Guestroom" name)
  else Ok nowhere.

(** The entries [main] offers for the outlets, the meeting rooms and the room
    types. *)
Definition fnb_entry (x : string) : string := "F&B: " +:+ x.
Definition meeting_entry (x : string) : string := "Meeting Room: " +:+ x.
Definition guestroom_entry (x : string) : string := "Guestroom: " +:+ x.

Definition SECTION_TYPES : list string := ["F&B"; "Meeting Room"; "Guestroom"].

(** The states the form leads to. The select box of a card gives one of the
    rating options, the radio of the general sections one of the general
    categories; the entries of the sidebar are made for the three kinds of
    specialized sections and for names that are not blank. Which cards the
    catalog shows is left open: any item may be saved or cleared. *)
Inductive reachable : state -> Prop :=
| reach_start (obj : ref -> AuditResponse.t) (next : ref) session
    hotel_name city country year_opened num_floors total_rooms fnb_outlets
    meeting_rooms guestroom_types auditor_name now_id now_ts :
    start_audit hotel_name city country year_opened num_floors total_rooms
      fnb_outlets meeting_rooms guestroom_types auditor_name now_id now_ts =
      Ok (started session) ->
    reachable (mk obj next session)
| reach_general_save st selected_section item rating comment photo photo_id write now :
    reachable st ->
    selected_section ∈ GENERAL_CATEGORIES ->
    rating ∈ RATING_OPTIONS ->
    reachable (general_save st selected_section item rating comment
                 photo photo_id write now).1
| reach_specific_save st section_type section_name item rating comment
    photo photo_id write now :
    reachable st ->
    section_type ∈ SECTION_TYPES ->
    section_name <> "" ->
    rating ∈ RATING_OPTIONS ->
    reachable (specific_save st section_type section_name item rating comment
                 photo photo_id write now).1
| reach_general_clear st selected_section item session' :
    reachable st ->
    general_clear (obj st) (session st) selected_section item = Ok session' ->
    reachable (with_session st session')
| reach_specific_clear st section_type section_name item session' :
    reachable st ->
    specific_clear (obj st) (session st) section_type section_name item = Ok session' ->
    reachable (with_session st session').

(** What every response of a reachable state is like: a canonical rating; a
    photo reference that is absent or not empty; a general section and no
    context, or a specialized section and a context that is not empty. *)
Definition well_formed (x : AuditResponse.t) : Prop :=
  AuditResponse.rating x ∈ RATING_OPTIONS /\
  (forall p, AuditResponse.photo_file x = Some p -> p <> "") /\
  ((ChecklistItem.section (AuditResponse.checklist_item x) ∈ GENERAL_CATEGORIES /\
    AuditResponse.context x = None) \/
   (ChecklistItem.section (AuditResponse.checklist_item x) ∈
      ["F&B Outlets"; "Ballrooms & Meeting Rooms"; "Guestroom"] /\
    exists c, AuditResponse.context x = Some c /\ c <> "")).

Definition invariant (st : state) : Prop :=
  forall r, r ∈ AuditSession.responses (session st) ->
    (r < next st)%nat /\ well_formed (obj st r).

End App.

(** A run of the form: an audit of the Grand Hotel is started, the flooring
    of the lobby is saved, then that of the Pool Bar with a photo. *)
Module SampleRun.

Definition outcome : result App.start_outcome :=
  App.start_audit "Grand Hotel" "Porto" "Portugal" 1998 7 120
    ["Pool Bar"] ["Atlantic"] [("Suite", "45", "12")] "Ann"
    Sample.instant Sample.instant.

Definition new_session : AuditSession.t :=
  match outcome with
  | Ok (App.started session) => session
  | _ => Sample.session []
  end.

Definition start : App.state := App.mk Sample.store 5%nat new_session.

Definition lobby_saved : App.state :=
  (App.general_save start "Main Lobby" "Flooring condition"
     "2 - Needs to be changed to match competing hotels" "Worn carpet"
     None "1b4e28ba" None Sample.instant).1.

Definition bar_saved : App.state :=
  (App.specific_save lobby_saved "F&B" "Pool Bar" "Flooring condition"
     "1 - Needs to be changed due to age-related factors" "Cracked tiles"
     (Some "bar.png") "9f3c7a10" None Sample.instant).1.

End SampleRun.

(** * Strings *)

Section StringFacts.

Lemma str_app_nil_r (s : string) : s +:+ "" = s.
Proof. induction s as [|c s IH]; simpl; [reflexivity | by rewrite IH]. Qed.

Lemma str_app_assoc (a b c : string) : (a +:+ b) +:+ c = a +:+ b +:+ c.
Proof. induction a as [|x a IH]; simpl; [reflexivity | by rewrite IH]. Qed.

Lemma str_app_snoc (a : string) (c : ascii) (b : string) :
  (a +:+ String c "") +:+ b = a +:+ String c b.
Proof. by rewrite str_app_assoc. Qed.

Lemma startswith_app (sep b : string) : PyStr.startswith (sep +:+ b) sep = true.
Proof.
  induction sep as [|c sep IH]; simpl; [reflexivity |].
  destruct (decide (c = c)); [exact IH | congruence].
Qed.

Lemma startswith_inv (s sep : string) :
  PyStr.startswith s sep = true ->
  s = sep +:+ PyStr.drop (String.length sep) s.
Proof.
  revert s. induction sep as [|c sep IH]; intros s H; simpl in *.
  - by destruct s.
  - destruct s as [|d s]; [discriminate |].
    destruct (decide (c = d)) as [->|]; [| discriminate].
    simpl. f_equal. by apply IH.
Qed.

Lemma startswith_nil (s : string) : PyStr.startswith s "" = true.
Proof. by destruct s. Qed.

(** A string that contains no [sep] is its own [before]. *)
Lemma before_without (sep s : string) :
  sep <> "" -> PyStr.contains sep s = false -> PyStr.before sep s = s.
Proof.
  intros Hsep. induction s as [|c s IH]; simpl; [reflexivity |].
  intros H. apply orb_false_iff in H as [H1 H2].
  replace (PyStr.startswith (String c s) sep) with false by exact (eq_sym H1).
  by rewrite IH.
Qed.

(** A string that contains [sep] is its [before], [sep] and its [after]. *)
Lemma before_sep_after (sep s : string) :
  PyStr.contains sep s = true ->
  s = PyStr.before sep s +:+ sep +:+ PyStr.after sep s.
Proof.
  induction s as [|c s IH]; intros H.
  - simpl in H. simpl. destruct sep; [reflexivity | discriminate].
  - cbn [PyStr.contains PyStr.before PyStr.after] in *.
    destruct (PyStr.startswith (String c s) sep) eqn:E.
    + simpl. by apply startswith_inv.
    + simpl in H. simpl. f_equal. by apply IH.
Qed.

Lemma startswith_extend (a b sep : string) :
  PyStr.startswith a sep = true -> PyStr.startswith (a +:+ b) sep = true.
Proof.
  revert a. induction sep as [|c sep IH]; intros a H; simpl in *; [reflexivity |].
  destruct a as [|d a]; [discriminate |]. simpl.
  destruct (decide (c = d)); [by apply IH | discriminate].
Qed.

Lemma before_prefix (sep s : string) :
  exists rest, s = PyStr.before sep s +:+ rest.
Proof.
  induction s as [|c s [rest IH]]; [by exists "" |].
  cbn [PyStr.before]. destruct (PyStr.startswith (String c s) sep).
  - by exists (String c s).
  - exists rest. simpl. by rewrite <- IH.
Qed.

(** The [before] of a string contains no [sep]: the cut is at the first
    occurrence. *)
Lemma before_no_sep (sep s : string) :
  sep <> "" -> PyStr.contains sep (PyStr.before sep s) = false.
Proof.
  intros Hsep. induction s as [|c s IH].
  - simpl. by destruct sep.
  - cbn [PyStr.before]. destruct (PyStr.startswith (String c s) sep) eqn:E.
    + simpl. by destruct sep.
    + cbn [PyStr.contains]. rewrite IH, orb_false_r.
      destruct (PyStr.startswith (String c (PyStr.before sep s)) sep) eqn:E'; [| reflexivity].
      destruct (before_prefix sep s) as [rest Hrest].
      apply (startswith_extend _ rest) in E'. simpl in E'.
      rewrite <- Hrest in E'. congruence.
Qed.

(** Once no cut is left, the scan reads the rest into the current piece. *)
Lemma split_scan_no_cut (sep cur s : string) :
  PyStr.split_scan sep (Some 0%nat) 0 cur s = [cur +:+ s].
Proof.
  revert cur. induction s as [|c s IH]; intros cur; simpl.
  - by rewrite str_app_nil_r.
  - by rewrite IH, str_app_snoc.
Qed.

(** Passing over the rest of a matched separator. *)
Lemma split_scan_skip (sep : string) (m : option nat) (cur x b : string) :
  PyStr.split_scan sep m (String.length x) cur (x +:+ b) =
  PyStr.split_scan sep m 0 cur b.
Proof.
  induction x as [|c x IH]; simpl; [reflexivity | exact IH].
Qed.

(** The first turn of [split]: the piece before the first separator, then
    the scan of what follows it. *)
Lemma split_scan_first (sep : string) (m : option nat) (cur s : string) :
  sep <> "" -> PyStr.may_cut m = true ->
  PyStr.split_scan sep m 0 cur s =
  if PyStr.contains sep s
  then (cur +:+ PyStr.before sep s) ::
       PyStr.split_scan sep (PyStr.after_cut m) 0 "" (PyStr.after sep s)
  else [cur +:+ s].
Proof.
  intros Hsep Hm. revert cur. induction s as [|c s IH]; intros cur.
  - simpl. destruct sep; [congruence |]. simpl. by rewrite str_app_nil_r.
  - cbn [PyStr.split_scan PyStr.contains PyStr.before PyStr.after].
    rewrite Hm. destruct (PyStr.startswith (String c s) sep) eqn:E; simpl.
    + rewrite str_app_nil_r. f_equal.
      destruct sep as [|d sep]; [congruence |].
      pose proof (startswith_inv _ _ E) as Hs. simpl in Hs.
      injection Hs as _ Hs. simpl.
      rewrite Hs at 1. apply split_scan_skip.
    + rewrite IH. destruct (PyStr.contains sep s); by rewrite str_app_snoc.
Qed.

Lemma split_head (sep s : string) :
  sep <> "" -> head (PyStr.split sep s) = Some (PyStr.before sep s).
Proof.
  intros Hsep. unfold PyStr.split. rewrite split_scan_first by done.
  destruct (PyStr.contains sep s) eqn:E; simpl; [reflexivity |].
  by rewrite before_without.
Qed.

Lemma split_max_1 (sep s : string) :
  sep <> "" -> PyStr.contains sep s = true ->
  PyStr.split_max sep 1 s = [PyStr.before sep s; PyStr.after sep s].
Proof.
  intros Hsep H. unfold PyStr.split_max. rewrite split_scan_first by done.
  rewrite H. simpl. by rewrite split_scan_no_cut.
Qed.

Lemma has_char_app (c : ascii) (a b : string) :
  PyStr.has_char c (a +:+ b) = PyStr.has_char c a || PyStr.has_char c b.
Proof.
  induction a as [|x a IH]; simpl; [reflexivity |].
  by rewrite IH, orb_assoc.
Qed.

Lemma has_char_replace (old new : ascii) (s : string) :
  old <> new -> PyStr.has_char old (PyStr.replace_char old new s) = false.
Proof.
  intros Hne. induction s as [|c s IH]; simpl; [reflexivity |].
  rewrite IH, orb_false_r. apply bool_decide_eq_false.
  destruct (decide (c = old)); congruence.
Qed.

End StringFacts.

(** * Ratings *)

Section RatingFacts.

Lemma sep_nonempty : " - " <> "".
Proof. discriminate. Qed.

(** The lookup of the table never fails: [split] has a first piece. *)
Lemma rating_desc_ok (rating : string) :
  rating_desc rating =
  Ok (default rating
        (head (filter (fun opt => PyStr.startswith opt (PyStr.before " - " rating))
                      RATING_OPTIONS))).
Proof.
  unfold rating_desc, index.
  pose proof (split_head " - " rating sep_nonempty) as H.
  destruct (PyStr.split " - " rating) as [|x l] eqn:E; simpl in H; [discriminate |].
  injection H as ->. reflexivity.
Qed.

(** Neither does the property: it indexes the second piece only when there
    is a separator. *)
Lemma rating_description_ok (r : AuditResponse.t) :
  AuditResponse.rating_description r =
  Ok (if PyStr.contains " - " (AuditResponse.rating r)
      then PyStr.after " - " (AuditResponse.rating r)
      else AuditResponse.rating r).
Proof.
  unfold AuditResponse.rating_description.
  destruct (PyStr.contains " - " (AuditResponse.rating r)) eqn:E; [| reflexivity].
  by rewrite (split_max_1 _ _ sep_nonempty E).
Qed.

Lemma head_filter_first {A} (P : A -> Prop) `{forall x, Decision (P x)} (l : list A) (x : A) :
  head (filter P l) = Some x ->
  exists pre post, l = pre ++ x :: post /\ P x /\ Forall (fun y => ~ P y) pre.
Proof.
  induction l as [|y l IH]; [discriminate |].
  rewrite filter_cons. destruct (decide (P y)) as [Hy|Hy]; simpl.
  - intros [= ->]. exists [], l. by repeat split.
  - intros Hx. destruct (IH Hx) as (pre & post & -> & Px & Hpre).
    exists (y :: pre), post. repeat split; [done |]. by constructor.
Qed.

Lemma head_filter_none {A} (P : A -> Prop) `{forall x, Decision (P x)} (l : list A) :
  head (filter P l) = None -> Forall (fun y => ~ P y) l.
Proof.
  induction l as [|y l IH]; [constructor |].
  rewrite filter_cons. destruct (decide (P y)); simpl; [discriminate |].
  intros Hn. constructor; [done | by apply IH].
Qed.

End RatingFacts.

(** * Tables *)

Section TableFacts.

Lemma first_seen_snoc (l : list string) (k : string) :
  first_seen (l ++ [k]) =
  if decide (k ∈ first_seen l) then first_seen l else first_seen l ++ [k].
Proof. unfold first_seen. by rewrite foldl_app. Qed.

Lemma elem_of_first_seen (l : list string) (k : string) :
  k ∈ first_seen l <-> k ∈ l.
Proof.
  induction l as [|x l IH] using rev_ind; [done |].
  rewrite first_seen_snoc, elem_of_app, list_elem_of_singleton.
  destruct (decide (x ∈ first_seen l)) as [Hx|Hx].
  - rewrite IH. split; [tauto |]. intros [?| ->]; [done | by apply IH].
  - rewrite elem_of_app, list_elem_of_singleton. by rewrite IH.
Qed.

Lemma NoDup_first_seen (l : list string) : NoDup (first_seen l).
Proof.
  induction l as [|x l IH] using rev_ind; [constructor |].
  rewrite first_seen_snoc. destruct (decide (x ∈ first_seen l)) as [Hx|Hx]; [done |].
  apply NoDup_app. repeat split; [done | | apply NoDup_singleton].
  intros y Hy ->%list_elem_of_singleton. done.
Qed.

(** Keys that are all known add no column. *)
Lemma first_seen_app_known (l ks : list string) :
  (forall k, k ∈ ks -> k ∈ l) -> first_seen (l ++ ks) = first_seen l.
Proof.
  induction ks as [|k ks IH] using rev_ind; intros Hks.
  - by rewrite app_nil_r.
  - rewrite app_assoc, first_seen_snoc.
    rewrite IH by (intros; apply Hks, elem_of_app; by left).
    destruct (decide (k ∈ first_seen l)) as [|Hk]; [done |].
    exfalso. apply Hk, elem_of_first_seen, Hks, elem_of_app. right. by left.
Qed.

Lemma position_Some (c : string) (cs : list string) :
  c ∈ cs -> exists j, pd.position c cs = Some j /\ cs !! j = Some c.
Proof.
  induction cs as [|x cs IH]; [by intros ?%elem_of_nil |].
  intros Hc. simpl. destruct (decide (x = c)) as [->|Hne].
  - by exists 0%nat.
  - apply elem_of_cons in Hc as [->|Hc]; [done |].
    destruct (IH Hc) as (j & -> & Hj). by exists (S j).
Qed.

(** A cell of a table built from dicts is the entry of the dict of its row
    under the name of its column. *)
Lemma cell_DataFrame_of (data : list (odict string)) (i : nat)
    (row : odict string) (c : string) :
  data !! i = Some row -> c ∈ row.*1 ->
  pd.cell (pd.DataFrame_of data) i c = OrderedDict.get c row.
Proof.
  intros Hi Hc. unfold pd.cell, pd.DataFrame_of. simpl.
  rewrite list_lookup_fmap, Hi. simpl.
  assert (Hcol : c ∈ first_seen (data ≫= fun d => d.*1)).
  { apply elem_of_first_seen, list_elem_of_bind. exists row. split; [done |].
    by eapply list_elem_of_lookup_2. }
  destruct (position_Some _ _ Hcol) as (j & -> & Hj). simpl.
  by rewrite list_lookup_fmap, Hj.
Qed.

Lemma first_seen_NoDup (ks : list string) : NoDup ks -> first_seen ks = ks.
Proof.
  induction ks as [|k ks IH] using rev_ind; [done |].
  intros [Hks [Hk _]]%NoDup_app. rewrite first_seen_snoc, (IH Hks).
  destruct (decide (k ∈ ks)) as [Hin|]; [| done].
  exfalso. apply (Hk k Hin). by left.
Qed.

(** Rows that all carry the same distinct keys give these keys as the
    columns. *)
Lemma columns_uniform (ks : list string) (data : list (odict string)) :
  NoDup ks -> data <> [] -> Forall (fun d => d.*1 = ks) data ->
  pd.columns (pd.DataFrame_of data) = ks.
Proof.
  intros Hks Hne Hall. simpl.
  destruct data as [|d data]; [done |]. clear Hne.
  apply Forall_cons in Hall as [Hd Hall]. simpl. rewrite Hd.
  rewrite first_seen_app_known; [by apply first_seen_NoDup |].
  intros k (d' & Hk & Hd')%list_elem_of_bind.
  rewrite Forall_forall in Hall. by rewrite <- (Hall d' Hd').
Qed.

End TableFacts.

(** * What the table shows *)

Section ExportFacts.
Variable obj : ref -> AuditResponse.t.

(** The rating of a row is the first option that starts with the numeric
    prefix of the stored rating, and the stored rating when no option does. *)
Lemma rating_desc_cases (rating : string) :
  exists shown, rating_desc rating = Ok shown /\
    ((exists pre post, RATING_OPTIONS = pre ++ shown :: post /\
        PyStr.startswith shown (PyStr.before " - " rating) = true /\
        forall opt, opt ∈ pre -> PyStr.startswith opt (PyStr.before " - " rating) = false) \/
     (shown = rating /\
        forall opt, opt ∈ RATING_OPTIONS ->
          PyStr.startswith opt (PyStr.before " - " rating) = false)).
Proof.
  rewrite rating_desc_ok.
  destruct (head (filter (fun opt => PyStr.startswith opt (PyStr.before " - " rating))
                         RATING_OPTIONS)) as [shown|] eqn:E.
  - exists shown. split; [done |]. left.
    apply head_filter_first in E as (pre & post & Hl & Hs & Hpre).
    exists pre, post. repeat split; [done | by apply Is_true_true |].
    intros opt Hopt. rewrite Forall_forall in Hpre.
    specialize (Hpre opt Hopt). by destruct (PyStr.startswith opt _).
  - exists rating. split; [done |]. right. split; [done |].
    apply head_filter_none in E. rewrite Forall_forall in E.
    intros opt Hopt. specialize (E opt Hopt). by destruct (PyStr.startswith opt _).
Qed.

(** A canonical option is shown as it is. *)
Lemma rating_desc_canonical (rating : string) :
  rating ∈ RATING_OPTIONS -> rating_desc rating = Ok rating.
Proof.
  unfold RATING_OPTIONS. rewrite !elem_of_cons, elem_of_nil.
  intros [->|[->|[->|[->|[]]]]]; reflexivity.
Qed.

Lemma strftime_minute (t : datetime) :
  Datetime.strftime "%Y-%m-%d %H:%M" t =
  Fmt.zero_padded 4 (year t) +:+ "-" +:+ Fmt.zero_padded 2 (month t) +:+ "-" +:+
  Fmt.zero_padded 2 (day t) +:+ " " +:+ Fmt.zero_padded 2 (hour t) +:+ ":" +:+
  Fmt.zero_padded 2 (minute t).
Proof. cbn. by rewrite str_app_nil_r. Qed.

Lemma strftime_second (t : datetime) :
  Datetime.strftime "%Y%m%d_%H%M%S" t =
  Fmt.zero_padded 4 (year t) +:+ Fmt.zero_padded 2 (month t) +:+
  Fmt.zero_padded 2 (day t) +:+ "_" +:+ Fmt.zero_padded 2 (hour t) +:+
  Fmt.zero_padded 2 (minute t) +:+ Fmt.zero_padded 2 (second t).
Proof. cbn. by rewrite str_app_nil_r. Qed.

(** The dict of a row: always built, always with the seven keys. *)
Lemma excel_row_ok (x : AuditResponse.t) :
  exists row, excel_row x = Ok row /\ row.*1 = HEADERS.
Proof.
  unfold excel_row. rewrite rating_desc_ok. simpl. eexists. split; reflexivity.
Qed.

Lemma excel_loop_ok (data : list (odict string)) (rs : list ref) :
  exists rows, excel_loop obj data rs = Ok (data ++ rows) /\
    Forall2 (fun r row => excel_row (obj r) = Ok row) rs rows.
Proof.
  revert data. induction rs as [|r rs IH]; intros data.
  - exists []. by rewrite app_nil_r.
  - destruct (excel_row_ok (obj r)) as (row & Hrow & _).
    destruct (IH (data ++ [row])) as (rows & Hloop & Hall).
    exists (row :: rows). simpl. rewrite Hrow. simpl.
    rewrite Hloop, <- app_assoc. split; [done | by constructor].
Qed.

Lemma generate_excel_data_ok (session : AuditSession.t) :
  exists data, generate_excel_data obj session = Ok (pd.DataFrame_of data) /\
    Forall2 (fun r row => excel_row (obj r) = Ok row)
            (AuditSession.responses session) data.
Proof.
  unfold generate_excel_data.
  destruct (excel_loop_ok [] (AuditSession.responses session)) as (rows & -> & Hall).
  by exists rows.
Qed.

(** The cells of the row of a response. *)
Lemma excel_cells (session : AuditSession.t) (i : nat) (r : ref) :
  AuditSession.responses session !! i = Some r ->
  exists df row, generate_excel_data obj session = Ok df /\
    excel_row (obj r) = Ok row /\
    length (pd.rows df) = length (AuditSession.responses session) /\
    pd.columns df = HEADERS /\
    forall c, c ∈ HEADERS -> pd.cell df i c = OrderedDict.get c row.
Proof.
  intros Hi. destruct (generate_excel_data_ok session) as (data & Hdf & Hall).
  destruct (Forall2_lookup_l _ _ _ _ _ Hall Hi) as (row & Hrow & Hok).
  exists (pd.DataFrame_of data), row. repeat split; [done | done | | |].
  - simpl. rewrite length_fmap. symmetry. by eapply Forall2_length.
  - apply columns_uniform.
    + apply (bool_decide_unpack _). vm_compute. exact I.
    + intros ->. by rewrite lookup_nil in Hrow.
    + apply Forall_forall. intros d Hd.
      apply list_elem_of_lookup in Hd as [j Hj].
      destruct (Forall2_lookup_r _ _ _ _ _ Hall Hj) as (r' & _ & Hok').
      destruct (excel_row_ok (obj r')) as (row' & Hrow' & Hkeys). congruence.
  - intros c Hc. apply cell_DataFrame_of; [done |].
    destruct (excel_row_ok (obj r)) as (row' & Hrow' & Hkeys).
    replace row with row' by congruence. by rewrite Hkeys.
Qed.

End ExportFacts.

(** * Rating resolution *)

(** C3, as the specification states it, fails: the rating "5 - Custom" has
    no canonical option, and the document shows "Custom", not the stored
    rating. *)
Lemma rating_resolution_stated_fails :
  ~ rating_resolution_stated Sample.custom.
Proof.
  intros [_ H]. destruct H as [_ Hdoc].
  - intros opt Hopt. unfold RATING_OPTIONS in Hopt.
    rewrite !elem_of_cons, elem_of_nil in Hopt.
    destruct Hopt as [->|[->|[->|[->|[]]]]]; vm_compute; discriminate.
  - vm_compute in Hdoc. discriminate.
Qed.

(** C3, corrected. Neither exporter raises, whatever the stored rating. The
    table shows the first canonical option that starts with what precedes
    the first " - " of the rating, and the stored rating when no option
    does. The document shows what follows the first " - " of the stored
    rating itself, and the stored rating when it has no " - ". For a stored
    rating that is one of the four options the table shows that option and
    the document its descriptive suffix. *)
Theorem rating_resolution (r : AuditResponse.t) :
  (exists shown, rating_desc (AuditResponse.rating r) = Ok shown /\
     ((exists pre post, RATING_OPTIONS = pre ++ shown :: post /\
         PyStr.startswith shown (PyStr.before " - " (AuditResponse.rating r)) = true /\
         forall opt, opt ∈ pre ->
           PyStr.startswith opt (PyStr.before " - " (AuditResponse.rating r)) = false) \/
      (shown = AuditResponse.rating r /\
         forall opt, opt ∈ RATING_OPTIONS ->
           PyStr.startswith opt (PyStr.before " - " (AuditResponse.rating r)) = false))) /\
  (exists d, AuditResponse.rating_description r = Ok d /\
     ((PyStr.contains " - " (AuditResponse.rating r) = true /\
       AuditResponse.rating r =
         PyStr.before " - " (AuditResponse.rating r) +:+ " - " +:+ d /\
       PyStr.contains " - " (PyStr.before " - " (AuditResponse.rating r)) = false) \/
      (PyStr.contains " - " (AuditResponse.rating r) = false /\
       d = AuditResponse.rating r))) /\
  (AuditResponse.rating r ∈ RATING_OPTIONS ->
     rating_desc (AuditResponse.rating r) = Ok (AuditResponse.rating r) /\
     exists d, AuditResponse.rating_description r = Ok d /\
       AuditResponse.rating r =
         PyStr.before " - " (AuditResponse.rating r) +:+ " - " +:+ d /\
       d ∈ [ "Needs to be changed due to age-related factors";
             "Needs to be changed to match competing hotels";
             "Not applicable";
             "No action required" ]).
Proof.
  split; [apply rating_desc_cases |]. split.
  - rewrite rating_description_ok.
    destruct (PyStr.contains " - " (AuditResponse.rating r)) eqn:E.
    + exists (PyStr.after " - " (AuditResponse.rating r)). split; [done |]. left.
      repeat split; [by apply before_sep_after | apply before_no_sep, sep_nonempty].
    + exists (AuditResponse.rating r). split; [done |]. by right.
  - intros Hin. split; [by apply rating_desc_canonical |].
    rewrite rating_description_ok. revert Hin.
    generalize (AuditResponse.rating r). intros rating.
    unfold RATING_OPTIONS. rewrite !elem_of_cons, elem_of_nil.
    intros [->|[->|[->|[->|[]]]]]; eexists; (split; [reflexivity |]);
      (split; [reflexivity |]); vm_compute; set_solver.
Qed.

Lemma rating_resolution_witness :
  AuditResponse.rating Sample.worn_carpet ∈ RATING_OPTIONS /\
  rating_desc (AuditResponse.rating Sample.worn_carpet) =
    Ok "2 - Needs to be changed to match competing hotels" /\
  AuditResponse.rating_description Sample.worn_carpet =
    Ok "Needs to be changed to match competing hotels".
Proof.
  assert (Hin : AuditResponse.rating Sample.worn_carpet ∈ RATING_OPTIONS).
  { vm_compute. apply list_elem_of_further, list_elem_of_here. }
  split; [exact Hin |].
  destruct (proj2 (proj2 (rating_resolution Sample.worn_carpet)) Hin) as [Hd _].
  split; [exact Hd | reflexivity].
Defined.

(** * The rows of the table *)

Section RowContract.
Variable obj : ref -> AuditResponse.t.

(** The entries of the dict of a row. *)
Lemma excel_row_entries (x : AuditResponse.t) (row : odict string) :
  excel_row x = Ok row ->
  exists shown, rating_desc (AuditResponse.rating x) = Ok shown /\
    OrderedDict.get "Section" row =
      Some (ChecklistItem.section (AuditResponse.checklist_item x)) /\
    OrderedDict.get "Item" row =
      Some (ChecklistItem.item (AuditResponse.checklist_item x)) /\
    OrderedDict.get "Rating" row = Some shown /\
    OrderedDict.get "Comment" row = Some (AuditResponse.comment x) /\
    OrderedDict.get "Context" row =
      Some (match AuditResponse.context x with
            | Some c => if decide (c = "") then "General" else c
            | None => "General"
            end) /\
    OrderedDict.get "Photo" row =
      Some (match AuditResponse.photo_file x with
            | Some p => if decide (p = "") then "No" else "Yes"
            | None => "No"
            end) /\
    OrderedDict.get "Timestamp" row =
      Some (Datetime.strftime "%Y-%m-%d %H:%M" (AuditResponse.timestamp x)).
Proof.
  unfold excel_row. rewrite rating_desc_ok. simpl. intros [= <-].
  eexists. split; [reflexivity |].
  repeat split.
  - by destruct (AuditResponse.context x) as [[|c s]|].
  - by destruct (AuditResponse.photo_file x) as [[|c s]|].
Qed.

Lemma HEADERS_elem (c : string) :
  c ∈ HEADERS <->
  c = "Section" \/ c = "Item" \/ c = "Rating" \/ c = "Comment" \/
  c = "Context" \/ c = "Photo" \/ c = "Timestamp".
Proof. unfold HEADERS. rewrite !elem_of_cons, elem_of_nil. tauto. Qed.

(** C4, as the specification states it, fails: the rating "5 - Custom" is
    shown as it is stored, which is none of the canonical options. *)
Lemma row_contract_stated_fails :
  ~ row_contract_stated Sample.store (Sample.session [2%nat]).
Proof.
  intros (df & Hdf & _ & Hrows).
  destruct (Hrows 0%nat 2%nat eq_refl) as (_ & _ & opt & Hopt & Hcell).
  vm_compute in Hdf. injection Hdf as <-.
  vm_compute in Hcell. injection Hcell as <-.
  unfold RATING_OPTIONS in Hopt. rewrite !elem_of_cons, elem_of_nil in Hopt.
  destruct Hopt as [?|[?|[?|[?|[]]]]]; discriminate.
Qed.

(** C4, corrected. The table has one row per response, in the order of
    [responses], under the seven headers. In the row of a response, Section,
    Item and Comment are its own; Context is its context, or "General" when
    the context is absent or empty; Photo is "Yes" exactly when a photo
    reference is present and not empty; Timestamp is its timestamp as
    YYYY-MM-DD HH:MM, whatever its seconds and microseconds; Rating is the
    first canonical option that starts with the numeric prefix of the stored
    rating, or the stored rating when no option does, hence the stored rating
    itself when it is canonical. The session of the example gives one row
    with Context "General", Photo "No" and the full canonical rating. *)
Theorem tabular_row_contract (session : AuditSession.t) :
  exists df, generate_excel_data obj session = Ok df /\
    length (pd.rows df) = length (AuditSession.responses session) /\
    (forall i r, AuditSession.responses session !! i = Some r ->
       pd.columns df = HEADERS /\
       pd.cell df i "Section" =
         Some (ChecklistItem.section (AuditResponse.checklist_item (obj r))) /\
       pd.cell df i "Item" =
         Some (ChecklistItem.item (AuditResponse.checklist_item (obj r))) /\
       pd.cell df i "Comment" = Some (AuditResponse.comment (obj r)) /\
       pd.cell df i "Context" =
         Some (match AuditResponse.context (obj r) with
               | Some c => if decide (c = "") then "General" else c
               | None => "General"
               end) /\
       pd.cell df i "Photo" =
         Some (match AuditResponse.photo_file (obj r) with
               | Some p => if decide (p = "") then "No" else "Yes"
               | None => "No"
               end) /\
       pd.cell df i "Timestamp" =
         Some (Fmt.zero_padded 4 (year (AuditResponse.timestamp (obj r))) +:+ "-" +:+
               Fmt.zero_padded 2 (month (AuditResponse.timestamp (obj r))) +:+ "-" +:+
               Fmt.zero_padded 2 (day (AuditResponse.timestamp (obj r))) +:+ " " +:+
               Fmt.zero_padded 2 (hour (AuditResponse.timestamp (obj r))) +:+ ":" +:+
               Fmt.zero_padded 2 (minute (AuditResponse.timestamp (obj r)))) /\
       exists shown, pd.cell df i "Rating" = Some shown /\
         ((shown ∈ RATING_OPTIONS /\
           PyStr.startswith shown
             (PyStr.before " - " (AuditResponse.rating (obj r))) = true /\
           exists pre post, RATING_OPTIONS = pre ++ shown :: post /\
             forall opt, opt ∈ pre ->
               PyStr.startswith opt
                 (PyStr.before " - " (AuditResponse.rating (obj r))) = false) \/
          (shown = AuditResponse.rating (obj r) /\
           forall opt, opt ∈ RATING_OPTIONS ->
             PyStr.startswith opt
               (PyStr.before " - " (AuditResponse.rating (obj r))) = false)) /\
         (AuditResponse.rating (obj r) ∈ RATING_OPTIONS ->
          shown = AuditResponse.rating (obj r))) /\
    (forall r note instant,
       AuditSession.responses session = [r] ->
       obj r = AuditResponse.mk
                 (ChecklistItem.mk "Main Lobby" "Flooring condition" note)
                 "2 - Needs to be changed to match competing hotels"
                 "Worn carpet" None None instant ->
       length (pd.rows df) = 1%nat /\
       pd.cell df 0 "Context" = Some "General" /\
       pd.cell df 0 "Photo" = Some "No" /\
       pd.cell df 0 "Rating" =
         Some "2 - Needs to be changed to match competing hotels").
Proof.
  destruct (generate_excel_data_ok obj session) as (data & Hdf & Hall).
  exists (pd.DataFrame_of data). split; [done |].
  assert (Hlen : length (pd.rows (pd.DataFrame_of data)) =
                 length (AuditSession.responses session)).
  { simpl. rewrite length_fmap. symmetry. by eapply Forall2_length. }
  split; [done |].
  assert (Hcells : forall i r, AuditSession.responses session !! i = Some r ->
            exists row, excel_row (obj r) = Ok row /\
              pd.columns (pd.DataFrame_of data) = HEADERS /\
              forall c, c ∈ HEADERS ->
                pd.cell (pd.DataFrame_of data) i c = OrderedDict.get c row).
  { intros i r Hi.
    destruct (excel_cells obj session i r Hi) as (df & row & Hdf' & Hrow & _ & Hcol & Hc).
    exists row. replace df with (pd.DataFrame_of data) in * by congruence. done. }
  split.
  - intros i r Hi. destruct (Hcells i r Hi) as (row & Hrow & Hcol & Hc).
    destruct (excel_row_entries _ _ Hrow)
      as (shown & Hshown & HS & HI & HR & HC & HX & HP & HT).
    split; [done |].
    rewrite !Hc by (apply HEADERS_elem; tauto).
    rewrite HS, HI, HC, HX, HP, HT, HR, strftime_minute.
    repeat split. exists shown. split; [done |].
    destruct (rating_desc_cases (AuditResponse.rating (obj r)))
      as (shown' & Hshown' & Hcases).
    replace shown' with shown in * by congruence. split.
    + destruct Hcases as [(pre & post & Hl & Hs & Hpre)|[-> Hno]].
      * left. split; [rewrite Hl; apply elem_of_app; right; by left |].
        split; [done |]. by exists pre, post.
      * by right.
    + intros Hin. rewrite (rating_desc_canonical _ Hin) in Hshown. congruence.
  - intros r note instant Hrs Hobj. rewrite Hlen, Hrs. split; [done |].
    assert (Hi : AuditSession.responses session !! 0%nat = Some r) by by rewrite Hrs.
    destruct (Hcells _ _ Hi) as (row & Hrow & Hcol & Hc).
    rewrite !Hc by (apply HEADERS_elem; tauto).
    rewrite Hobj in Hrow. injection Hrow as <-. done.
Qed.

(** C5, as the specification states it, fails: the table of a session
    without responses has no headers. *)
Lemma zero_response_export_stated_fails :
  ~ zero_response_export_stated Sample.store (Sample.session []).
Proof. intros H. specialize (H eq_refl). vm_compute in H. discriminate. Qed.

(** C5, corrected. The columns of the table are the keys of the dicts of its
    rows. A session without responses gives a table with no row and no
    column, and the Export button then writes nothing and warns that there is
    no data; a session with a response gives the seven headers and a
    download. *)
Theorem zero_response_export (session : AuditSession.t) :
  exists df, generate_excel_data obj session = Ok df /\
    length (pd.rows df) = length (AuditSession.responses session) /\
    (AuditSession.responses session = [] ->
       df = pd.mk [] [] /\
       export_to_excel obj session =
         Ok (sidebar_warning "No audit data available to export")) /\
    (AuditSession.responses session <> [] ->
       pd.columns df = HEADERS /\
       export_to_excel obj session = Ok (download_button df)).
Proof.
  destruct (generate_excel_data_ok obj session) as (data & Hdf & Hall).
  exists (pd.DataFrame_of data). split; [done |]. split.
  { simpl. rewrite length_fmap. symmetry. by eapply Forall2_length. }
  unfold export_to_excel. rewrite Hdf. simpl. split.
  - intros Hnil. rewrite Hnil in Hall. apply Forall2_nil_inv_l in Hall as ->. done.
  - intros Hne. destruct (AuditSession.responses session) as [|r rs] eqn:E; [done |].
    assert (Hi : AuditSession.responses session !! 0%nat = Some r) by by rewrite E.
    destruct (excel_cells obj session 0 r Hi) as (df & row & Hdf' & _ & Hl & Hcol & _).
    replace df with (pd.DataFrame_of data) in * by congruence.
    split; [done |]. unfold pd.empty. rewrite Hcol.
    destruct (pd.rows (pd.DataFrame_of data)) eqn:Er; [by rewrite E in Hl |]. done.
Qed.

(** C9. The empty rating is shown as the first canonical option: [split]
    gives it the empty prefix, every option starts with the empty string, and
    the lookup takes the first; so does the row of any response whose rating
    is empty. *)
Theorem empty_rating_first_option :
  PyStr.split " - " "" = [""] /\
  (forall opt, opt ∈ RATING_OPTIONS -> PyStr.startswith opt "" = true) /\
  rating_desc "" = Ok "1 - Needs to be changed due to age-related factors" /\
  forall session i r,
    AuditSession.responses session !! i = Some r ->
    AuditResponse.rating (obj r) = "" ->
    exists df, generate_excel_data obj session = Ok df /\
      pd.cell df i "Rating" =
        Some "1 - Needs to be changed due to age-related factors".
Proof.
  split; [reflexivity |]. split; [intros opt _; apply startswith_nil |].
  split; [reflexivity |].
  intros session i r Hi Hr.
  destruct (excel_cells obj session i r Hi) as (df & row & Hdf & Hrow & _ & _ & Hc).
  exists df. split; [done |].
  rewrite Hc by (apply HEADERS_elem; tauto).
  destruct (excel_row_entries _ _ Hrow) as (shown & Hshown & _ & _ & HR & _).
  rewrite HR. rewrite Hr in Hshown. vm_compute in Hshown. congruence.
Qed.

End RowContract.

(** * Ordered dicts *)

Section OrderedDictFacts.
Context {V : Type}.

Lemma mem_spec (k : string) (d : odict V) :
  OrderedDict.mem k d = true <-> k ∈ d.*1.
Proof. unfold OrderedDict.mem. apply bool_decide_eq_true. Qed.

Lemma get_keyed (f : string -> V) (ks : list string) (k : string) :
  k ∈ ks -> OrderedDict.get k ((fun k' => (k', f k')) <$> ks) = Some (f k).
Proof.
  induction ks as [|x ks IH]; [by intros ?%elem_of_nil |].
  intros Hk. simpl. destruct (decide (x = k)) as [->|Hne]; [done |].
  apply elem_of_cons in Hk as [->|Hk]; [done | by apply IH].
Qed.

Lemma get_absent (d : odict V) (k : string) :
  k ∉ d.*1 -> OrderedDict.get k d = None.
Proof.
  induction d as [|[x v] d IH]; [done |].
  intros Hk. simpl. apply not_elem_of_cons in Hk as [Hne Hk].
  destruct (decide (x = k)); [by subst | by apply IH].
Qed.

Lemma get_snoc_absent (d : odict V) (k : string) (v : V) :
  k ∉ d.*1 -> OrderedDict.get k (d ++ [(k, v)]) = Some v.
Proof.
  induction d as [|[x w] d IH]; intros Hk; simpl.
  - by destruct (decide (k = k)).
  - apply not_elem_of_cons in Hk as [Hne Hk].
    destruct (decide (x = k)); [by subst | by apply IH].
Qed.

Lemma set_absent (d : odict V) (k : string) (v : V) :
  k ∉ d.*1 -> OrderedDict.set k v d = d ++ [(k, v)].
Proof.
  induction d as [|[x w] d IH]; [done |].
  intros Hk. simpl. apply not_elem_of_cons in Hk as [Hne Hk].
  destruct (decide (x = k)); [by subst | by rewrite IH].
Qed.

Lemma set_snoc (d : odict V) (k : string) (v w : V) :
  k ∉ d.*1 -> OrderedDict.set k w (d ++ [(k, v)]) = d ++ [(k, w)].
Proof.
  induction d as [|[x u] d IH]; intros Hk; simpl.
  - by destruct (decide (k = k)).
  - apply not_elem_of_cons in Hk as [Hne Hk].
    destruct (decide (x = k)); [by subst | by rewrite IH].
Qed.

Lemma set_keyed (f : string -> V) (ks : list string) (k : string) (v : V) :
  NoDup ks -> k ∈ ks ->
  OrderedDict.set k v ((fun k' => (k', f k')) <$> ks) =
  (fun k' => (k', if decide (k' = k) then v else f k')) <$> ks.
Proof.
  induction ks as [|x ks IH]; [by intros _ ?%elem_of_nil |].
  intros [Hx Hks]%NoDup_cons Hk. simpl.
  destruct (decide (x = k)) as [->|Hne].
  - f_equal. apply list_fmap_ext. intros i k' Hi.
    destruct (decide (k' = k)) as [->|]; [| done].
    exfalso. apply Hx. by eapply list_elem_of_lookup_2.
  - f_equal. apply elem_of_cons in Hk as [->|Hk]; [done | by apply IH].
Qed.

End OrderedDictFacts.

(** * Grouping by section *)

Section GroupingFacts.
Variable obj : ref -> AuditResponse.t.

Local Notation "'sec'" := (AuditSession.section_of obj).

Lemma partition_keys (rs : list ref) :
  (partition_by_section obj rs).*1 = first_seen (sec <$> rs).
Proof.
  unfold partition_by_section.
  induction (first_seen (sec <$> rs)) as [|k ks IH]; [done |].
  rewrite !fmap_cons. simpl. f_equal. exact IH.
Qed.

(** One turn of the loop takes the grouping of the responses read so far to
    the grouping with one more. *)
Lemma group_step_snoc (pre : list ref) (r : ref) :
  AuditSession.group_step obj (partition_by_section obj pre) r =
  Ok (partition_by_section obj (pre ++ [r])).
Proof.
  unfold AuditSession.group_step.
  pose proof (NoDup_first_seen (sec <$> pre)) as Hnd.
  destruct (OrderedDict.mem (sec r) (partition_by_section obj pre)) eqn:E; simpl.
  - apply mem_spec in E. rewrite partition_keys in E.
    unfold OrderedDict.getitem, partition_by_section at 1.
    rewrite (get_keyed _ _ _ E). simpl. f_equal.
    unfold partition_by_section.
    rewrite (set_keyed _ _ _ _ Hnd E).
    rewrite fmap_app. simpl. rewrite first_seen_snoc, decide_True by done.
    apply list_fmap_ext. intros i k Hi. f_equal.
    rewrite filter_app, filter_cons, filter_nil.
    destruct (decide (k = sec r)) as [->|Hne].
    + by rewrite decide_True.
    + rewrite decide_False by done. by rewrite app_nil_r.
  - assert (Hk : sec r ∉ (partition_by_section obj pre).*1).
    { intros Hk%mem_spec. congruence. }
    rewrite (set_absent _ _ _ Hk).
    unfold OrderedDict.getitem. rewrite (get_snoc_absent _ _ _ Hk). simpl.
    rewrite (set_snoc _ _ _ _ Hk). f_equal.
    rewrite partition_keys in Hk.
    unfold partition_by_section.
    rewrite (fmap_app sec). simpl. rewrite first_seen_snoc, decide_False by done.
    rewrite fmap_app. simpl. f_equal.
    + apply list_fmap_ext. intros i k Hi. f_equal.
      rewrite filter_app, filter_cons, filter_nil.
      rewrite decide_False; [by rewrite app_nil_r |].
      intros Heq. apply Hk. rewrite Heq. by eapply list_elem_of_lookup_2.
    + f_equal. f_equal. rewrite filter_app, filter_cons, filter_nil.
      rewrite decide_True by done.
      replace (filter (fun r0 => sec r0 = sec r) pre) with (@nil ref); [done |].
      symmetry. rewrite elem_of_first_seen in Hk. clear -Hk. induction pre as [|x pre IH]; [done |].
      rewrite fmap_cons, not_elem_of_cons in Hk. destruct Hk as [Hne Hk].
      rewrite filter_cons, decide_False by done. by apply IH.
Qed.

End GroupingFacts.

Section Grouping.
Variable obj : ref -> AuditResponse.t.

Local Notation "'sec'" := (AuditSession.section_of obj).

Lemma group_loop_partition (pre rest : list ref) :
  AuditSession.group_loop obj (partition_by_section obj pre) rest =
  Ok (partition_by_section obj (pre ++ rest)).
Proof.
  revert pre. induction rest as [|r rest IH]; intros pre; simpl.
  - by rewrite app_nil_r.
  - rewrite group_step_snoc. simpl. rewrite IH. by rewrite <- app_assoc.
Qed.

(** The loop computes the grouping of the specification, and never raises. *)
Lemma get_responses_by_section_ok (session : AuditSession.t) :
  AuditSession.get_responses_by_section obj session =
  Ok (partition_by_section obj (AuditSession.responses session)).
Proof. apply (group_loop_partition []). Qed.

Lemma partition_values (rs : list ref) :
  (partition_by_section obj rs).*2 =
  (fun k => filter (fun r => sec r = k) rs) <$> first_seen (sec <$> rs).
Proof.
  unfold partition_by_section.
  induction (first_seen (sec <$> rs)) as [|k ks IH]; [done |].
  rewrite !fmap_cons. simpl. f_equal. exact IH.
Qed.

Lemma elem_of_partition (rs : list ref) (k : string) (l : list ref) :
  (k, l) ∈ partition_by_section obj rs <->
  k ∈ sec <$> rs /\ l = filter (fun r => sec r = k) rs.
Proof.
  unfold partition_by_section. split.
  - intros (k' & Heq & Hk)%list_elem_of_fmap. injection Heq as -> ->.
    rewrite elem_of_first_seen in Hk. by split.
  - intros [Hk ->]. apply list_elem_of_fmap. exists k.
    split; [done | by apply elem_of_first_seen].
Qed.

(** The lists of distinct sections that cover the responses hold each
    response as often as the responses do. *)
Lemma partition_flatten (ks : list string) (rs : list ref) :
  NoDup ks -> (forall r, r ∈ rs -> sec r ∈ ks) ->
  mjoin ((fun k => filter (fun r => sec r = k) rs) <$> ks) ≡ₚ rs.
Proof.
  revert rs. induction ks as [|k ks IH]; intros rs Hnd Hcover.
  - destruct rs as [|r rs]; [done |].
    specialize (Hcover r (list_elem_of_here _ _)). by apply elem_of_nil in Hcover.
  - apply NoDup_cons in Hnd as [Hk Hnd]. rewrite fmap_cons. simpl.
    etrans; [| apply (filter_app_complement (fun r => sec r = k) rs)].
    apply Permutation_app_head.
    assert (Heq : (fun k' => filter (fun r => sec r = k') rs) <$> ks =
                  (fun k' => filter (fun r => sec r = k')
                               (filter (fun r => ~ sec r = k) rs)) <$> ks).
    { apply list_fmap_ext. intros i k' Hi.
      rewrite list_filter_filter. apply list_filter_iff. intros r.
      split; [| tauto]. intros Hr. split; [done |].
      intros Hrk. apply Hk. rewrite <- Hrk, Hr. by eapply list_elem_of_lookup_2. }
    rewrite Heq. apply IH; [done |].
    intros r [Hr Hin]%list_elem_of_filter.
    specialize (Hcover r Hin). apply elem_of_cons in Hcover as [|]; done.
Qed.

(** C2. For every session, and so for every one that a sequence of
    [add_response] and [remove] leads to, [get_responses_by_section]
    returns a mapping whose keys are the sections of the responses, each
    once, in the order they are first seen; the list of a section holds the
    responses of that section and no other, in their order and as often as
    [responses] does, and is never empty; every response is in the list of its
    section; a section without responses is no key; and the lists together
    hold the responses, none twice, none lost. *)
Theorem responses_by_section_partition (session : AuditSession.t) :
  exists sections,
    AuditSession.get_responses_by_section obj session = Ok sections /\
    sections.*1 = first_seen (sec <$> AuditSession.responses session) /\
    NoDup (sections.*1) /\
    (forall k l, (k, l) ∈ sections ->
       l <> [] /\ l = filter (fun r => sec r = k) (AuditSession.responses session)) /\
    (forall k l r, (k, l) ∈ sections -> r ∈ l ->
       sec r = k /\ r ∈ AuditSession.responses session) /\
    (forall r, r ∈ AuditSession.responses session ->
       exists l, (sec r, l) ∈ sections /\ r ∈ l) /\
    (forall k, (forall r, r ∈ AuditSession.responses session -> sec r <> k) ->
       (k ∉ sections.*1) /\ OrderedDict.get k sections = None) /\
    mjoin (sections.*2) ≡ₚ AuditSession.responses session.
Proof.
  exists (partition_by_section obj (AuditSession.responses session)).
  split; [apply get_responses_by_section_ok |].
  split; [apply partition_keys |].
  split; [rewrite partition_keys; apply NoDup_first_seen |].
  split; [| split; [| split; [| split]]].
  - intros k l [Hk ->]%elem_of_partition. split; [| done].
    apply list_elem_of_fmap in Hk as (r & -> & Hr).
    intros Hnil. eapply (filter_nil_not_elem_of _ _ r Hnil); done.
  - intros k l r [Hk ->]%elem_of_partition [Hr Hin]%list_elem_of_filter. done.
  - intros r Hr. eexists. split.
    + apply elem_of_partition. split; [| reflexivity].
      apply list_elem_of_fmap. by exists r.
    + by apply list_elem_of_filter.
  - intros k Hk.
    assert (Hno : k ∉ (partition_by_section obj (AuditSession.responses session)).*1).
    { rewrite partition_keys, elem_of_first_seen, list_elem_of_fmap.
      intros (r & -> & Hr). by apply (Hk r). }
    split; [done | by apply get_absent].
  - rewrite partition_values. apply partition_flatten; [apply NoDup_first_seen |].
    intros r Hr. apply elem_of_first_seen, list_elem_of_fmap. by exists r.
Qed.

End Grouping.

(** * Adding and clearing responses *)

Section Multiplicity.
Variable obj : ref -> AuditResponse.t.

Lemma with_responses_same (session : AuditSession.t) :
  AuditSession.with_responses session (AuditSession.responses session) = session.
Proof. by destruct session. Qed.

(** [remove] takes out the first occurrence, by identity. *)
Lemma list_remove_first_middle (pre : list ref) (x : ref) (l : list ref) :
  x ∉ pre -> list_remove_first x (pre ++ x :: l) = Ok (pre ++ l).
Proof.
  induction pre as [|y pre IH]; intros Hx; simpl.
  - by rewrite decide_True.
  - apply not_elem_of_cons in Hx as [Hne Hx].
    rewrite decide_False by done. by rewrite IH.
Qed.

Lemma filter_complement_all {A} (P : A -> Prop) `{forall x, Decision (P x)} (l : list A) :
  filter P l = [] -> filter (fun x => ~ P x) l = l.
Proof.
  induction l as [|x l IH]; [done |].
  rewrite !filter_cons. destruct (decide (P x)) as [Hx|Hx]; [discriminate |].
  intros Hl. rewrite decide_True by done. by rewrite IH.
Qed.

(** Removing, one by one, the responses that a test selects leaves those
    that fail the test, in their order; no removal raises. *)
Lemma remove_each_filter (P : ref -> Prop) `{forall x, Decision (P x)}
    (session : AuditSession.t) (pre l : list ref) :
  (forall x, x ∈ pre -> ~ P x) ->
  remove_each (filter P l) (AuditSession.with_responses session (pre ++ l)) =
  Ok (AuditSession.with_responses session (pre ++ filter (fun x => ~ P x) l)).
Proof.
  revert pre. induction l as [|x l IH]; intros pre Hpre; [done |].
  rewrite !filter_cons. destruct (decide (P x)) as [Hx|Hx].
  - rewrite decide_False by tauto. simpl.
    unfold AuditSession.remove. simpl.
    rewrite list_remove_first_middle by (intros Hin; by apply (Hpre x)).
    simpl. by apply IH.
  - rewrite decide_True by done.
    rewrite (cons_middle x pre l), (cons_middle x pre (filter _ l)), !app_assoc.
    apply IH. intros y [Hy| ->%list_elem_of_singleton]%elem_of_app; [by apply Hpre | done].
Qed.

Lemma clear_selected (P : ref -> Prop) `{forall x, Decision (P x)}
    (session : AuditSession.t) :
  (if bool_decide (filter P (AuditSession.responses session) <> [])
   then remove_each (filter P (AuditSession.responses session)) session
   else Ok session) =
  Ok (AuditSession.with_responses session
        (filter (fun x => ~ P x) (AuditSession.responses session))).
Proof.
  case_bool_decide as Hne.
  - rewrite <- (with_responses_same session) at 2.
    apply (remove_each_filter P session []).
    intros x Hx. by apply elem_of_nil in Hx.
  - rewrite filter_complement_all, with_responses_same; [done |].
    by destruct (decide (filter P (AuditSession.responses session) = [])).
Qed.

(** The Clear of a general section goes by section and item. *)
Lemma general_clear_spec (session : AuditSession.t) (selected_section item : string) :
  general_clear obj session selected_section item =
  Ok (AuditSession.with_responses session
        (filter (fun r => ~ (AuditSession.section_of obj r = selected_section /\
                             AuditSession.item_of obj r = item))
                (AuditSession.responses session))).
Proof.
  unfold general_clear, general_existing_responses.
  rewrite list_filter_filter, clear_selected. do 2 f_equal.
  apply list_filter_iff. tauto.
Qed.

(** The Clear of a specialized section goes by the whole key. *)
Lemma specific_clear_spec (session : AuditSession.t)
    (section_type section_name item : string) :
  specific_clear obj session section_type section_name item =
  Ok (AuditSession.with_responses session
        (filter (fun r => AuditResponse.key (obj r) <>
                          (checklist_key section_type, item, Some section_name))
                (AuditSession.responses session))).
Proof.
  unfold specific_clear, specific_existing_responses.
  rewrite list_filter_filter, clear_selected. do 2 f_equal.
  apply list_filter_iff. intros r.
  unfold AuditResponse.key, AuditSession.item_of, AuditSession.section_of.
  split.
  - intros Hn [= Hs Hi Hc]. apply Hn. done.
  - intros Hn (Hi & Hc & Hs). apply Hn. by rewrite Hs, Hi, Hc.
Qed.

(** The Clear of a general section goes by section and item alone. On a
    session that holds a response of a general section under a context, which
    the form never builds, it takes that response as well. *)
Lemma general_clear_outside_reach :
  ~ clear_by_key_stated Sample.store (Sample.session [0; 1]%nat)
      "Main Lobby" "Flooring condition".
Proof. unfold clear_by_key_stated. vm_compute. discriminate. Qed.

End Multiplicity.

(** * The catalog loader *)

Section CatalogFacts.

Lemma empty_lists_lookup (categories : list string) (k : string) :
  empty_lists categories !! k = if decide (k ∈ categories) then Some [] else None.
Proof.
  unfold empty_lists.
  induction categories as [|c cs IH] using rev_ind; [done |].
  rewrite foldl_app. simpl.
  destruct (decide (c = k)) as [->|Hne].
  - rewrite lookup_insert_eq, decide_True; [done |].
    apply elem_of_app. right. by left.
  - rewrite lookup_insert_ne, IH by done.
    apply decide_ext. rewrite elem_of_app, list_elem_of_singleton.
    split; [tauto |]. intros [?|?]; [done | congruence].
Qed.

(** C6. [load_master_checklist] never raises. When the template file is
    missing it returns the default catalog: each of the nine general
    categories and of "F&B Outlets", "Ballrooms & Meeting Rooms" and
    "Guestroom" with an empty list of items, and no other section. On any
    other failure it returns the empty mapping; each fallback tells the user.
    A file that loads is returned as it is. *)
Theorem load_master_checklist_fallback (read : result (gmap string (list string))) :
  exists checklist events,
    load_master_checklist read = Ok (checklist, events) /\
    (read = Raise FileNotFoundError ->
       (forall k, k ∈ GENERAL_CATEGORIES ++
                      ["F&B Outlets"; "Ballrooms & Meeting Rooms"; "Guestroom"] ->
          checklist !! k = Some []) /\
       (forall k, k ∉ GENERAL_CATEGORIES ++
                      ["F&B Outlets"; "Ballrooms & Meeting Rooms"; "Guestroom"] ->
          checklist !! k = None) /\
       length GENERAL_CATEGORIES = 9%nat /\
       size checklist = 12%nat /\
       events = [st_error "Master checklist file not found. Using default categories."]) /\
    (forall e, read = Raise e -> e <> FileNotFoundError ->
       checklist = ∅ /\
       events = [logging_error "Error loading master checklist: %s" e;
                 st_error "Unexpected error loading checklist."]) /\
    (forall loaded, read = Ok loaded -> checklist = loaded /\ events = []).
Proof.
  destruct read as [loaded|e].
  - exists loaded, []. split; [done |]. repeat split; congruence.
  - assert (Hother : e <> FileNotFoundError ->
              load_master_checklist (Raise e) =
              Ok (∅, [logging_error "Error loading master checklist: %s" e;
                      st_error "Unexpected error loading checklist."])).
    { by destruct e. }
    destruct e; try (eexists _, _; split; [by apply Hother |];
      split; [discriminate |]; split; [| discriminate]; by intros e' [= <-] _).
    eexists _, _. split; [reflexivity |]. split; [| split; [| discriminate]].
    + intros _. split; [| split; [| split; [| split]]].
      * intros k Hk. rewrite empty_lists_lookup. by rewrite decide_True.
      * intros k Hk. rewrite empty_lists_lookup. by rewrite decide_False.
      * reflexivity.
      * by vm_compute.
      * reflexivity.
    + intros e [= <-] He. done.
Qed.

End CatalogFacts.

(** * Best-effort persistence *)

Section PersistenceFacts.
Variable obj : ref -> AuditResponse.t.
Variable py_str : pyval -> string.

Lemma findings_loop_ok (idx : nat) (responses : list ref) :
  exists ops, findings_loop obj idx responses = Ok ops.
Proof.
  revert idx. induction responses as [|r rs IH]; intros idx; [by exists [] |].
  simpl. unfold finding. rewrite rating_description_ok. simpl.
  destruct (IH (S idx)) as [ops ->]. simpl. by eexists.
Qed.

Lemma sections_loop_ok (sections : odict (list ref)) :
  exists ops, sections_loop obj sections = Ok ops.
Proof.
  induction sections as [|[section responses] sections [ops IH]]; [by exists [] |].
  simpl. destruct (findings_loop_ok 1 responses) as [ops' ->]. simpl.
  rewrite IH. simpl. by eexists.
Qed.

(** C7. [save_to_file] returns "audits/{session_id}.json" and
    [generate_pdf_report] returns "audits/{session_id}.pdf", whether the
    write succeeds or raises. Neither raises itself: a failed write leaves an
    error in the log and an error message to the user, and no file. The
    session comes back unchanged either way. *)
Theorem best_effort_persistence (session : AuditSession.t) (write : option exception) :
  (exists written events,
     AuditSession.save_to_file obj session write =
       (session, "audits/" +:+ AuditSession.session_id session +:+ ".json",
        written, events) /\
     (write = None -> written = Some (VDict (AuditSession.to_dict obj session))) /\
     (forall e, write = Some e ->
        written = None /\
        events = [logging_error "Error saving session file: %s" e;
                  st_error "Error saving session data."])) /\
  (exists written events,
     generate_pdf_report obj py_str session write =
       Ok (session, "audits/" +:+ AuditSession.session_id session +:+ ".pdf",
           written, events) /\
     (write = None -> exists pdf, written = Some pdf) /\
     (forall e, write = Some e ->
        written = None /\
        events = [logging_error "Error generating PDF report: %s" e;
                  st_error "Failed to generate PDF report."])).
Proof.
  split.
  - destruct write as [e|]; simpl; eexists _, _; (split; [reflexivity |]);
      split; try done; intros e' [= <-]; done.
  - unfold generate_pdf_report. rewrite get_responses_by_section_ok. simpl.
    destruct (sections_loop_ok (partition_by_section obj (AuditSession.responses session)))
      as [ops ->]. simpl.
    destruct write as [e|]; eexists _, _; (split; [reflexivity |]); split;
      try done; [intros e' [= <-]; done | by eexists].
Qed.

End PersistenceFacts.

(** * Digits *)

Section DigitFacts.
Import Fmt.

Lemma digit_val_char (d : N) : d < 10 -> digit_val (digit_char d) = Some d.
Proof.
  intros Hd. unfold digit_val, digit_char.
  rewrite N_ascii_embedding by lia.
  replace ((48 <=? 48 + d) && (48 + d <=? 57)) with true.
  - f_equal. lia.
  - symmetry. apply andb_true_iff. split; apply N.leb_le; lia.
Qed.

Lemma digit_char_not_space (d : N) : d < 10 -> digit_char d <> " "%char.
Proof.
  intros Hd Heq. apply (f_equal N_of_ascii) in Heq. unfold digit_char in Heq.
  rewrite N_ascii_embedding in Heq by lia. vm_compute (N_of_ascii " ") in Heq. lia.
Qed.

Lemma pow10_succ (w : nat) : 10 ^ N.of_nat (S w) = 10 ^ N.of_nat w * 10.
Proof. rewrite Nat2N.inj_succ, N.pow_succ_r'. lia. Qed.

(** Reading back the digits of a number. *)
Lemma take_digits_fixed (w : nat) (acc n : N) (rest : string) :
  take_digits w acc (fixed_digits w n +:+ rest) =
  Some (acc * 10 ^ N.of_nat w + n mod 10 ^ N.of_nat w, rest).
Proof.
  revert acc. induction w as [|w IH]; intros acc.
  - simpl. rewrite N.mod_1_r. do 2 f_equal. lia.
  - cbn [fixed_digits take_digits String.append].
    rewrite digit_val_char by (apply N.mod_lt; lia).
    rewrite IH. do 2 f_equal.
    rewrite pow10_succ, N.Div0.mod_mul_r. ring.
Qed.

Lemma num_digits_fuel_bound (fuel w : nat) (n : N) :
  n < 10 ^ N.of_nat (S w) -> (num_digits_fuel fuel n <= S w)%nat.
Proof.
  revert w n. induction fuel as [|fuel IH]; intros w n Hn; simpl; [lia |].
  destruct (n <? 10) eqn:E; [lia |].
  apply N.ltb_ge in E. destruct w as [|w].
  - change (10 ^ N.of_nat 1) with 10 in Hn. lia.
  - apply le_n_S, IH. rewrite pow10_succ in Hn.
    apply N.Div0.div_lt_upper_bound. lia.
Qed.

(** A number that fits its width is written with exactly that many digits. *)
Lemma zero_padded_fixed (w : nat) (n : N) :
  n < 10 ^ N.of_nat (S w) -> zero_padded (S w) n = fixed_digits (S w) n.
Proof.
  intros Hn. unfold zero_padded, num_digits.
  pose proof (num_digits_fuel_bound (N.to_nat n) w n Hn).
  by rewrite Nat.max_l.
Qed.

Lemma fixed_digits_no_space (w : nat) (n : N) :
  PyStr.has_char " " (fixed_digits w n) = false.
Proof.
  induction w as [|w IH]; [done |].
  simpl. rewrite IH, orb_false_r. apply bool_decide_eq_false.
  apply digit_char_not_space, N.mod_lt. lia.
Qed.

Lemma zero_padded_no_space (w : nat) (n : N) :
  PyStr.has_char " " (zero_padded w n) = false.
Proof. apply fixed_digits_no_space. Qed.

(** [fromisoformat] reads back what [isoformat] writes. *)
Lemma fromisoformat_isoformat (t : datetime) :
  valid_datetime t -> Snapshot.fromisoformat (Datetime.isoformat t) = Some t.
Proof.
  intros (Hy & Hmo & Hd & Hh & Hmi & Hs & Hu).
  unfold Datetime.isoformat.
  do 6 (rewrite zero_padded_fixed by (vm_compute (10 ^ _); lia)).
  unfold Snapshot.fromisoformat.
  rewrite take_digits_fixed. cbn [mbind option_bind expect String.append].
  rewrite decide_True by done. cbn [mbind option_bind].
  rewrite take_digits_fixed. cbn [mbind option_bind expect String.append].
  rewrite decide_True by done. cbn [mbind option_bind].
  rewrite take_digits_fixed. cbn [mbind option_bind expect String.append].
  rewrite decide_True by done. cbn [mbind option_bind].
  rewrite take_digits_fixed. cbn [mbind option_bind expect String.append].
  rewrite decide_True by done. cbn [mbind option_bind].
  rewrite take_digits_fixed. cbn [mbind option_bind expect String.append].
  rewrite decide_True by done. cbn [mbind option_bind].
  rewrite take_digits_fixed. cbn [mbind option_bind].
  rewrite !N.mul_0_l, !N.add_0_l.
  rewrite !N.mod_small by (vm_compute (10 ^ _); lia).
  destruct (decide (microsecond t = 0)) as [E|E].
  - destruct t; simpl in *. by subst.
  - rewrite zero_padded_fixed by (vm_compute (10 ^ _); lia).
    cbn [String.append expect]. rewrite decide_True by done. cbn [mbind option_bind].
    rewrite <- (str_app_nil_r (fixed_digits 6 (microsecond t))).
    rewrite take_digits_fixed. cbn [mbind option_bind].
    rewrite N.mul_0_l, N.add_0_l, N.mod_small by (vm_compute (10 ^ _); lia).
    by destruct t.
Qed.

End DigitFacts.

(** * Snapshots *)

Section SnapshotFacts.
Variable obj : ref -> AuditResponse.t.

(** The entries of the dict of a response, by key. *)
Lemma response_dict_entries (context section item note rating comment photo_file
    timestamp : pyval) :
  let d := dict_literal
             [ ("context", context); ("section", section); ("item", item);
               ("note", note); ("rating", rating); ("comment", comment);
               ("photo_file", photo_file); ("timestamp", timestamp) ] in
  d !! "context" = Some context /\ d !! "section" = Some section /\
  d !! "item" = Some item /\ d !! "note" = Some note /\
  d !! "rating" = Some rating /\ d !! "comment" = Some comment /\
  d !! "photo_file" = Some photo_file /\ d !! "timestamp" = Some timestamp.
Proof. by vm_compute. Qed.

Lemma session_dict_responses (session_id hotel_info auditor_name timestamp
    responses : pyval) :
  dict_literal
    [ ("session_id", session_id); ("hotel_info", hotel_info);
      ("auditor_name", auditor_name); ("timestamp", timestamp);
      ("responses", responses) ] !! "responses" = Some responses.
Proof. by vm_compute. Qed.

Lemma response_of_dict_to_dict (x : AuditResponse.t) :
  valid_datetime (AuditResponse.timestamp x) ->
  Snapshot.response_of_dict (AuditResponse.to_dict x) = Some x.
Proof.
  intros Hvalid. unfold Snapshot.response_of_dict, AuditResponse.to_dict.
  unfold Snapshot.str_field, Snapshot.opt_str_field.
  match goal with
  | |- context [dict_literal [("context", ?c); ("section", ?s); ("item", ?i);
         ("note", ?n); ("rating", ?r); ("comment", ?m); ("photo_file", ?p);
         ("timestamp", ?t)]] =>
      destruct (response_dict_entries c s i n r m p t)
        as (-> & -> & -> & -> & -> & -> & -> & ->)
  end.
  cbn [mbind option_bind].
  assert (Hopt : forall o : option string,
            match opt_str o with
            | VNone => Some None
            | VStr s => Some (Some s)
            | _ => None
            end = Some o) by (by intros [s|]).
  rewrite !Hopt. cbn [mbind option_bind].
  rewrite (fromisoformat_isoformat _ Hvalid). cbn [mbind option_bind].
  by destruct x as [[]].
Qed.

Lemma responses_of_values (rs : list ref) :
  (forall r, r ∈ rs -> valid_datetime (AuditResponse.timestamp (obj r))) ->
  mapM Snapshot.response_of_value
    ((fun r => VDict (AuditResponse.to_dict (obj r))) <$> rs) = Some (obj <$> rs).
Proof.
  induction rs as [|r rs IH]; intros Hvalid; [done |].
  rewrite !fmap_cons. cbn [mapM Snapshot.response_of_value].
  rewrite response_of_dict_to_dict by (apply Hvalid; by left).
  cbn [mbind option_bind]. rewrite IH by (intros; apply Hvalid; by right).
  done.
Qed.

(** C8. The dict of a session lists, under "responses", one dict per
    response, in the order of the responses; the dict of a response gives its
    section, item, rating, comment, context, photo reference and, in ISO
    format, its timestamp. Reading the dicts back gives the responses again:
    every field, the timestamp to the microsecond. *)
Theorem snapshot_round_trip (session : AuditSession.t) :
  (forall r, r ∈ AuditSession.responses session ->
     valid_datetime (AuditResponse.timestamp (obj r))) ->
  exists entries,
    AuditSession.to_dict obj session !! "responses" = Some (VList entries) /\
    length entries = length (AuditSession.responses session) /\
    (forall i r, AuditSession.responses session !! i = Some r ->
       exists d, entries !! i = Some (VDict d) /\
         d !! "section" =
           Some (VStr (ChecklistItem.section (AuditResponse.checklist_item (obj r)))) /\
         d !! "item" =
           Some (VStr (ChecklistItem.item (AuditResponse.checklist_item (obj r)))) /\
         d !! "rating" = Some (VStr (AuditResponse.rating (obj r))) /\
         d !! "comment" = Some (VStr (AuditResponse.comment (obj r))) /\
         d !! "context" = Some (opt_str (AuditResponse.context (obj r))) /\
         d !! "photo_file" = Some (opt_str (AuditResponse.photo_file (obj r))) /\
         d !! "timestamp" =
           Some (VStr (Datetime.isoformat (AuditResponse.timestamp (obj r)))) /\
         Snapshot.fromisoformat (Datetime.isoformat (AuditResponse.timestamp (obj r))) =
           Some (AuditResponse.timestamp (obj r)) /\
         Snapshot.response_of_dict d = Some (obj r)) /\
    Snapshot.responses_of_dict (AuditSession.to_dict obj session) =
      Some (obj <$> AuditSession.responses session).
Proof.
  intros Hvalid.
  exists ((fun r => VDict (AuditResponse.to_dict (obj r))) <$> AuditSession.responses session).
  assert (Hresp : AuditSession.to_dict obj session !! "responses" =
    Some (VList ((fun r => VDict (AuditResponse.to_dict (obj r))) <$>
                 AuditSession.responses session))).
  { unfold AuditSession.to_dict. apply session_dict_responses. }
  split; [exact Hresp |]. split; [apply length_fmap |]. split.
  - intros i r Hi. exists (AuditResponse.to_dict (obj r)).
    split; [by rewrite list_lookup_fmap, Hi |].
    assert (Hr : r ∈ AuditSession.responses session) by by eapply list_elem_of_lookup_2.
    unfold AuditResponse.to_dict at 1 2 3 4 5 6 7.
    match goal with
    | |- context [dict_literal [("context", ?c); ("section", ?s); ("item", ?it);
           ("note", ?n); ("rating", ?ra); ("comment", ?m); ("photo_file", ?p);
           ("timestamp", ?t)]] =>
        destruct (response_dict_entries c s it n ra m p t)
          as (-> & -> & -> & _ & -> & -> & -> & ->)
    end.
    repeat split; [by apply fromisoformat_isoformat, Hvalid |
                   by apply response_of_dict_to_dict, Hvalid].
  - unfold Snapshot.responses_of_dict. rewrite Hresp.
    by apply responses_of_values.
Qed.

End SnapshotFacts.

(** * Session identifiers *)

Section SessionIdFacts.

Lemma stamp_no_space (t : datetime) :
  PyStr.has_char " " (Datetime.strftime "%Y%m%d_%H%M%S" t) = false.
Proof.
  rewrite strftime_second. rewrite !has_char_app, !zero_padded_no_space. done.
Qed.

(** C10. The identifier of a new session is the hotel name with an
    underscore for every space, "Hotel" when the mapping has no name, then an
    underscore and the instant of creation as YYYYMMDD_HHMMSS; it contains no
    space. A session is constructed exactly when the name is absent or a
    string. *)
Theorem session_id_shape (hotel_info : gmap string pyval) (auditor_name : string)
    (now_id now_ts : datetime) :
  (forall session,
     AuditSession.new hotel_info auditor_name now_id now_ts = Ok session ->
     exists name,
       (hotel_info !! "name" = Some (VStr name) \/
        (hotel_info !! "name" = None /\ name = "Hotel")) /\
       AuditSession.session_id session =
         PyStr.replace_char " " "_" name +:+ "_" +:+
         Datetime.strftime "%Y%m%d_%H%M%S" now_id /\
       Datetime.strftime "%Y%m%d_%H%M%S" now_id =
         Fmt.zero_padded 4 (year now_id) +:+ Fmt.zero_padded 2 (month now_id) +:+
         Fmt.zero_padded 2 (day now_id) +:+ "_" +:+ Fmt.zero_padded 2 (hour now_id) +:+
         Fmt.zero_padded 2 (minute now_id) +:+ Fmt.zero_padded 2 (second now_id) /\
       PyStr.has_char " " (AuditSession.session_id session) = false) /\
  ((exists session,
      AuditSession.new hotel_info auditor_name now_id now_ts = Ok session) <->
   (hotel_info !! "name" = None \/
    exists name, hotel_info !! "name" = Some (VStr name))).
Proof.
  unfold AuditSession.new. split.
  - intros session Hnew.
    assert (Hid : forall name,
      PyStr.has_char " " (PyStr.replace_char " " "_" name +:+ "_" +:+
                          Datetime.strftime "%Y%m%d_%H%M%S" now_id) = false).
    { intros name. rewrite !has_char_app, has_char_replace by done.
      by rewrite stamp_no_space. }
    destruct (hotel_info !! "name") as [[| |name| |]|] eqn:E; simpl in Hnew;
      try discriminate; injection Hnew as <-.
    + exists name. split; [by left |]. split; [done |].
      split; [apply strftime_second | apply Hid].
    + exists "Hotel". split; [by right |]. split; [done |].
      split; [apply strftime_second | apply (Hid "Hotel")].
  - destruct (hotel_info !! "name") as [[| |name| |]|] eqn:E; simpl; split;
      try (by intros [session Hs]); try (intros [?|[name' ?]]; discriminate);
      try (intros _; by eexists); intros _; [right; by eexists | by left].
Qed.

End SessionIdFacts.

(** * The theorems at the sample data *)

Lemma snapshot_round_trip_witness :
  (forall r, r ∈ [0; 1; 2]%nat ->
     valid_datetime (AuditResponse.timestamp (Sample.store r))) /\
  Snapshot.responses_of_dict
    (AuditSession.to_dict Sample.store (Sample.session [0; 1; 2]%nat)) =
  Some [Sample.worn_carpet; Sample.bar_carpet; Sample.custom].
Proof.
  assert (Hvalid : forall r, r ∈ [0; 1; 2]%nat ->
            valid_datetime (AuditResponse.timestamp (Sample.store r))).
  { intros r _. destruct r as [|[|[|[|r]]]]; unfold valid_datetime; simpl; lia. }
  split; [exact Hvalid |].
  destruct (snapshot_round_trip Sample.store (Sample.session [0; 1; 2]%nat) Hvalid)
    as (entries & _ & _ & _ & Hback).
  exact Hback.
Defined.

Lemma responses_by_section_partition_witness :
  exists sections,
    AuditSession.get_responses_by_section Sample.store
      (Sample.session [0; 2; 1; 0]%nat) = Ok sections /\
    sections = [("Main Lobby", [0; 1; 0]%nat); ("Spa & Wellness", [2%nat])] /\
    mjoin (sections.*2) ≡ₚ [0; 2; 1; 0]%nat.
Proof.
  destruct (responses_by_section_partition Sample.store (Sample.session [0; 2; 1; 0]%nat))
    as (sections & Hget & _ & _ & _ & _ & _ & _ & Hperm).
  exists sections. split; [exact Hget |]. split; [| exact Hperm].
  vm_compute in Hget. congruence.
Defined.

Lemma tabular_row_contract_witness :
  exists df,
    generate_excel_data Sample.store (Sample.session [0%nat]) = Ok df /\
    length (pd.rows df) = 1%nat /\
    pd.cell df 0 "Context" = Some "General" /\
    pd.cell df 0 "Photo" = Some "No" /\
    pd.cell df 0 "Rating" = Some "2 - Needs to be changed to match competing hotels".
Proof.
  destruct (tabular_row_contract Sample.store (Sample.session [0%nat]))
    as (df & Hdf & _ & _ & Hexample).
  exists df. split; [exact Hdf |].
  exact (Hexample 0%nat _ _ eq_refl eq_refl).
Defined.

Lemma zero_response_export_witness :
  generate_excel_data Sample.store (Sample.session []) = Ok (pd.mk [] []) /\
  export_to_excel Sample.store (Sample.session []) =
    Ok (sidebar_warning "No audit data available to export").
Proof.
  destruct (zero_response_export Sample.store (Sample.session []))
    as (df & Hdf & _ & Hempty & _).
  destruct (Hempty eq_refl) as [-> Hwarn]. split; [exact Hdf | exact Hwarn].
Defined.

Lemma load_master_checklist_fallback_witness :
  exists checklist events,
    load_master_checklist (Raise FileNotFoundError) = Ok (checklist, events) /\
    checklist !! "Main Lobby" = Some [] /\
    checklist !! "Guestroom" = Some [] /\
    checklist !! "Rooftop" = None.
Proof.
  destruct (load_master_checklist_fallback (Raise FileNotFoundError))
    as (checklist & events & Hload & Hmissing & _).
  destruct (Hmissing eq_refl) as (Hin & Hout & _).
  exists checklist, events. split; [exact Hload |]. split; [| split].
  - apply Hin. vm_compute. apply list_elem_of_further, list_elem_of_here.
  - apply Hin. apply elem_of_app. right.
    apply list_elem_of_further, list_elem_of_further, list_elem_of_here.
  - apply Hout. apply (bool_decide_unpack _). vm_compute. exact I.
Defined.

Lemma best_effort_persistence_witness :
  exists written events,
    AuditSession.save_to_file Sample.store (Sample.session [0; 3]%nat)
      (Some PermissionError) =
    (Sample.session [0; 3]%nat, "audits/Grand_Hotel_20250307_090500.json",
     written, events) /\
    written = None /\
    events = [logging_error "Error saving session file: %s" PermissionError;
              st_error "Error saving session data."].
Proof.
  destruct (best_effort_persistence Sample.store (fun _ => "") (Sample.session [0; 3]%nat)
              (Some PermissionError))
    as [(written & events & Hsave & _ & Hfail) _].
  exists written, events. split; [exact Hsave |].
  exact (Hfail PermissionError eq_refl).
Defined.

Lemma empty_rating_first_option_witness :
  exists df,
    generate_excel_data Sample.store (Sample.session [0; 4]%nat) = Ok df /\
    pd.cell df 1 "Rating" = Some "1 - Needs to be changed due to age-related factors".
Proof.
  destruct (empty_rating_first_option Sample.store) as (_ & _ & _ & Hrow).
  exact (Hrow (Sample.session [0; 4]%nat) 1%nat 4%nat eq_refl eq_refl).
Defined.

Lemma session_id_shape_witness :
  exists session,
    AuditSession.new Sample.grand_hotel "Ann" Sample.instant Sample.instant =
      Ok session /\
    AuditSession.session_id session = "Grand_Hotel_20250307_090500" /\
    PyStr.has_char " " (AuditSession.session_id session) = false.
Proof.
  destruct (session_id_shape Sample.grand_hotel "Ann" Sample.instant Sample.instant)
    as [Hshape _].
  eexists. split; [reflexivity |].
  destruct (Hshape _ eq_refl) as (name & _ & _ & _ & Hspace).
  split; [reflexivity | exact Hspace].
Defined.

(** * More of the session: removing, the latest response, clearing *)

Section SessionOps.
Variable obj : ref -> AuditResponse.t.

Lemma list_remove_first_absent (x : ref) (l : list ref) :
  x ∉ l -> list_remove_first x l = Raise ValueError.
Proof.
  induction l as [|y l IH]; [done |].
  intros [Hne Hx]%not_elem_of_cons. simpl.
  rewrite decide_False by done. by rewrite IH.
Qed.

(** X1. [responses.remove(r)] raises [ValueError] when [r] is not among the
    responses and leaves them as they are; otherwise it takes out the first
    occurrence of [r] and nothing else. Removing a response that was just
    added, and was not there before, gives the session back. *)
Theorem remove_first_occurrence (session : AuditSession.t) (r : ref) :
  (r ∉ AuditSession.responses session ->
     AuditSession.remove session r = Raise ValueError) /\
  (r ∈ AuditSession.responses session ->
     exists pre post,
       AuditSession.responses session = pre ++ r :: post /\ (r ∉ pre) /\
       AuditSession.remove session r =
         Ok (AuditSession.with_responses session (pre ++ post))) /\
  (r ∉ AuditSession.responses session ->
     AuditSession.remove (AuditSession.add_response session r) r = Ok session).
Proof.
  unfold AuditSession.remove. split; [| split].
  - intros Hr. by rewrite list_remove_first_absent.
  - intros Hr. destruct (list_elem_of_split_l _ _ Hr) as (pre & post & Hl & Hpre).
    exists pre, post. split; [done |]. split; [done |].
    by rewrite Hl, list_remove_first_middle.
  - intros Hr. simpl.
    rewrite (list_remove_first_middle (AuditSession.responses session) r [] Hr).
    simpl. rewrite app_nil_r. by destruct session.
Qed.

Lemma remove_first_occurrence_witness :
  AuditSession.remove (Sample.session [0; 1; 0]%nat) 0%nat =
    Ok (Sample.session [1; 0]%nat) /\
  AuditSession.remove (Sample.session [0; 1; 0]%nat) 2%nat = Raise ValueError.
Proof.
  destruct (remove_first_occurrence (Sample.session [0; 1; 0]%nat) 0%nat)
    as (_ & Hin & _).
  destruct (remove_first_occurrence (Sample.session [0; 1; 0]%nat) 2%nat)
    as (Hout & _).
  split.
  - destruct Hin as (pre & post & Hl & Hpre & _); [by left |]. reflexivity.
  - apply Hout. apply (bool_decide_unpack _). vm_compute. exact I.
Defined.

(** X2. The card of an item shows its latest response: after [add_response]
    the latest response of a general card is the added one when it has the
    section and the item of the card, and is what it was otherwise; the same
    holds for the card of a specialized section, which also compares the
    context. A card shows no response exactly when none matches: for a
    general card, when no response of the session has its section and its
    item; for a specialized card, when no response of the session has its
    (section, item, context). *)
Theorem latest_follows_add (session : AuditSession.t) (r : ref) :
  (forall selected_section item,
     latest_response (general_existing_responses obj
                        (AuditSession.add_response session r) selected_section item) =
     if decide (AuditSession.section_of obj r = selected_section /\
                AuditSession.item_of obj r = item)
     then Some r
     else latest_response (general_existing_responses obj session selected_section item)) /\
  (forall section_type section_name item,
     latest_response (specific_existing_responses obj
                        (AuditSession.add_response session r)
                        section_type section_name item) =
     if decide (AuditResponse.key (obj r) =
                (checklist_key section_type, item, Some section_name))
     then Some r
     else latest_response (specific_existing_responses obj session
                             section_type section_name item)) /\
  (forall selected_section item,
     latest_response (general_existing_responses obj session selected_section item) = None <->
     forall x, x ∈ AuditSession.responses session ->
       ~ (AuditSession.section_of obj x = selected_section /\
          AuditSession.item_of obj x = item)) /\
  (forall section_type section_name item,
     latest_response (specific_existing_responses obj session
                        section_type section_name item) = None <->
     forall x, x ∈ AuditSession.responses session ->
       AuditResponse.key (obj x) <>
       (checklist_key section_type, item, Some section_name)).
Proof.
  split; [| split; [| split]].
  - intros sel item. unfold latest_response, general_existing_responses. simpl.
    rewrite !filter_app, !filter_cons, !filter_nil.
    destruct (decide (AuditSession.section_of obj r = sel)) as [Hs|Hs].
    + rewrite filter_cons, filter_nil.
      destruct (decide (AuditSession.item_of obj r = item)) as [Hi|Hi].
      * rewrite decide_True by done. apply last_snoc.
      * rewrite decide_False by tauto. by rewrite app_nil_r.
    + rewrite filter_nil, app_nil_r. rewrite decide_False by tauto. done.
  - intros ty name item. unfold latest_response, specific_existing_responses. simpl.
    rewrite !filter_app, !filter_cons, !filter_nil.
    unfold AuditResponse.key.
    fold (AuditSession.section_of obj r) (AuditSession.item_of obj r).
    destruct (decide (AuditResponse.context (obj r) = Some name /\
                      AuditSession.section_of obj r = checklist_key ty)) as [[Hc Hs]|Hn].
    + rewrite filter_cons, filter_nil.
      destruct (decide (AuditSession.item_of obj r = item)) as [Hi|Hi].
      * rewrite decide_True by (by rewrite Hs, Hi, Hc). apply last_snoc.
      * rewrite decide_False by (intros [= _ ? _]; done). by rewrite app_nil_r.
    + rewrite filter_nil, app_nil_r.
      rewrite decide_False by (intros [= ? _ ?]; by apply Hn). done.
  - intros sel item. unfold latest_response, general_existing_responses.
    rewrite last_None, list_filter_filter. split.
    + intros Hnil x Hx [Hs Hi]. by eapply (filter_nil_not_elem_of _ _ x Hnil).
    + intros Hno. induction (AuditSession.responses session) as [|x l IH]; [done |].
      rewrite filter_cons, decide_False.
      * apply IH. intros y Hy. apply Hno. by right.
      * intros [Hi Hs]. apply (Hno x); [by left | done].
  - intros ty name item. unfold latest_response, specific_existing_responses.
    rewrite last_None, list_filter_filter.
    unfold AuditResponse.key, AuditSession.item_of, AuditSession.section_of. split.
    + intros Hnil x Hx [= Hs Hi Hc].
      by eapply (filter_nil_not_elem_of _ _ x Hnil).
    + intros Hno. induction (AuditSession.responses session) as [|x l IH]; [done |].
      rewrite filter_cons, decide_False.
      * apply IH. intros y Hy. apply Hno. by right.
      * intros (Hi & Hc & Hs). apply (Hno x); [by left |]. by rewrite Hs, Hi, Hc.
Qed.

End SessionOps.

Lemma latest_follows_add_witness :
  latest_response (general_existing_responses Sample.store
                     (AuditSession.add_response (Sample.session [0; 2; 1]%nat) 0%nat)
                     "Main Lobby" "Flooring condition") = Some 0%nat /\
  latest_response (general_existing_responses Sample.store (Sample.session [2%nat])
                     "Main Lobby" "Flooring condition") = None /\
  latest_response (specific_existing_responses Sample.store (Sample.session [0%nat])
                     "F&B" "Pool Bar" "Flooring condition") = None.
Proof.
  destruct (latest_follows_add Sample.store (Sample.session [0; 2; 1]%nat) 0%nat)
    as (Hadd & _ & _ & _).
  destruct (latest_follows_add Sample.store (Sample.session [2%nat]) 0%nat)
    as (_ & _ & Hnone & _).
  destruct (latest_follows_add Sample.store (Sample.session [0%nat]) 0%nat)
    as (_ & _ & _ & Hspecific).
  split; [| split].
  - rewrite Hadd. reflexivity.
  - apply Hnone. intros x Hx. apply list_elem_of_singleton in Hx as ->.
    vm_compute. intros [? _]. discriminate.
  - apply Hspecific. intros x Hx. apply list_elem_of_singleton in Hx as ->.
    vm_compute. discriminate.
Defined.

(** * Clearing a card, seen from the other cards *)

Section ClearEffects.
Variable obj : ref -> AuditResponse.t.

Lemma filter_disjoint {A} (P Q : A -> Prop)
    `{forall x, Decision (P x)} `{forall x, Decision (Q x)} (l : list A) :
  (forall x, P x -> ~ Q x) -> filter P (filter Q l) = [].
Proof.
  intros HPQ. rewrite list_filter_filter.
  induction l as [|x l IH]; [done |].
  rewrite filter_cons, decide_False; [done |].
  intros [HP HQ]. by apply (HPQ x).
Qed.

Lemma filter_complement_length {A} (P : A -> Prop) `{forall x, Decision (P x)}
    (l : list A) :
  (length (filter (fun x => ~ P x) l) + length (filter P l) = length l)%nat.
Proof.
  rewrite <- (Permutation_length (filter_app_complement P l)), length_app. lia.
Qed.

Lemma general_existing_filter (session : AuditSession.t) (selected_section item : string) :
  general_existing_responses obj session selected_section item =
  filter (fun r => AuditSession.section_of obj r = selected_section /\
                   AuditSession.item_of obj r = item)
         (AuditSession.responses session).
Proof.
  unfold general_existing_responses. rewrite list_filter_filter.
  apply list_filter_iff. tauto.
Qed.

Lemma specific_existing_filter (session : AuditSession.t)
    (section_type section_name item : string) :
  specific_existing_responses obj session section_type section_name item =
  filter (fun r => AuditResponse.key (obj r) =
                   (checklist_key section_type, item, Some section_name))
         (AuditSession.responses session).
Proof.
  unfold specific_existing_responses. rewrite list_filter_filter.
  apply list_filter_iff. intros r.
  unfold AuditResponse.key, AuditSession.item_of, AuditSession.section_of.
  split.
  - intros (Hi & Hc & Hs). by rewrite Hs, Hi, Hc.
  - intros [= Hs Hi Hc]. done.
Qed.

(** X3. The Clear of a general card never raises. Afterwards the card has no
    response left and a second Clear changes nothing; every card of another
    section or item has the responses it had, in their order; the responses
    are fewer by those the card had; identifier, hotel, auditor and timestamp
    of the session are untouched. *)
Theorem general_clear_empties_card (session : AuditSession.t)
    (selected_section item : string) :
  exists session',
    general_clear obj session selected_section item = Ok session' /\
    general_existing_responses obj session' selected_section item = [] /\
    (forall section' item',
       ~ (section' = selected_section /\ item' = item) ->
       general_existing_responses obj session' section' item' =
       general_existing_responses obj session section' item') /\
    general_clear obj session' selected_section item = Ok session' /\
    (length (AuditSession.responses session') +
     length (general_existing_responses obj session selected_section item) =
     length (AuditSession.responses session))%nat /\
    session' = AuditSession.with_responses session (AuditSession.responses session').
Proof.
  eexists. split; [apply general_clear_spec |].
  split; [| split; [| split; [| split]]].
  - rewrite general_existing_filter. simpl. apply filter_disjoint. tauto.
  - intros section' item' Hne. rewrite !general_existing_filter. simpl.
    apply list_filter_filter_l. intros r [<- <-]. tauto.
  - rewrite general_clear_spec. simpl. f_equal. unfold AuditSession.with_responses.
    simpl. f_equal. apply list_filter_filter_l. tauto.
  - rewrite general_existing_filter. simpl. apply filter_complement_length.
  - done.
Qed.

(** X4. The Clear of a card of a specialized section never raises. Afterwards
    the card has no response left and a second Clear changes nothing; every
    card of another outlet, section or item has the responses it had, and so
    has every general card of another section or item; the responses are fewer
    by those the card had. *)
Theorem specific_clear_empties_card (session : AuditSession.t)
    (section_type section_name item : string) :
  exists session',
    specific_clear obj session section_type section_name item = Ok session' /\
    specific_existing_responses obj session' section_type section_name item = [] /\
    (forall type' name' item',
       (checklist_key type', item', name') <> (checklist_key section_type, item, section_name) ->
       specific_existing_responses obj session' type' name' item' =
       specific_existing_responses obj session type' name' item') /\
    (forall section' item',
       ~ (section' = checklist_key section_type /\ item' = item) ->
       general_existing_responses obj session' section' item' =
       general_existing_responses obj session section' item') /\
    specific_clear obj session' section_type section_name item = Ok session' /\
    (length (AuditSession.responses session') +
     length (specific_existing_responses obj session section_type section_name item) =
     length (AuditSession.responses session))%nat.
Proof.
  eexists. split; [apply specific_clear_spec |].
  split; [| split; [| split; [| split]]].
  - rewrite specific_existing_filter. simpl. apply filter_disjoint. tauto.
  - intros type' name' item' Hne. rewrite !specific_existing_filter. simpl.
    apply list_filter_filter_l. intros r Hr Heq. rewrite Hr in Heq.
    injection Heq as Hs Hi Hn. apply Hne. by rewrite Hs, Hi, Hn.
  - intros section' item' Hne. rewrite !general_existing_filter. simpl.
    apply list_filter_filter_l. intros r [<- <-] [= Hs Hi Hn]. apply Hne.
    unfold AuditSession.section_of, AuditSession.item_of. done.
  - rewrite specific_clear_spec. simpl. f_equal. unfold AuditSession.with_responses.
    simpl. f_equal. apply list_filter_filter_l. tauto.
  - rewrite specific_existing_filter. simpl.
    apply (filter_complement_length
             (fun r => AuditResponse.key (obj r) =
                       (checklist_key section_type, item, Some section_name))).
Qed.

End ClearEffects.

Lemma general_clear_empties_card_witness :
  exists session',
    general_clear Sample.store (Sample.session [0; 2; 3; 0]%nat)
      "Main Lobby" "Flooring condition" = Ok session' /\
    AuditSession.responses session' = [2; 3]%nat /\
    general_existing_responses Sample.store session' "Spa & Wellness" "Lighting" =
    general_existing_responses Sample.store (Sample.session [0; 2; 3; 0]%nat)
      "Spa & Wellness" "Lighting".
Proof.
  destruct (general_clear_empties_card Sample.store (Sample.session [0; 2; 3; 0]%nat)
              "Main Lobby" "Flooring condition")
    as (session' & Hclear & _ & Hother & _).
  exists session'. split; [exact Hclear |]. split.
  - vm_compute in Hclear. injection Hclear as <-. reflexivity.
  - apply Hother. intros [? _]. discriminate.
Defined.

Lemma specific_clear_empties_card_witness :
  exists session',
    specific_clear Sample.store (Sample.session [0; 3; 2; 3]%nat)
      "F&B" "Pool Bar" "Flooring condition" = Ok session' /\
    AuditSession.responses session' = [0; 2]%nat /\
    general_existing_responses Sample.store session' "Main Lobby" "Flooring condition" =
    general_existing_responses Sample.store (Sample.session [0; 3; 2; 3]%nat)
      "Main Lobby" "Flooring condition".
Proof.
  destruct (specific_clear_empties_card Sample.store (Sample.session [0; 3; 2; 3]%nat)
              "F&B" "Pool Bar" "Flooring condition")
    as (session' & Hclear & _ & _ & Hgeneral & _).
  exists session'. split; [exact Hclear |]. split.
  - vm_compute in Hclear. injection Hclear as <-. reflexivity.
  - apply Hgeneral. intros [? _]. discriminate.
Defined.

(** * Grouping and counting, after a response is added *)

Section AfterAdd.
Variable obj : ref -> AuditResponse.t.

Local Notation "'sec'" := (AuditSession.section_of obj).

(** X5. Adding a response changes the grouping by section in one place: when
    its section has responses already, the response goes to the end of the
    list of that section and the sections keep their order; otherwise its
    section becomes the last one, with this response alone. *)
Theorem grouping_follows_add (session : AuditSession.t) (r : ref) :
  exists sections sections',
    AuditSession.get_responses_by_section obj session = Ok sections /\
    AuditSession.get_responses_by_section obj (AuditSession.add_response session r) =
      Ok sections' /\
    (((exists x, x ∈ AuditSession.responses session /\ sec x = sec r) /\
      sections' =
        (fun kl : string * list ref =>
           (kl.1, if decide (kl.1 = sec r) then kl.2 ++ [r] else kl.2)) <$> sections) \/
     ((forall x, x ∈ AuditSession.responses session -> sec x <> sec r) /\
      sections' = sections ++ [(sec r, [r])])).
Proof.
  exists (partition_by_section obj (AuditSession.responses session)),
         (partition_by_section obj (AuditSession.responses session ++ [r])).
  split; [apply get_responses_by_section_ok |].
  split; [apply get_responses_by_section_ok |].
  pose proof (group_step_snoc obj (AuditSession.responses session) r) as Hstep.
  pose proof (NoDup_first_seen (sec <$> AuditSession.responses session)) as Hnd.
  unfold AuditSession.group_step in Hstep.
  destruct (OrderedDict.mem (sec r)
              (partition_by_section obj (AuditSession.responses session))) eqn:E;
    simpl in Hstep.
  - left. apply mem_spec in E. rewrite partition_keys in E. split.
    + rewrite elem_of_first_seen in E.
      apply list_elem_of_fmap in E as (x & Hx & Hin). by exists x.
    + unfold OrderedDict.getitem, partition_by_section at 1 in Hstep.
      rewrite (get_keyed _ _ _ E) in Hstep. simpl in Hstep.
      unfold partition_by_section at 1 in Hstep.
      rewrite (set_keyed _ _ _ _ Hnd E) in Hstep.
      injection Hstep as <-. unfold partition_by_section.
      rewrite <- list_fmap_compose. apply list_fmap_ext. intros i k Hi. simpl.
      f_equal. by destruct (decide (k = sec r)) as [->|].
  - right.
    assert (Hk : sec r ∉ (partition_by_section obj (AuditSession.responses session)).*1).
    { intros Hk%mem_spec. congruence. }
    split.
    + intros x Hx Heq. apply Hk. rewrite partition_keys, elem_of_first_seen.
      apply list_elem_of_fmap. by exists x.
    + rewrite (set_absent _ _ _ Hk) in Hstep. unfold OrderedDict.getitem in Hstep.
      rewrite (get_snoc_absent _ _ _ Hk) in Hstep. simpl in Hstep.
      rewrite (set_snoc _ _ _ _ Hk) in Hstep. by injection Hstep as <-.
Qed.

Lemma summary_entries (session_id hotel auditor responses_count timestamp : pyval) :
  let d := dict_literal
             [ ("session_id", session_id); ("hotel", hotel); ("auditor", auditor);
               ("responses_count", responses_count); ("timestamp", timestamp) ] in
  d !! "session_id" = Some session_id /\ d !! "hotel" = Some hotel /\
  d !! "auditor" = Some auditor /\ d !! "responses_count" = Some responses_count /\
  d !! "timestamp" = Some timestamp.
Proof. by vm_compute. Qed.

Lemma session_dict_entries (session_id hotel_info auditor_name timestamp
    responses : pyval) :
  let d := dict_literal
             [ ("session_id", session_id); ("hotel_info", hotel_info);
               ("auditor_name", auditor_name); ("timestamp", timestamp);
               ("responses", responses) ] in
  d !! "session_id" = Some session_id /\ d !! "hotel_info" = Some hotel_info /\
  d !! "auditor_name" = Some auditor_name /\ d !! "timestamp" = Some timestamp /\
  d !! "responses" = Some responses.
Proof. by vm_compute. Qed.

(** X6. The summary, the snapshot and the table count the same responses: the
    "responses_count" of [summary] is the number of dicts under "responses"
    in [to_dict] and the number of rows of the table, and [add_response]
    raises it by one. Summary and snapshot also carry the same identifier,
    hotel, auditor and timestamp, the hotel and the auditor under other
    keys. *)
Theorem summary_counts (session : AuditSession.t) (r : ref) :
  exists entries df,
    AuditSession.to_dict obj session !! "responses" = Some (VList entries) /\
    generate_excel_data obj session = Ok df /\
    AuditSession.summary session !! "responses_count" =
      Some (VInt (Z.of_nat (length entries))) /\
    length (pd.rows df) = length entries /\
    AuditSession.summary (AuditSession.add_response session r) !! "responses_count" =
      Some (VInt (Z.of_nat (length entries) + 1)) /\
    AuditSession.summary session !! "session_id" =
      AuditSession.to_dict obj session !! "session_id" /\
    AuditSession.summary session !! "timestamp" =
      AuditSession.to_dict obj session !! "timestamp" /\
    AuditSession.summary session !! "hotel" =
      AuditSession.to_dict obj session !! "hotel_info" /\
    AuditSession.summary session !! "auditor" =
      AuditSession.to_dict obj session !! "auditor_name".
Proof.
  destruct (generate_excel_data_ok obj session) as (data & Hdf & Hall).
  exists ((fun x => VDict (AuditResponse.to_dict (obj x))) <$> AuditSession.responses session),
         (pd.DataFrame_of data).
  unfold AuditSession.summary, AuditSession.to_dict.
  match goal with
  | |- context [dict_literal [("session_id", ?a); ("hotel_info", ?b);
         ("auditor_name", ?c); ("timestamp", ?d); ("responses", ?e)]] =>
      destruct (session_dict_entries a b c d e) as (-> & -> & -> & -> & ->)
  end.
  rewrite length_fmap.
  split; [done |]. split; [done |].
  split; [apply summary_entries |].
  split; [simpl; rewrite length_fmap; symmetry; by eapply Forall2_length |].
  split.
  - simpl. rewrite length_app. simpl.
    replace (Z.of_nat (length (AuditSession.responses session) + 1))
      with (Z.of_nat (length (AuditSession.responses session)) + 1)%Z by lia.
    apply summary_entries.
  - repeat split; apply summary_entries.
Qed.

End AfterAdd.

Lemma grouping_follows_add_witness :
  AuditSession.get_responses_by_section Sample.store
    (AuditSession.add_response (Sample.session [0; 2]%nat) 1%nat) =
    Ok [("Main Lobby", [0; 1]%nat); ("Spa & Wellness", [2%nat])] /\
  AuditSession.get_responses_by_section Sample.store
    (AuditSession.add_response (Sample.session [0; 2]%nat) 3%nat) =
    Ok [("Main Lobby", [0%nat]); ("Spa & Wellness", [2%nat]); ("F&B Outlets", [3%nat])].
Proof.
  split.
  - destruct (grouping_follows_add Sample.store (Sample.session [0; 2]%nat) 1%nat)
      as (sections & sections' & Hget & -> & [[_ ->]|[Hno _]]).
    + vm_compute in Hget. injection Hget as <-. reflexivity.
    + exfalso. apply (Hno 0%nat); [by left | reflexivity].
  - destruct (grouping_follows_add Sample.store (Sample.session [0; 2]%nat) 3%nat)
      as (sections & sections' & Hget & -> & [[(x & Hx & Hsec) _]|[_ ->]]).
    + exfalso. simpl in Hx. rewrite !elem_of_cons, elem_of_nil in Hx.
      destruct Hx as [->|[->|[]]]; vm_compute in Hsec; discriminate.
    + vm_compute in Hget. injection Hget as <-. reflexivity.
Defined.

(** * The cards of the form *)

Section CardFacts.

(** X7. The select box of a card never fails to get its index: it starts at
    the rating of the response the card shows when that rating is one of the
    options, and at the first option when it is not or when the card shows no
    response. *)
Theorem card_preselects_rating (existing_response : option AuditResponse.t) :
  exists i, default_index existing_response = Ok i /\
    (i < length RATING_OPTIONS)%nat /\
    (forall r, existing_response = Some r ->
       AuditResponse.rating r ∈ RATING_OPTIONS ->
       RATING_OPTIONS !! i = Some (AuditResponse.rating r)) /\
    (forall r, existing_response = Some r ->
       AuditResponse.rating r ∉ RATING_OPTIONS -> i = 0%nat) /\
    (existing_response = None -> i = 0%nat).
Proof.
  destruct existing_response as [r|].
  - unfold default_index. simpl.
    destruct (decide (AuditResponse.rating r ∈ RATING_OPTIONS)) as [Hin|Hout].
    + rewrite bool_decide_eq_true_2 by done.
      assert (Hidx : exists i, list_index (AuditResponse.rating r) RATING_OPTIONS = Ok i /\
                (i < length RATING_OPTIONS)%nat /\
                RATING_OPTIONS !! i = Some (AuditResponse.rating r)).
      { revert Hin. generalize (AuditResponse.rating r). intros rating.
        unfold RATING_OPTIONS. rewrite !elem_of_cons, elem_of_nil.
        intros [->|[->|[->|[->|[]]]]]; eexists; (split; [reflexivity |]);
          split; simpl; (lia || reflexivity). }
      destruct Hidx as (i & Hi & Hlt & Hopt). exists i.
      split; [done |]. split; [done |]. split; [| split]; try done.
      * by intros r' [= <-] _.
      * by intros r' [= <-] Hno.
    + rewrite bool_decide_eq_false_2 by done. exists 0%nat.
      split; [done |]. split; [simpl; lia |]. split; [| split]; try done.
      by intros r' [= <-] Hin.
  - exists 0%nat. split; [reflexivity |]. split; [simpl; lia |].
    split; [| split]; done.
Qed.

Lemma cut_at_underscore (a a' b b' : string) :
  PyStr.has_char "_" a = false -> PyStr.has_char "_" a' = false ->
  a +:+ "_" +:+ b = a' +:+ "_" +:+ b' -> a = a' /\ b = b'.
Proof.
  revert a'. induction a as [|c a IH]; intros [|c' a'] Ha Ha' Heq; simpl in *.
  - by injection Heq as ->.
  - injection Heq as <- _. apply orb_false_iff in Ha' as [Hc _].
    by apply bool_decide_eq_false in Hc.
  - injection Heq as -> _. apply orb_false_iff in Ha as [Hc _].
    by apply bool_decide_eq_false in Hc.
  - injection Heq as -> Heq.
    apply orb_false_iff in Ha as [_ Ha]. apply orb_false_iff in Ha' as [_ Ha'].
    destruct (IH a' Ha Ha' Heq) as [-> ->]. done.
Qed.

(** X8. The widget keys of two cards are the same only for the same section,
    the same item and the same context, as long as no section and no item
    contains an underscore; an absent context, an empty one and the context
    "general" share their key. With underscores two cards can collide. *)
Theorem unique_key_distinguishes (section item section' item' : string)
    (context context' : option string) :
  (PyStr.has_char "_" section = false -> PyStr.has_char "_" item = false ->
   PyStr.has_char "_" section' = false -> PyStr.has_char "_" item' = false ->
   unique_key section item context = unique_key section' item' context' ->
   section = section' /\ item = item' /\
   py_or context "general" = py_or context' "general") /\
  unique_key section item None = unique_key section item (Some "") /\
  unique_key section item None = unique_key section item (Some "general") /\
  unique_key "A_B" "C" context = unique_key "A" "B_C" context.
Proof.
  split; [| by repeat split].
  intros Hs Hi Hs' Hi' Heq. unfold unique_key in Heq.
  destruct (cut_at_underscore _ _ _ _ Hs Hs' Heq) as [-> Heq'].
  destruct (cut_at_underscore _ _ _ _ Hi Hi' Heq') as [-> Hc]. done.
Qed.

Lemma startswith_slash_app (a b : string) :
  PyStr.startswith a "/" = false ->
  PyStr.startswith (a +:+ "_" +:+ b) "/" = false.
Proof. by destruct a. Qed.

(** X9. [save_uploaded_photo] never raises. Without an upload it returns
    nothing and leaves no trace; when the write fails it returns nothing, logs
    the error and tells the user; when the write succeeds it returns a path
    that is not empty, "photos/{id}_{name}" for an identifier that does not
    begin with a slash. *)
Theorem uploaded_photo_path (uploaded_file : option string) (photo_id : string)
    (write : option exception) :
  (uploaded_file = None ->
     save_uploaded_photo uploaded_file photo_id write = (None, [])) /\
  (forall name e, uploaded_file = Some name -> write = Some e ->
     save_uploaded_photo uploaded_file photo_id write =
       (None, [logging_error "Error saving uploaded photo: %s" e;
               st_error "Error saving the uploaded photo."])) /\
  (forall name, uploaded_file = Some name -> write = None ->
     exists path,
       save_uploaded_photo uploaded_file photo_id write =
         (Some path, [logging_info "Saved photo to %s" path]) /\
       path <> "" /\
       (PyStr.startswith photo_id "/" = false ->
        path = "photos/" +:+ photo_id +:+ "_" +:+ name)).
Proof.
  split; [by intros -> |]. split; [by intros name e -> -> |].
  intros name -> ->. unfold save_uploaded_photo. eexists. split; [reflexivity |]. split.
  - unfold path_join.
    destruct (PyStr.startswith (photo_id +:+ "_" +:+ name) "/").
    + destruct photo_id; simpl; discriminate.
    + simpl. discriminate.
  - intros Hid. unfold path_join. by rewrite startswith_slash_app.
Qed.

(** X10. The entry of the sidebar made for an outlet, a meeting room or a
    room type leads back to the kind of section and to the name, whatever the
    name contains; "General Sections" leads to the general sections. An entry
    that begins like one for an outlet and lacks the ": " raises
    [IndexError]. *)
Theorem route_recovers_entry (x : string) :
  App.route (App.fnb_entry x) = Ok (App.to_specific "F&B" x) /\
  App.route (App.meeting_entry x) = Ok (App.to_specific "Meeting Room" x) /\
  App.route (App.guestroom_entry x) = Ok (App.to_specific "Guestroom" x) /\
  App.route "General Sections" = Ok App.to_general /\
  (PyStr.startswith x "F&B" = true -> PyStr.contains ": " x = false ->
   App.route x = Raise IndexError).
Proof.
  assert (Hsep : ": " <> "") by discriminate.
  split; [| split; [| split; [| split]]].
  - unfold App.route, App.fnb_entry.
    rewrite decide_False by discriminate.
    rewrite (split_max_1 ": " _ Hsep) by reflexivity. reflexivity.
  - unfold App.route, App.meeting_entry.
    rewrite decide_False by discriminate.
    rewrite (split_max_1 ": " _ Hsep) by reflexivity. reflexivity.
  - unfold App.route, App.guestroom_entry.
    rewrite decide_False by discriminate.
    rewrite (split_max_1 ": " _ Hsep) by reflexivity. reflexivity.
  - reflexivity.
  - intros Hx Hno. unfold App.route.
    rewrite decide_False by (intros ->; discriminate). rewrite Hx.
    unfold PyStr.split_max. rewrite split_scan_first, Hno by done. reflexivity.
Qed.

End CardFacts.

Lemma card_preselects_rating_witness :
  default_index (Some Sample.bar_carpet) = Ok 3%nat /\
  default_index (Some Sample.custom) = Ok 0%nat.
Proof.
  destruct (card_preselects_rating (Some Sample.bar_carpet)) as (i & Hi & _ & Hin & _).
  destruct (card_preselects_rating (Some Sample.custom)) as (j & Hj & _ & _ & Hout & _).
  split.
  - assert (Hopt : RATING_OPTIONS !! i = Some "4 - No action required").
    { apply (Hin Sample.bar_carpet eq_refl). apply (bool_decide_unpack _). vm_compute. exact I. }
    rewrite Hi. vm_compute in Hi. congruence.
  - rewrite Hj. f_equal. apply (Hout Sample.custom eq_refl).
    apply (bool_decide_unpack _). vm_compute. exact I.
Defined.

Lemma unique_key_distinguishes_witness :
  unique_key "Main Lobby" "Flooring condition" None =
    unique_key "Main Lobby" "Flooring condition" (Some "general") /\
  ("Main Lobby" = "Main Lobby" /\ "Flooring condition" = "Flooring condition" /\
   py_or None "general" = py_or (Some "general") "general").
Proof.
  destruct (unique_key_distinguishes "Main Lobby" "Flooring condition"
              "Main Lobby" "Flooring condition" None (Some "general"))
    as (Hinj & _ & Hsame & _).
  split; [exact Hsame |].
  apply Hinj; reflexivity || exact Hsame.
Defined.

Lemma uploaded_photo_path_witness :
  save_uploaded_photo (Some "lobby.png") "1b4e28ba" None =
    (Some "photos/1b4e28ba_lobby.png",
     [logging_info "Saved photo to %s" "photos/1b4e28ba_lobby.png"]).
Proof.
  destruct (uploaded_photo_path (Some "lobby.png") "1b4e28ba" None) as (_ & _ & Hok).
  destruct (Hok "lobby.png" eq_refl eq_refl) as (path & Hsave & _ & Hpath).
  rewrite Hsave, (Hpath eq_refl). reflexivity.
Defined.

Lemma route_recovers_entry_witness :
  App.route "F&B" = Raise IndexError /\
  App.route (App.fnb_entry "Bar: Pool") = Ok (App.to_specific "F&B" "Bar: Pool").
Proof.
  destruct (route_recovers_entry "F&B") as (_ & _ & _ & _ & Hraise).
  destruct (route_recovers_entry "Bar: Pool") as (Hfnb & _).
  split; [apply Hraise; reflexivity | exact Hfnb].
Defined.

(** * Starting an audit *)

Section StartFacts.

Lemma hotel_info_entries (name city country year_opened floors total_rooms
    fnb_outlets meeting_rooms guestroom_types : pyval) :
  let d := dict_literal
             [ ("name", name); ("city", city); ("country", country);
               ("year_opened", year_opened); ("floors", floors);
               ("total_rooms", total_rooms); ("fnb_outlets", fnb_outlets);
               ("meeting_rooms", meeting_rooms);
               ("guestroom_types", guestroom_types) ] in
  d !! "name" = Some name /\ d !! "city" = Some city /\
  d !! "country" = Some country /\ d !! "year_opened" = Some year_opened /\
  d !! "floors" = Some floors /\ d !! "total_rooms" = Some total_rooms /\
  d !! "fnb_outlets" = Some fnb_outlets /\ d !! "meeting_rooms" = Some meeting_rooms /\
  d !! "guestroom_types" = Some guestroom_types.
Proof. by vm_compute. Qed.

Lemma truthy_nonempty (s : string) : PyStr.truthy s = true <-> s <> "".
Proof. by destruct s. Qed.

(** What Start Audit gives when both names are filled in. *)
Lemma start_audit_started (hotel_name city country : string)
    (year_opened num_floors total_rooms : Z) (fnb_outlets meeting_rooms : list string)
    (guestroom_types : list (string * string * string)) (auditor_name : string)
    (now_id now_ts : datetime) :
  hotel_name <> "" -> auditor_name <> "" ->
  exists hotel_info,
    App.start_audit hotel_name city country year_opened num_floors total_rooms
      fnb_outlets meeting_rooms guestroom_types auditor_name now_id now_ts =
    Ok (App.started
          (AuditSession.mk
             (PyStr.replace_char " " "_" hotel_name +:+ "_" +:+
              Datetime.strftime "%Y%m%d_%H%M%S" now_id)
             hotel_info auditor_name now_ts [])) /\
    hotel_info !! "name" = Some (VStr hotel_name) /\
    hotel_info !! "fnb_outlets" = Some (VList (VStr <$> fnb_outlets)) /\
    hotel_info !! "meeting_rooms" = Some (VList (VStr <$> meeting_rooms)).
Proof.
  intros Hh%truthy_nonempty Ha%truthy_nonempty.
  unfold App.start_audit. rewrite Hh, Ha. cbn [negb orb].
  match goal with
  | |- context [dict_literal [("name", ?a); ("city", ?b); ("country", ?c);
         ("year_opened", ?d); ("floors", ?e); ("total_rooms", ?f);
         ("fnb_outlets", ?g); ("meeting_rooms", ?h); ("guestroom_types", ?i)]] =>
      destruct (hotel_info_entries a b c d e f g h i)
        as (Hname & _ & _ & _ & _ & _ & Hfnb & Hmeet & _);
      exists (dict_literal [("name", a); ("city", b); ("country", c);
         ("year_opened", d); ("floors", e); ("total_rooms", f);
         ("fnb_outlets", g); ("meeting_rooms", h); ("guestroom_types", i)])
  end.
  split; [| done].
  unfold AuditSession.new. rewrite Hname. reflexivity.
Qed.

(** X11. Start Audit never raises. It refuses, with a message, exactly when
    the hotel name or the auditor name is empty. Otherwise it starts a session
    without responses, for that auditor, whose identifier is the hotel name
    with underscores for spaces, an underscore and the instant, and contains
    no space; the hotel information holds the name, the outlets and the
    meeting rooms as they were entered. *)
Theorem start_audit_validation (hotel_name city country : string)
    (year_opened num_floors total_rooms : Z) (fnb_outlets meeting_rooms : list string)
    (guestroom_types : list (string * string * string)) (auditor_name : string)
    (now_id now_ts : datetime) :
  (hotel_name = "" \/ auditor_name = "" ->
   App.start_audit hotel_name city country year_opened num_floors total_rooms
     fnb_outlets meeting_rooms guestroom_types auditor_name now_id now_ts =
   Ok (App.refused "Hotel Name and Auditor Name are required fields")) /\
  (hotel_name <> "" -> auditor_name <> "" ->
   exists session,
     App.start_audit hotel_name city country year_opened num_floors total_rooms
       fnb_outlets meeting_rooms guestroom_types auditor_name now_id now_ts =
     Ok (App.started session) /\
     AuditSession.responses session = [] /\
     AuditSession.auditor_name session = auditor_name /\
     AuditSession.timestamp session = now_ts /\
     AuditSession.session_id session =
       PyStr.replace_char " " "_" hotel_name +:+ "_" +:+
       Datetime.strftime "%Y%m%d_%H%M%S" now_id /\
     PyStr.has_char " " (AuditSession.session_id session) = false /\
     AuditSession.hotel_info session !! "name" = Some (VStr hotel_name) /\
     AuditSession.hotel_info session !! "fnb_outlets" =
       Some (VList (VStr <$> fnb_outlets)) /\
     AuditSession.hotel_info session !! "meeting_rooms" =
       Some (VList (VStr <$> meeting_rooms))).
Proof.
  split.
  - unfold App.start_audit. intros [-> | ->]; [done |].
    by rewrite orb_true_r.
  - intros Hh Ha.
    destruct (start_audit_started hotel_name city country year_opened num_floors
                total_rooms fnb_outlets meeting_rooms guestroom_types auditor_name
                now_id now_ts Hh Ha) as (hotel_info & Hstart & Hname & Hfnb & Hmeet).
    eexists. split; [exact Hstart |].
    cbn [AuditSession.responses AuditSession.auditor_name AuditSession.timestamp
         AuditSession.session_id AuditSession.hotel_info].
    repeat split; try done.
    rewrite !has_char_app, has_char_replace by done. by rewrite stamp_no_space.
Qed.

End StartFacts.

Lemma start_audit_validation_witness :
  App.start_audit "" "Porto" "Portugal" 1998 7 120 [] [] [] "Ann"
    Sample.instant Sample.instant =
    Ok (App.refused "Hotel Name and Auditor Name are required fields") /\
  exists session,
    SampleRun.outcome = Ok (App.started session) /\
    AuditSession.session_id session = "Grand_Hotel_20250307_090500".
Proof.
  split.
  - apply (start_audit_validation "" "Porto" "Portugal" 1998 7 120 [] [] [] "Ann").
    by left.
  - destruct (start_audit_validation "Grand Hotel" "Porto" "Portugal" 1998 7 120
                ["Pool Bar"] ["Atlantic"] [("Suite", "45", "12")] "Ann"
                Sample.instant Sample.instant) as [_ Hstart].
    destruct Hstart as (session & Hs & _ & _ & _ & Hid & _); [discriminate.. |].
    exists session. split; [exact Hs |]. rewrite Hid. reflexivity.
Defined.

(** * The states the form leads to *)

Section AppFacts.

Lemma path_join_nonempty (photo_id name : string) :
  path_join "photos" (photo_id +:+ "_" +:+ name) <> "".
Proof.
  unfold path_join.
  destruct (PyStr.startswith (photo_id +:+ "_" +:+ name) "/").
  - destruct photo_id; simpl; discriminate.
  - simpl. discriminate.
Qed.

Lemma saved_photo_nonempty (st : App.state) (latest : option ref)
    (photo : option string) (photo_id : string) (write : option exception) (p : string) :
  (forall l q, latest = Some l ->
     AuditResponse.photo_file (App.obj st l) = Some q -> q <> "") ->
  (App.saved_photo st latest photo photo_id write).1 = Some p -> p <> "".
Proof.
  intros Hlatest. unfold App.saved_photo, save_uploaded_photo.
  destruct photo as [name|].
  - destruct write as [e|]; simpl; [discriminate |].
    intros [= <-]. apply path_join_nonempty.
  - simpl. destruct latest as [l|]; [| discriminate].
    intros Hp. by apply (Hlatest l p).
Qed.

Lemma latest_elem_of (existing_responses : list ref) (l : ref) :
  latest_response existing_responses = Some l -> l ∈ existing_responses.
Proof. apply last_Some_elem_of. Qed.

Lemma general_save_state (st : App.state) (selected_section item rating comment : string)
    (photo : option string) (photo_id : string) (write : option exception)
    (now : datetime) :
  (App.general_save st selected_section item rating comment photo photo_id write now).1 =
  App.with_session
    (App.alloc st
       (AuditResponse.new (ChecklistItem.new selected_section item) rating comment
          (App.saved_photo st
             (latest_response
                (general_existing_responses (App.obj st) (App.session st)
                   selected_section item))
             photo photo_id write).1
          None now)).1
    (AuditSession.add_response (App.session st) (App.next st)).
Proof. unfold App.general_save. by destruct (App.saved_photo _ _ _ _ _). Qed.

Lemma specific_save_state (st : App.state) (section_type section_name item
    rating comment : string) (photo : option string) (photo_id : string)
    (write : option exception) (now : datetime) :
  (App.specific_save st section_type section_name item rating comment
     photo photo_id write now).1 =
  App.with_session
    (App.alloc st
       (AuditResponse.new (ChecklistItem.new (checklist_key section_type) item)
          rating comment
          (App.saved_photo st
             (latest_response
                (specific_existing_responses (App.obj st) (App.session st)
                   section_type section_name item))
             photo photo_id write).1
          (Some section_name) now)).1
    (AuditSession.add_response (App.session st) (App.next st)).
Proof. unfold App.specific_save. by destruct (App.saved_photo _ _ _ _ _). Qed.

(** A new object takes no reference in use, so the responses of the session
    keep what they are, and the new response joins them. *)
Lemma alloc_invariant (st : App.state) (x : AuditResponse.t) :
  App.invariant st -> App.well_formed x ->
  App.invariant
    (App.with_session (App.alloc st x).1
       (AuditSession.add_response (App.session st) (App.next st))).
Proof.
  intros Hinv Hx r. simpl. rewrite elem_of_app, list_elem_of_singleton.
  intros [Hr| ->].
  - destruct (Hinv r Hr) as [Hlt Hwf]. split; [lia |].
    rewrite decide_False by lia. done.
  - split; [lia |]. by rewrite decide_True.
Qed.

Lemma filter_invariant (st : App.state) (P : ref -> Prop) `{forall r, Decision (P r)} :
  App.invariant st ->
  App.invariant
    (App.with_session st
       (AuditSession.with_responses (App.session st)
          (filter P (AuditSession.responses (App.session st))))).
Proof.
  intros Hinv r. simpl. intros [_ Hr]%list_elem_of_filter. by apply Hinv.
Qed.

Lemma checklist_key_specialized (section_type : string) :
  section_type ∈ App.SECTION_TYPES ->
  checklist_key section_type ∈ ["F&B Outlets"; "Ballrooms & Meeting Rooms"; "Guestroom"].
Proof.
  unfold App.SECTION_TYPES. rewrite !elem_of_cons, elem_of_nil.
  intros [->|[->|[->|[]]]]; vm_compute; set_solver.
Qed.

(** Every state the form leads to keeps its responses well formed. *)
Lemma reachable_invariant (st : App.state) : App.reachable st -> App.invariant st.
Proof.
  induction 1 as [obj next session hn ci co yo nf tr fo mr gt an ni nt Hstart
                 | st sel item rating comment photo pid write now Hreach IH Hsel Hrating
                 | st ty name item rating comment photo pid write now Hreach IH Hty Hname Hrating
                 | st sel item session' Hreach IH Hclear
                 | st ty name item session' Hreach IH Hclear].
  - intros r Hr. exfalso. simpl in Hr.
    unfold App.start_audit in Hstart.
    destruct (negb (PyStr.truthy hn) || negb (PyStr.truthy an)); [discriminate |].
    unfold AuditSession.new in Hstart.
    destruct (default _ _); simpl in Hstart; try discriminate.
    injection Hstart as <-. simpl in Hr. by apply elem_of_nil in Hr.
  - rewrite general_save_state. apply alloc_invariant; [done |].
    split; [done |]. split; [| by left].
    intros p Hp. simpl in Hp. revert Hp. apply saved_photo_nonempty.
    intros l q Hl Hq. apply latest_elem_of in Hl.
    unfold general_existing_responses in Hl.
    apply list_elem_of_filter in Hl as [_ Hl]. apply list_elem_of_filter in Hl as [_ Hl].
    destruct (IH l Hl) as (_ & _ & Hphoto & _). by apply Hphoto.
  - rewrite specific_save_state. apply alloc_invariant; [done |].
    split; [done |]. split.
    + intros p Hp. simpl in Hp. revert Hp. apply saved_photo_nonempty.
      intros l q Hl Hq. apply latest_elem_of in Hl.
      unfold specific_existing_responses in Hl.
      apply list_elem_of_filter in Hl as [_ Hl]. apply list_elem_of_filter in Hl as [_ Hl].
      destruct (IH l Hl) as (_ & _ & Hphoto & _). by apply Hphoto.
    + right. split; [by apply checklist_key_specialized |]. by exists name.
  - rewrite general_clear_spec in Hclear. injection Hclear as <-.
    by apply filter_invariant.
  - rewrite specific_clear_spec in Hclear. injection Hclear as <-.
    by apply filter_invariant.
Qed.

Lemma sample_run_reachable : App.reachable SampleRun.bar_saved.
Proof.
  unfold SampleRun.bar_saved, SampleRun.lobby_saved.
  apply App.reach_specific_save;
    [| apply (bool_decide_unpack _); vm_compute; exact I
     | discriminate
     | apply (bool_decide_unpack _); vm_compute; exact I].
  apply App.reach_general_save;
    [| apply (bool_decide_unpack _); vm_compute; exact I
     | apply (bool_decide_unpack _); vm_compute; exact I].
  eapply (App.reach_start Sample.store 5%nat SampleRun.new_session
            "Grand Hotel" "Porto" "Portugal" 1998 7 120
            ["Pool Bar"] ["Atlantic"] [("Suite", "45", "12")] "Ann"
            Sample.instant Sample.instant).
  vm_compute. reflexivity.
Qed.

End AppFacts.

Section ReachableFacts.

Lemma general_not_specialized (k : string) :
  k ∈ GENERAL_CATEGORIES ->
  k ∉ ["F&B Outlets"; "Ballrooms & Meeting Rooms"; "Guestroom"].
Proof.
  revert k. apply Forall_forall. apply (bool_decide_unpack _). vm_compute. exact I.
Qed.

Lemma filter_iff_elem_of {A} (P Q : A -> Prop)
    `{forall x, Decision (P x)} `{forall x, Decision (Q x)} (l : list A) :
  (forall x, x ∈ l -> (P x <-> Q x)) -> filter P l = filter Q l.
Proof.
  induction l as [|x l IH]; intros Hiff; [done |].
  rewrite !filter_cons, IH by (intros; apply Hiff; by right).
  apply decide_ext, Hiff. by left.
Qed.

(** X12. In every state the form leads to, each response of the session has
    one of the four rating options, a photo reference that is absent or not
    empty, and a context that is absent or not empty; it has no context
    exactly when its section is a general category, and its section is a
    general category or one of the three specialized sections. *)
Theorem reachable_well_formed (st : App.state) :
  App.reachable st ->
  forall r, r ∈ AuditSession.responses (App.session st) ->
    AuditResponse.rating (App.obj st r) ∈ RATING_OPTIONS /\
    AuditResponse.photo_file (App.obj st r) <> Some "" /\
    AuditResponse.context (App.obj st r) <> Some "" /\
    (AuditResponse.context (App.obj st r) = None <->
     AuditSession.section_of (App.obj st) r ∈ GENERAL_CATEGORIES) /\
    AuditSession.section_of (App.obj st) r ∈
      GENERAL_CATEGORIES ++ ["F&B Outlets"; "Ballrooms & Meeting Rooms"; "Guestroom"].
Proof.
  intros Hreach r Hr.
  destruct (reachable_invariant st Hreach r Hr) as (_ & Hrating & Hphoto & Hsection).
  split; [done |]. split; [intros Hp; by apply (Hphoto "") |].
  unfold AuditSession.section_of.
  destruct Hsection as [[Hgen Hctx]|(Hspec & c & Hctx & Hc)].
  - rewrite Hctx. split; [done |]. split; [done |]. apply elem_of_app. by left.
  - rewrite Hctx. split; [congruence |]. split; [| apply elem_of_app; by right].
    split; [done |]. intros Hgen. by apply general_not_specialized in Hgen.
Qed.

(** X13. In every state the form leads to, the Clear of a card of a general
    category removes the responses whose (section, item, context) is
    (section, item, None) and no other: the responses the loop selects by
    section and item are those of that key. *)
Theorem reachable_clear_by_key (st : App.state) (selected_section item : string) :
  App.reachable st -> selected_section ∈ GENERAL_CATEGORIES ->
  clear_by_key_stated (App.obj st) (App.session st) selected_section item.
Proof.
  intros Hreach Hsel. unfold clear_by_key_stated.
  rewrite general_clear_spec. do 2 f_equal.
  apply filter_iff_elem_of. intros r Hr.
  destruct (reachable_invariant st Hreach r Hr) as (_ & _ & _ & Hsection).
  unfold AuditResponse.key, AuditSession.section_of, AuditSession.item_of in *.
  split.
  - intros Hn [= Hs Hi Hc]. by apply Hn.
  - intros Hn [Hs Hi]. apply Hn.
    destruct Hsection as [[_ ->]|[Hspec _]]; [by rewrite Hs, Hi |].
    rewrite Hs in Hspec. by apply general_not_specialized in Hsel.
Qed.

Lemma canonical_resolution (x : AuditResponse.t) :
  AuditResponse.rating x ∈ RATING_OPTIONS -> rating_resolution_stated x.
Proof.
  intros Hin. split.
  - intros opt Hopt Hsame. unfold same_prefix in Hsame.
    rewrite rating_description_ok.
    revert Hin Hopt Hsame. generalize (AuditResponse.rating x). intros rating Hin Hopt.
    unfold RATING_OPTIONS in Hin, Hopt.
    rewrite !elem_of_cons, elem_of_nil in Hin, Hopt.
    destruct Hin as [->|[->|[->|[->|[]]]]]; destruct Hopt as [->|[->|[->|[->|[]]]]];
      intros Hsame; vm_compute in Hsame; try discriminate; split; reflexivity.
  - intros Hno. exfalso. by apply (Hno _ Hin).
Qed.

(** What the document shows for each rating option: the text after its
    numeric prefix and the separator. *)
Lemma canonical_description (x : AuditResponse.t) :
  AuditResponse.rating x ∈ RATING_OPTIONS ->
  exists suffix,
    AuditResponse.rating_description x = Ok suffix /\
    suffix = PyStr.after " - " (AuditResponse.rating x) /\
    AuditResponse.rating x =
      PyStr.before " - " (AuditResponse.rating x) +:+ " - " +:+ suffix /\
    (AuditResponse.rating x, suffix) ∈
      [ ("1 - Needs to be changed due to age-related factors",
         "Needs to be changed due to age-related factors");
        ("2 - Needs to be changed to match competing hotels",
         "Needs to be changed to match competing hotels");
        ("3 - Not applicable", "Not applicable");
        ("4 - No action required", "No action required") ].
Proof.
  rewrite rating_description_ok.
  generalize (AuditResponse.rating x). intros rating.
  unfold RATING_OPTIONS. rewrite !elem_of_cons, elem_of_nil.
  intros [->|[->|[->|[->|[]]]]]; eexists; (split; [reflexivity |]);
    (split; [reflexivity |]); (split; [reflexivity |]).
  - apply list_elem_of_here.
  - apply list_elem_of_further, list_elem_of_here.
  - do 2 apply list_elem_of_further. apply list_elem_of_here.
  - do 3 apply list_elem_of_further. apply list_elem_of_here.
Qed.

(** X14. In every state the form leads to, the rating of each response is
    one of the four canonical options; the table shows that option, which is
    the stored rating; the document shows the descriptive suffix of that
    option, the text after its numeric prefix and the separator, as listed
    for the four options; and the rating resolves as the specification
    says. *)
Theorem reachable_rating_resolution (st : App.state) :
  App.reachable st ->
  forall r, r ∈ AuditSession.responses (App.session st) ->
    AuditResponse.rating (App.obj st r) ∈ RATING_OPTIONS /\
    rating_desc (AuditResponse.rating (App.obj st r)) =
      Ok (AuditResponse.rating (App.obj st r)) /\
    (exists suffix,
       AuditResponse.rating_description (App.obj st r) = Ok suffix /\
       suffix = PyStr.after " - " (AuditResponse.rating (App.obj st r)) /\
       AuditResponse.rating (App.obj st r) =
         PyStr.before " - " (AuditResponse.rating (App.obj st r)) +:+ " - " +:+ suffix /\
       (AuditResponse.rating (App.obj st r), suffix) ∈
         [ ("1 - Needs to be changed due to age-related factors",
            "Needs to be changed due to age-related factors");
           ("2 - Needs to be changed to match competing hotels",
            "Needs to be changed to match competing hotels");
           ("3 - Not applicable", "Not applicable");
           ("4 - No action required", "No action required") ]) /\
    rating_resolution_stated (App.obj st r).
Proof.
  intros Hreach r Hr.
  destruct (reachable_invariant st Hreach r Hr) as (_ & Hrating & _).
  split; [done |]. split; [by apply rating_desc_canonical |].
  split; [by apply canonical_description | by apply canonical_resolution].
Qed.

(** X15. In every state the form leads to, the table is as the specification
    says: one row per response in order, the context of the response or
    "General" when it has none, "Yes" exactly when it has a photo reference,
    and a canonical option as the rating. *)
Theorem reachable_row_contract (st : App.state) :
  App.reachable st -> row_contract_stated (App.obj st) (App.session st).
Proof.
  intros Hreach. unfold row_contract_stated.
  destruct (generate_excel_data_ok (App.obj st) (App.session st)) as (data & Hdf & Hall).
  exists (pd.DataFrame_of data). split; [done |]. split.
  { simpl. rewrite length_fmap. symmetry. by eapply Forall2_length. }
  intros i r Hi.
  assert (Hr : r ∈ AuditSession.responses (App.session st))
    by by eapply list_elem_of_lookup_2.
  destruct (reachable_invariant st Hreach r Hr) as (_ & Hrating & Hphoto & Hsection).
  destruct (excel_cells (App.obj st) (App.session st) i r Hi)
    as (df & row & Hdf' & Hrow & _ & _ & Hcell).
  replace df with (pd.DataFrame_of data) in * by congruence.
  destruct (excel_row_entries _ _ Hrow) as (shown & Hshown & _ & _ & HR & _ & HX & HP & _).
  rewrite !Hcell by (apply HEADERS_elem; tauto). rewrite HX, HP, HR.
  split; [| split].
  - destruct Hsection as [[_ ->]|(_ & c & -> & Hc)]; [done |].
    simpl. by rewrite decide_False.
  - destruct (AuditResponse.photo_file (App.obj st r)) as [p|]; [| done].
    rewrite decide_False; [done | by apply Hphoto].
  - exists shown. split; [| done].
    rewrite (rating_desc_canonical _ Hrating) in Hshown. congruence.
Qed.

End ReachableFacts.

(** * Multiplicity of responses *)

Section MultiplicityFacts.

(** A save makes a new object and appends its reference: the responses of
    the session stay, object by object, where they are. *)
Lemma save_appends (st : App.state) (x : AuditResponse.t) (st' : App.state) :
  App.invariant st ->
  st' = App.with_session (App.alloc st x).1
          (AuditSession.add_response (App.session st) (App.next st)) ->
  AuditSession.responses (App.session st') =
    AuditSession.responses (App.session st) ++ [App.next st] /\
  length (AuditSession.responses (App.session st')) =
    S (length (AuditSession.responses (App.session st))) /\
  App.obj st' (App.next st) = x /\
  (forall r, r ∈ AuditSession.responses (App.session st) ->
     App.obj st' r = App.obj st r) /\
  (forall k,
     filter (fun r => AuditResponse.key (App.obj st' r) = k)
            (AuditSession.responses (App.session st')) =
     filter (fun r => AuditResponse.key (App.obj st r) = k)
            (AuditSession.responses (App.session st)) ++
     (if decide (AuditResponse.key x = k) then [App.next st] else [])).
Proof.
  intros Hinv ->. simpl.
  assert (Hold : forall r, r ∈ AuditSession.responses (App.session st) ->
            (if decide (r = App.next st) then x else App.obj st r) = App.obj st r).
  { intros r Hr. destruct (Hinv r Hr) as [Hlt _]. rewrite decide_False; [done | lia]. }
  split; [done |]. split; [rewrite length_app; simpl; lia |].
  split; [by rewrite decide_True |]. split; [done |].
  intros k. rewrite filter_app. f_equal.
  - apply filter_iff_elem_of. intros r Hr. by rewrite (Hold r Hr).
  - rewrite filter_cons, filter_nil. cbv beta.
    destruct (decide (App.next st = App.next st)) as [_|]; [| done].
    by destruct (decide (AuditResponse.key x = k)).
Qed.

(** C1. Multiplicity of responses. [add_response] always appends: the
    responses are the earlier ones followed by the new one, one more than
    before, and the rest of the session is as it was. In every state the form
    leads to, a Save of a card, of a general or of a specialized section,
    whether or not the key already has responses, appends one new response
    of the key of the card, makes the list longer by exactly one and leaves
    every prior response in place, so that the responses of the key are those
    it had followed by the new one; and a Clear of a card, of a general
    category or of a specialized section, does not raise and leaves exactly
    the responses whose (section, item, context) is not the key of the card,
    in their relative order. *)
Theorem response_multiplicity :
  (forall (obj : ref -> AuditResponse.t) session r,
     AuditSession.add_response session r =
       AuditSession.with_responses session (AuditSession.responses session ++ [r]) /\
     length (AuditSession.responses (AuditSession.add_response session r)) =
       S (length (AuditSession.responses session)) /\
     forall k,
       filter (fun x => AuditResponse.key (obj x) = k)
              (AuditSession.responses (AuditSession.add_response session r)) =
       filter (fun x => AuditResponse.key (obj x) = k)
              (AuditSession.responses session) ++
       (if decide (AuditResponse.key (obj r) = k) then [r] else [])) /\
  (forall st, App.reachable st ->
     (forall selected_section item rating comment photo photo_id write now st',
        st' = (App.general_save st selected_section item rating comment
                 photo photo_id write now).1 ->
        AuditSession.responses (App.session st') =
          AuditSession.responses (App.session st) ++ [App.next st] /\
        length (AuditSession.responses (App.session st')) =
          S (length (AuditSession.responses (App.session st))) /\
        AuditResponse.key (App.obj st' (App.next st)) = (selected_section, item, None) /\
        (forall r, r ∈ AuditSession.responses (App.session st) ->
           App.obj st' r = App.obj st r) /\
        filter (fun r => AuditResponse.key (App.obj st' r) = (selected_section, item, None))
               (AuditSession.responses (App.session st')) =
        filter (fun r => AuditResponse.key (App.obj st r) = (selected_section, item, None))
               (AuditSession.responses (App.session st)) ++ [App.next st]) /\
     (forall section_type section_name item rating comment photo photo_id write now st',
        st' = (App.specific_save st section_type section_name item rating comment
                 photo photo_id write now).1 ->
        AuditSession.responses (App.session st') =
          AuditSession.responses (App.session st) ++ [App.next st] /\
        length (AuditSession.responses (App.session st')) =
          S (length (AuditSession.responses (App.session st))) /\
        AuditResponse.key (App.obj st' (App.next st)) =
          (checklist_key section_type, item, Some section_name) /\
        (forall r, r ∈ AuditSession.responses (App.session st) ->
           App.obj st' r = App.obj st r) /\
        filter (fun r => AuditResponse.key (App.obj st' r) =
                         (checklist_key section_type, item, Some section_name))
               (AuditSession.responses (App.session st')) =
        filter (fun r => AuditResponse.key (App.obj st r) =
                         (checklist_key section_type, item, Some section_name))
               (AuditSession.responses (App.session st)) ++ [App.next st]) /\
     (forall selected_section item,
        selected_section ∈ GENERAL_CATEGORIES ->
        general_clear (App.obj st) (App.session st) selected_section item =
        Ok (AuditSession.with_responses (App.session st)
              (filter (fun r => AuditResponse.key (App.obj st r) <>
                                (selected_section, item, None))
                      (AuditSession.responses (App.session st))))) /\
     (forall section_type section_name item,
        specific_clear (App.obj st) (App.session st) section_type section_name item =
        Ok (AuditSession.with_responses (App.session st)
              (filter (fun r => AuditResponse.key (App.obj st r) <>
                                (checklist_key section_type, item, Some section_name))
                      (AuditSession.responses (App.session st)))))).
Proof.
  split.
  { intros obj session r. split; [done |]. split.
    - simpl. rewrite length_app. simpl. lia.
    - intros k. simpl. rewrite filter_app. f_equal. }
  intros st Hreach.
  pose proof (reachable_invariant st Hreach) as Hinv.
  split; [| split; [| split]].
  - intros sel item rating comment photo pid write now st' Hst'.
    rewrite general_save_state in Hst'.
    destruct (save_appends st _ st' Hinv Hst') as (Hrs & Hlen & Hnew & Hold & Hkey).
    split; [done |]. split; [done |]. split; [by rewrite Hnew |]. split; [done |].
    rewrite Hkey. by rewrite decide_True.
  - intros ty name item rating comment photo pid write now st' Hst'.
    rewrite specific_save_state in Hst'.
    destruct (save_appends st _ st' Hinv Hst') as (Hrs & Hlen & Hnew & Hold & Hkey).
    split; [done |]. split; [done |]. split; [by rewrite Hnew |]. split; [done |].
    rewrite Hkey. by rewrite decide_True.
  - intros sel item Hsel. rewrite general_clear_spec. do 2 f_equal.
    apply filter_iff_elem_of. intros r Hr.
    destruct (Hinv r Hr) as (_ & _ & _ & Hsection).
    unfold AuditResponse.key, AuditSession.section_of, AuditSession.item_of in *.
    split.
    + intros Hn [= Hs Hi Hc]. by apply Hn.
    + intros Hn [Hs Hi]. apply Hn.
      destruct Hsection as [[_ ->]|[Hspec _]]; [by rewrite Hs, Hi |].
      rewrite Hs in Hspec. by apply general_not_specialized in Hsel.
  - intros ty name item. apply specific_clear_spec.
Qed.

End MultiplicityFacts.

Lemma response_multiplicity_witness :
  App.reachable SampleRun.bar_saved /\
  "Main Lobby" ∈ GENERAL_CATEGORIES /\
  AuditSession.responses (App.session SampleRun.bar_saved) = [5; 6]%nat /\
  AuditSession.responses
    (App.session
       (App.general_save SampleRun.bar_saved "Main Lobby" "Flooring condition"
          "3 - Needs to be changed due to property positioning" "Second look"
          None "77aa01bc" None Sample.instant).1) = [5; 6; 7]%nat /\
  general_clear (App.obj SampleRun.bar_saved) (App.session SampleRun.bar_saved)
    "Main Lobby" "Flooring condition" =
  Ok (AuditSession.with_responses (App.session SampleRun.bar_saved) [6%nat]) /\
  specific_clear (App.obj SampleRun.bar_saved) (App.session SampleRun.bar_saved)
    "F&B" "Pool Bar" "Flooring condition" =
  Ok (AuditSession.with_responses (App.session SampleRun.bar_saved) [5%nat]).
Proof.
  assert (Hin : "Main Lobby" ∈ GENERAL_CATEGORIES).
  { apply (bool_decide_unpack _). vm_compute. exact I. }
  destruct response_multiplicity as [_ Happ].
  destruct (Happ SampleRun.bar_saved sample_run_reachable)
    as (Hsave & _ & Hgeneral & Hspecific).
  split; [exact sample_run_reachable |]. split; [exact Hin |].
  split; [vm_compute; reflexivity |]. split.
  - destruct (Hsave "Main Lobby" "Flooring condition"
                "3 - Needs to be changed due to property positioning" "Second look"
                None "77aa01bc" None Sample.instant _ eq_refl) as (-> & _).
    vm_compute. reflexivity.
  - split.
    + rewrite (Hgeneral "Main Lobby" "Flooring condition" Hin).
      vm_compute. reflexivity.
    + rewrite (Hspecific "F&B" "Pool Bar" "Flooring condition").
      vm_compute. reflexivity.
Defined.

Lemma reachable_well_formed_witness :
  App.reachable SampleRun.bar_saved /\
  AuditSession.responses (App.session SampleRun.bar_saved) = [5; 6]%nat /\
  AuditResponse.context (App.obj SampleRun.bar_saved 6%nat) = Some "Pool Bar" /\
  AuditResponse.photo_file (App.obj SampleRun.bar_saved 6%nat) <> Some "".
Proof.
  split; [exact sample_run_reachable |]. split; [reflexivity |]. split; [reflexivity |].
  destruct (reachable_well_formed SampleRun.bar_saved sample_run_reachable 6%nat)
    as (_ & Hphoto & _); [| exact Hphoto].
  apply (bool_decide_unpack _). vm_compute. exact I.
Defined.

Lemma reachable_clear_by_key_witness :
  App.reachable SampleRun.bar_saved /\
  "Main Lobby" ∈ GENERAL_CATEGORIES /\
  general_clear (App.obj SampleRun.bar_saved) (App.session SampleRun.bar_saved)
    "Main Lobby" "Flooring condition" =
  Ok (AuditSession.with_responses (App.session SampleRun.bar_saved) [6%nat]).
Proof.
  assert (Hin : "Main Lobby" ∈ GENERAL_CATEGORIES).
  { apply (bool_decide_unpack _). vm_compute. exact I. }
  split; [exact sample_run_reachable |]. split; [exact Hin |].
  rewrite (reachable_clear_by_key SampleRun.bar_saved "Main Lobby" "Flooring condition"
             sample_run_reachable Hin).
  reflexivity.
Defined.

Lemma reachable_rating_resolution_witness :
  App.reachable SampleRun.bar_saved /\
  5%nat ∈ AuditSession.responses (App.session SampleRun.bar_saved) /\
  AuditResponse.rating (App.obj SampleRun.bar_saved 5%nat) ∈ RATING_OPTIONS /\
  rating_desc (AuditResponse.rating (App.obj SampleRun.bar_saved 5%nat)) =
    Ok "2 - Needs to be changed to match competing hotels" /\
  AuditResponse.rating_description (App.obj SampleRun.bar_saved 5%nat) =
    Ok "Needs to be changed to match competing hotels".
Proof.
  assert (Hin : 5%nat ∈ AuditSession.responses (App.session SampleRun.bar_saved)).
  { apply (bool_decide_unpack _). vm_compute. exact I. }
  destruct (reachable_rating_resolution SampleRun.bar_saved sample_run_reachable
              5%nat Hin) as (Hrating & Hshown & _ & _).
  split; [exact sample_run_reachable |]. split; [exact Hin |].
  split; [exact Hrating |]. split; [exact Hshown | reflexivity].
Defined.

Lemma reachable_row_contract_witness :
  App.reachable SampleRun.bar_saved /\
  row_contract_stated (App.obj SampleRun.bar_saved) (App.session SampleRun.bar_saved).
Proof.
  split; [exact sample_run_reachable |].
  exact (reachable_row_contract SampleRun.bar_saved sample_run_reachable).
Defined.

(** * What the document holds *)

Section ReportFacts.
Variable obj : ref -> AuditResponse.t.
Variable py_str : pyval -> string.

(** The paragraphs of the findings of one section: four calls per response,
    numbered from [idx] on. *)
Lemma findings_loop_content (idx : nat) (responses : list ref) :
  exists ops, findings_loop obj idx responses = Ok ops /\
    length ops = (4 * length responses)%nat /\
    forall i r, responses !! i = Some r ->
      exists desc fops, AuditResponse.rating_description (obj r) = Ok desc /\
        finding (idx + i) (obj r) = Ok fops /\ fops ⊆ ops /\
        FPDF.multi_cell 0 6 ("Rating: " +:+ desc) ∈ ops /\
        FPDF.multi_cell 0 6 ("Comment: " +:+ AuditResponse.comment (obj r)) ∈ ops.
Proof.
  revert idx. induction responses as [|x rs IH]; intros idx.
  - exists []. split; [done |]. split; [done |]. intros i r Hi. by rewrite lookup_nil in Hi.
  - destruct (IH (S idx)) as (ops' & Hloop & Hlen & Hin).
    simpl. unfold finding at 1. rewrite rating_description_ok. simpl.
    rewrite Hloop. simpl. eexists. split; [reflexivity |].
    split; [simpl; rewrite Hlen; lia |].
    intros [|i] r Hi; simpl in Hi.
    + injection Hi as <-. eexists _, _. split; [apply rating_description_ok |].
      rewrite Nat.add_0_r. unfold finding. rewrite rating_description_ok. simpl.
      split; [reflexivity |]. split; [| split].
      * intros op Hop. rewrite !elem_of_cons in *. rewrite elem_of_nil in Hop. tauto.
      * apply list_elem_of_further, list_elem_of_here.
      * do 2 apply list_elem_of_further. apply list_elem_of_here.
    + destruct (Hin i r Hi) as (desc & fops & Hdesc & Hfind & Hsub & Hrating & Hcomment).
      exists desc, fops. split; [done |].
      replace (idx + S i)%nat with (S idx + i)%nat by lia.
      split; [done |]. split; [| split].
      * intros op Hop. do 4 right. by apply Hsub.
      * by do 4 right.
      * by do 4 right.
Qed.

Lemma sections_loop_content (sections : odict (list ref)) :
  exists ops, sections_loop obj sections = Ok ops /\
    length ops = (4 * length sections + 4 * length (mjoin (sections.*2)))%nat /\
    forall k l, (k, l) ∈ sections ->
      FPDF.cell 0 8 ("Section: " +:+ k) true "" ∈ ops /\
      forall i r, l !! i = Some r ->
        exists desc fops, AuditResponse.rating_description (obj r) = Ok desc /\
          finding (S i) (obj r) = Ok fops /\ fops ⊆ ops /\
          FPDF.multi_cell 0 6 ("Rating: " +:+ desc) ∈ ops /\
          FPDF.multi_cell 0 6 ("Comment: " +:+ AuditResponse.comment (obj r)) ∈ ops.
Proof.
  induction sections as [|[k0 l0] sections (ops' & Hloop & Hlen & Hin)].
  - exists []. split; [done |]. split; [done |]. intros k l Hkl. by apply elem_of_nil in Hkl.
  - destruct (findings_loop_content 1 l0) as (ops0 & Hloop0 & Hlen0 & Hin0).
    cbn [sections_loop]. rewrite Hloop0. cbn [result_bind]. rewrite Hloop.
    cbn [result_bind]. eexists. split; [reflexivity |].
    split.
    { assert (Hjoin : length (mjoin (((k0, l0) :: sections).*2)) =
                      (length l0 + length (mjoin (sections.*2)))%nat)
        by (rewrite fmap_cons; apply length_app).
      rewrite Hjoin. cbn [length]. rewrite !length_app, Hlen0, Hlen. simpl length. lia. }
    intros k l [[= -> ->]|Hkl]%elem_of_cons.
    + split; [do 2 apply list_elem_of_further; apply list_elem_of_here |]. intros i r Hi.
      destruct (Hin0 i r Hi) as (desc & fops & Hdesc & Hfind & Hsub & Hrating & Hcomment).
      exists desc, fops. split; [done |]. split; [done |]. split; [| split].
      * intros op Hop. do 4 right. apply elem_of_app. left. by apply Hsub.
      * do 4 right. apply elem_of_app. by left.
      * do 4 right. apply elem_of_app. by left.
    + destruct (Hin k l Hkl) as [Hhead Hrest].
      split; [do 4 right; apply elem_of_app; by right |]. intros i r Hi.
      destruct (Hrest i r Hi) as (desc & fops & Hdesc & Hfind & Hsub & Hrating & Hcomment).
      exists desc, fops. split; [done |]. split; [done |]. split; [| split].
      * intros op Hop. do 4 right. apply elem_of_app. right. by apply Hsub.
      * do 4 right. apply elem_of_app. by right.
      * do 4 right. apply elem_of_app. by right.
Qed.

(** The paragraphs of the findings of one section, one after the other. *)
Lemma findings_loop_exact (idx : nat) (responses : list ref) :
  exists fs, findings_loop obj idx responses = Ok (mjoin fs) /\
    length fs = length responses /\
    forall i r, responses !! i = Some r ->
      exists desc, AuditResponse.rating_description (obj r) = Ok desc /\
        fs !! i =
        Some [ FPDF.multi_cell 0 6
                 (str_of_nat (idx + i) +:+ ". Item: " +:+
                  ChecklistItem.item (AuditResponse.checklist_item (obj r)) +:+
                  match AuditResponse.context (obj r) with
                  | Some c => if PyStr.truthy c then " (" +:+ c +:+ ")" else ""
                  | None => ""
                  end);
               FPDF.multi_cell 0 6 ("Rating: " +:+ desc);
               FPDF.multi_cell 0 6 ("Comment: " +:+ AuditResponse.comment (obj r));
               FPDF.ln 2 ].
Proof.
  revert idx. induction responses as [|x rs IH]; intros idx.
  - exists []. split; [done |]. split; [done |]. intros i r Hi. by rewrite lookup_nil in Hi.
  - destruct (IH (S idx)) as (fs & Hloop & Hlen & Hin).
    cbn [findings_loop]. unfold finding at 1. rewrite rating_description_ok.
    cbn [result_bind]. rewrite Hloop. cbn [result_bind].
    match goal with
    | |- exists fs', Ok (?a ++ mjoin ?b) = _ /\ _ => exists (a :: b)
    end.
    split; [reflexivity |]. split; [simpl; by rewrite Hlen |].
    intros [|i] r Hi; simpl in Hi.
    + injection Hi as <-. eexists. split; [apply rating_description_ok |].
      by rewrite Nat.add_0_r.
    + destruct (Hin i r Hi) as (desc & Hdesc & Hfs).
      exists desc. split; [done |].
      by replace (idx + S i)%nat with (S idx + i)%nat by lia.
Qed.

(** The blocks of the sections, one after the other: the heading of the
    section, then its findings numbered from 1. *)
Lemma sections_loop_exact (sections : odict (list ref)) :
  exists blocks, sections_loop obj sections = Ok (mjoin blocks) /\
    length blocks = length sections /\
    forall j k l, sections !! j = Some (k, l) ->
      exists fs,
        blocks !! j =
          Some ([ FPDF.ln 5; FPDF.set_font "Arial" "B" 11;
                  FPDF.cell 0 8 ("Section: " +:+ k) true "";
                  FPDF.set_font "Arial" "" 10 ] ++ mjoin fs) /\
        length fs = length l /\
        forall i r, l !! i = Some r ->
          exists desc, AuditResponse.rating_description (obj r) = Ok desc /\
            fs !! i =
            Some [ FPDF.multi_cell 0 6
                     (str_of_nat (S i) +:+ ". Item: " +:+
                      ChecklistItem.item (AuditResponse.checklist_item (obj r)) +:+
                      match AuditResponse.context (obj r) with
                      | Some c => if PyStr.truthy c then " (" +:+ c +:+ ")" else ""
                      | None => ""
                      end);
                   FPDF.multi_cell 0 6 ("Rating: " +:+ desc);
                   FPDF.multi_cell 0 6 ("Comment: " +:+ AuditResponse.comment (obj r));
                   FPDF.ln 2 ].
Proof.
  induction sections as [|[k0 l0] sections (blocks & Hloop & Hlen & Hin)].
  - exists []. split; [done |]. split; [done |].
    intros j k l Hj. by destruct j.
  - destruct (findings_loop_exact 1 l0) as (fs0 & Hloop0 & Hlen0 & Hin0).
    cbn [sections_loop]. rewrite Hloop0. cbn [result_bind]. rewrite Hloop.
    cbn [result_bind].
    exists (([ FPDF.ln 5; FPDF.set_font "Arial" "B" 11;
               FPDF.cell 0 8 ("Section: " +:+ k0) true "";
               FPDF.set_font "Arial" "" 10 ] ++ mjoin fs0) :: blocks).
    split; [| split; [simpl; by rewrite Hlen |]].
    { reflexivity. }
    intros [|j] k l Hj; simpl in Hj.
    + injection Hj as <- <-. exists fs0. split; [done |]. split; [done |]. exact Hin0.
    + exact (Hin j k l Hj).
Qed.

(** X16. The document that [generate_pdf_report] writes is the head of the
    report followed by one block for each section of the responses, in the
    order of the sections; the block of a section is its heading followed by
    one finding for each of its responses, in their order: the item numbered
    within its section from 1, with the context in brackets when there is
    one, then the rating description, the comment and a line break. It makes
    19 calls for the head, 4 for each section and 4 for each response, so
    that no response is left out or shown twice; for a session without
    responses it is the head alone. *)
Theorem report_holds_every_finding (session : AuditSession.t) :
  exists sections pdf,
    AuditSession.get_responses_by_section obj session = Ok sections /\
    generate_pdf_report obj py_str session None =
      Ok (session, "audits/" +:+ AuditSession.session_id session +:+ ".pdf", Some pdf,
          [logging_info "PDF report generated at %s"
             ("audits/" +:+ AuditSession.session_id session +:+ ".pdf")]) /\
    (exists blocks,
       pdf = report_head py_str session ++ mjoin blocks /\
       length blocks = length sections /\
       forall j k l, sections !! j = Some (k, l) ->
         exists fs,
           blocks !! j =
             Some ([ FPDF.ln 5; FPDF.set_font "Arial" "B" 11;
                     FPDF.cell 0 8 ("Section: " +:+ k) true "";
                     FPDF.set_font "Arial" "" 10 ] ++ mjoin fs) /\
           length fs = length l /\
           forall i r, l !! i = Some r ->
             exists desc, AuditResponse.rating_description (obj r) = Ok desc /\
               fs !! i =
               Some [ FPDF.multi_cell 0 6
                        (str_of_nat (S i) +:+ ". Item: " +:+
                         ChecklistItem.item (AuditResponse.checklist_item (obj r)) +:+
                         match AuditResponse.context (obj r) with
                         | Some c => if PyStr.truthy c then " (" +:+ c +:+ ")" else ""
                         | None => ""
                         end);
                      FPDF.multi_cell 0 6 ("Rating: " +:+ desc);
                      FPDF.multi_cell 0 6
                        ("Comment: " +:+ AuditResponse.comment (obj r));
                      FPDF.ln 2 ]) /\
    length pdf =
      (19 + 4 * length sections + 4 * length (AuditSession.responses session))%nat /\
    (AuditSession.responses session = [] -> pdf = report_head py_str session) /\
    (forall k l, (k, l) ∈ sections ->
       FPDF.cell 0 8 ("Section: " +:+ k) true "" ∈ pdf /\
       forall i r, l !! i = Some r ->
         exists desc fops, AuditResponse.rating_description (obj r) = Ok desc /\
           finding (S i) (obj r) = Ok fops /\ fops ⊆ pdf /\
           FPDF.multi_cell 0 6 ("Rating: " +:+ desc) ∈ pdf /\
           FPDF.multi_cell 0 6 ("Comment: " +:+ AuditResponse.comment (obj r)) ∈ pdf) /\
    (forall r, r ∈ AuditSession.responses session ->
       FPDF.multi_cell 0 6 ("Comment: " +:+ AuditResponse.comment (obj r)) ∈ pdf).
Proof.
  pose proof (get_responses_by_section_ok obj session) as Hget.
  destruct (sections_loop_content
              (partition_by_section obj (AuditSession.responses session)))
    as (ops & Hloop & Hlen & Hin).
  exists (partition_by_section obj (AuditSession.responses session)),
         (report_head py_str session ++ ops).
  split; [done |]. split.
  { unfold generate_pdf_report. rewrite Hget. simpl. rewrite Hloop. reflexivity. }
  assert (Hperm : mjoin ((partition_by_section obj (AuditSession.responses session)).*2)
                  ≡ₚ AuditSession.responses session).
  { rewrite partition_values. apply partition_flatten; [apply NoDup_first_seen |].
    intros r Hr. apply elem_of_first_seen, list_elem_of_fmap. by exists r. }
  split; [| split; [| split; [| split]]].
  - destruct (sections_loop_exact
                (partition_by_section obj (AuditSession.responses session)))
      as (blocks & Hexact & Hblocks & Hblock).
    exists blocks. split; [| done].
    rewrite Hloop in Hexact. by injection Hexact as ->.
  - rewrite length_app, Hlen, (Permutation_length Hperm). simpl. lia.
  - intros Hnil. rewrite Hnil in Hloop. simpl in Hloop. injection Hloop as <-.
    by rewrite app_nil_r.
  - intros k l Hkl. destruct (Hin k l Hkl) as [Hhead Hrest].
    split; [apply elem_of_app; by right |]. intros i r Hi.
    destruct (Hrest i r Hi) as (desc & fops & Hdesc & Hfind & Hsub & Hrating & Hcomment).
    exists desc, fops. split; [done |]. split; [done |]. split; [| split].
    + intros op Hop. apply elem_of_app. right. by apply Hsub.
    + apply elem_of_app. by right.
    + apply elem_of_app. by right.
  - intros r Hr.
    assert (Hkl : (AuditSession.section_of obj r,
                   filter (fun x => AuditSession.section_of obj x =
                                    AuditSession.section_of obj r)
                          (AuditSession.responses session)) ∈
                  partition_by_section obj (AuditSession.responses session)).
    { apply elem_of_partition. split; [| done]. apply list_elem_of_fmap. by exists r. }
    destruct (Hin _ _ Hkl) as [_ Hrest].
    assert (Hrl : r ∈ filter (fun x => AuditSession.section_of obj x =
                                       AuditSession.section_of obj r)
                             (AuditSession.responses session))
      by by apply list_elem_of_filter.
    apply list_elem_of_lookup in Hrl as [i Hi].
    destruct (Hrest i r Hi) as (desc & fops & _ & _ & _ & _ & Hcomment).
    apply elem_of_app. by right.
Qed.

End ReportFacts.

Lemma report_holds_every_finding_witness :
  exists pdf,
    generate_pdf_report Sample.store (fun _ => "-") (Sample.session [0; 2; 0]%nat) None =
      Ok (Sample.session [0; 2; 0]%nat, "audits/Grand_Hotel_20250307_090500.pdf",
          Some pdf,
          [logging_info "PDF report generated at %s"
             "audits/Grand_Hotel_20250307_090500.pdf"]) /\
    length pdf = 39%nat /\
    FPDF.multi_cell 0 6 "2. Item: Flooring condition" ∈ pdf /\
    FPDF.multi_cell 0 6 "Comment: Dim" ∈ pdf.
Proof.
  destruct (report_holds_every_finding Sample.store (fun _ => "-")
              (Sample.session [0; 2; 0]%nat))
    as (sections & pdf & Hget & Hreport & _ & Hlen & _ & Hsections & Hall).
  exists pdf. split; [exact Hreport |].
  vm_compute in Hget. injection Hget as <-.
  split; [exact Hlen |]. split.
  - destruct (Hsections "Main Lobby" [0; 0]%nat) as [_ Hitems]; [by left |].
    destruct (Hitems 1%nat 0%nat eq_refl) as (desc & fops & _ & Hfind & Hsub & _).
    apply Hsub. vm_compute in Hfind. injection Hfind as <-. by left.
  - apply (Hall 2%nat). simpl. apply list_elem_of_further, list_elem_of_here.
Defined.

(** * Identifiers and the clock *)

Section IdentifierFacts.
Import Fmt.

Lemma fixed_digits_cut (w : nat) (n m : N) (s s' : string) :
  n < 10 ^ N.of_nat w -> m < 10 ^ N.of_nat w ->
  fixed_digits w n +:+ s = fixed_digits w m +:+ s' -> n = m /\ s = s'.
Proof.
  intros Hn Hm Heq. apply (f_equal (take_digits w 0)) in Heq.
  rewrite !take_digits_fixed, !N.mul_0_l, !N.add_0_l, !N.mod_small in Heq by done.
  by injection Heq.
Qed.

(** The stamp of an identifier tells the instants apart to the second. *)
Lemma stamp_to_the_second (t1 t2 : datetime) :
  valid_datetime t1 -> valid_datetime t2 ->
  Datetime.strftime "%Y%m%d_%H%M%S" t1 = Datetime.strftime "%Y%m%d_%H%M%S" t2 ->
  year t1 = year t2 /\ month t1 = month t2 /\ day t1 = day t2 /\
  hour t1 = hour t2 /\ minute t1 = minute t2 /\ second t1 = second t2.
Proof.
  intros (Hy1 & Hmo1 & Hd1 & Hh1 & Hmi1 & Hs1 & _) (Hy2 & Hmo2 & Hd2 & Hh2 & Hmi2 & Hs2 & _).
  rewrite !strftime_second.
  do 12 (rewrite zero_padded_fixed by (vm_compute (10 ^ _); lia)).
  intros Heq.
  apply fixed_digits_cut in Heq as [Hy Heq]; [| vm_compute (10 ^ _); lia..].
  apply fixed_digits_cut in Heq as [Hmo Heq]; [| vm_compute (10 ^ _); lia..].
  apply fixed_digits_cut in Heq as [Hd Heq]; [| vm_compute (10 ^ _); lia..].
  apply (inj (String.append "_")) in Heq.
  apply fixed_digits_cut in Heq as [Hh Heq]; [| vm_compute (10 ^ _); lia..].
  apply fixed_digits_cut in Heq as [Hmi Heq]; [| vm_compute (10 ^ _); lia..].
  rewrite <- (str_app_nil_r (fixed_digits 2 (second t1))) in Heq.
  rewrite <- (str_app_nil_r (fixed_digits 2 (second t2))) in Heq.
  apply fixed_digits_cut in Heq as [Hs _]; [| vm_compute (10 ^ _); lia..].
  done.
Qed.

(** X17. Two sessions for the same hotel information get the same identifier
    exactly when their instants of creation agree to the second, whatever the
    microseconds, the auditors and the timestamps: such sessions share the
    path of their snapshot and of their report. *)
Theorem session_id_to_the_second (hotel_info : gmap string pyval)
    (auditor1 auditor2 : string) (t1 t2 ts1 ts2 : datetime)
    (session1 session2 : AuditSession.t) :
  valid_datetime t1 -> valid_datetime t2 ->
  AuditSession.new hotel_info auditor1 t1 ts1 = Ok session1 ->
  AuditSession.new hotel_info auditor2 t2 ts2 = Ok session2 ->
  (AuditSession.session_id session1 = AuditSession.session_id session2 <->
   year t1 = year t2 /\ month t1 = month t2 /\ day t1 = day t2 /\
   hour t1 = hour t2 /\ minute t1 = minute t2 /\ second t1 = second t2) /\
  (AuditSession.session_id session1 = AuditSession.session_id session2 ->
   forall obj write1 write2,
     (AuditSession.save_to_file obj session1 write1).1.1.2 =
     (AuditSession.save_to_file obj session2 write2).1.1.2).
Proof.
  intros Hv1 Hv2. unfold AuditSession.new.
  destruct (default (VStr "Hotel") (hotel_info !! "name")) as [| |name| |];
    try discriminate.
  intros H1 H2. injection H1 as <-. injection H2 as <-.
  cbn [AuditSession.session_id]. split.
  - split.
    + intros Heq. apply (inj (String.append _)) in Heq.
      apply (inj (String.append "_")) in Heq. by apply stamp_to_the_second.
    + intros (Hy & Hmo & Hd & Hh & Hmi & Hs).
      assert (Hstamp : Datetime.strftime "%Y%m%d_%H%M%S" t1 =
                       Datetime.strftime "%Y%m%d_%H%M%S" t2).
      { rewrite !strftime_second. by rewrite Hy, Hmo, Hd, Hh, Hmi, Hs. }
      change (PyStr.replace_char " " "_" name +:+ "_" +:+
                Datetime.strftime "%Y%m%d_%H%M%S" t1 =
              PyStr.replace_char " " "_" name +:+ "_" +:+
                Datetime.strftime "%Y%m%d_%H%M%S" t2).
      by rewrite Hstamp.
  - intros Heq obj write1 write2. unfold AuditSession.save_to_file.
    cbn [AuditSession.session_id]. rewrite Heq. by destruct write1, write2.
Qed.

(** X18. What the table shows as a rating is stable: resolving the shown
    rating again gives the same text, be it a canonical option or a stored
    rating that matches none. *)
Theorem rating_desc_idempotent (rating shown : string) :
  rating_desc rating = Ok shown -> rating_desc shown = Ok shown.
Proof.
  intros Hshown.
  destruct (rating_desc_cases rating) as (shown' & Hshown' & Hcases).
  replace shown' with shown in * by congruence.
  destruct Hcases as [(pre & post & Hl & _)|[-> _]]; [| done].
  apply rating_desc_canonical. rewrite Hl. apply elem_of_app. right. by left.
Qed.

End IdentifierFacts.

Lemma session_id_to_the_second_witness :
  exists session1 session2,
    AuditSession.new Sample.grand_hotel "Ann" Sample.instant Sample.instant =
      Ok session1 /\
    AuditSession.new Sample.grand_hotel "Bob" (mk_datetime 2025 3 7 9 5 0 999)
      (mk_datetime 2025 3 7 9 5 1 0) = Ok session2 /\
    AuditSession.session_id session1 = AuditSession.session_id session2.
Proof.
  eexists _, _. split; [reflexivity |]. split; [reflexivity |].
  refine (proj2 (proj1 (session_id_to_the_second Sample.grand_hotel "Ann" "Bob"
                         Sample.instant (mk_datetime 2025 3 7 9 5 0 999)
                         Sample.instant (mk_datetime 2025 3 7 9 5 1 0) _ _
                         _ _ eq_refl eq_refl)) _).
  - unfold valid_datetime. simpl. lia.
  - unfold valid_datetime. simpl. lia.
  - by repeat split.
Defined.

Lemma rating_desc_idempotent_witness :
  rating_desc "2" = Ok "2 - Needs to be changed to match competing hotels" /\
  rating_desc "2 - Needs to be changed to match competing hotels" =
    Ok "2 - Needs to be changed to match competing hotels".
Proof.
  split; [reflexivity |].
  exact (rating_desc_idempotent "2" _ eq_refl).
Defined.
